(** * Bookkeeping statement parser: extraction, normalisation, reconciliation,
      edits, review, export

    A shallow embedding of the parser core (parseStatementText,
    parseDateString, validateDocument, normalizeTransactions,
    reconcileStatement, applyEdit, generateReviewStatus, generateCSVExport,
    generateOFXExport, generateTransactionHash, simpleHash), of the page
    handlers and table helpers that call it, and of the part of the
    JavaScript runtime these functions rely on.

    Numbers are IEEE 754 binary64 values (Rocq's primitive floats), so the
    arithmetic of the model is the arithmetic of the program.  Strings are
    sequences of code units below 256 (Rocq's [string]).  Regular
    expressions are matched by a backtracking matcher for the fragment of
    the pattern language the program's literals use.  The runtime services
    left abstract are those ECMAScript leaves to the implementation: parsing
    a date string (new Date(s), and the month it yields) and printing a time
    value (toISOString); they are section variables, and reference instances
    are provided for evaluation. *)

From Stdlib Require Import ZArith String Ascii List Bool Lia.
From Stdlib Require Import Floats.
From Stdlib Require DecimalString HexadecimalString DecimalPos DecimalN.
From stdpp Require Import gmap strings list.

Set Warnings "-inexact-float".

#[local] Open Scope Z_scope.

(** ** The JavaScript runtime the parser uses *)

Module Js.

(** A property that may be missing (undefined), null, or hold a value. *)
Inductive nullable (A : Type) : Type :=
| Undefined : nullable A
| Null : nullable A
| Present : A -> nullable A.
Arguments Undefined {A}.
Arguments Null {A}.
Arguments Present {A} _.

(** Reading a [T | null] property into a [T | null | undefined] slot. *)
Definition ofOption {A : Type} (o : option A) : nullable A :=
  match o with
  | Some a => Present a
  | None => Null
  end.

(** *** Truthiness *)

Definition truthyString (s : string) : bool :=
  match s with
  | EmptyString => false
  | String _ _ => true
  end.

Definition isNaN (x : float) : bool := negb (PrimFloat.eqb x x).

(** A number is falsy when it is +0, -0 or NaN. *)
Definition truthyNumber (x : float) : bool :=
  negb (PrimFloat.eqb x 0%float) && negb (isNaN x).

Definition truthyOptString (o : option string) : bool :=
  match o with
  | Some s => truthyString s
  | None => false
  end.

Definition truthyNullableString (o : nullable string) : bool :=
  match o with
  | Present s => truthyString s
  | _ => false
  end.

(** [x || 0] for an optional number. *)
Definition numberOrZero (o : nullable float) : float :=
  match o with
  | Present x => if truthyNumber x then x else 0%float
  | _ => 0%float
  end.

(** [s || d] for an optional string. *)
Definition stringOr (o : nullable string) (d : string) : string :=
  match o with
  | Present s => if truthyString s then s else d
  | _ => d
  end.

(** *** 32-bit integers *)

(** ToInt32: wrap an integer into [-2^31, 2^31). *)
Definition toInt32 (z : Z) : Z := (z + 2147483648) mod 4294967296 - 2147483648.

(** [h << n] on a 32-bit integer. *)
Definition shl32 (h n : Z) : Z := toInt32 (Z.shiftl h n).

(** [h & g] on 32-bit integers. *)
Definition and32 (h g : Z) : Z := toInt32 (Z.land (toInt32 h) (toInt32 g)).

(** *** Strings *)

Definition charCode (c : ascii) : Z := Z.of_N (N_of_ascii c).

Definition charOf (z : Z) : ascii := ascii_of_N (Z.to_N z).

Definition str1 (c : ascii) : string := String c EmptyString.

Fixpoint filterChars (p : ascii -> bool) (s : string) : string :=
  match s with
  | EmptyString => EmptyString
  | String c r => if p c then String c (filterChars p r) else filterChars p r
  end.

(** [s.replace(/c/g, by)] for a single character pattern. *)
Fixpoint replaceChar (c : ascii) (by_ : string) (s : string) : string :=
  match s with
  | EmptyString => EmptyString
  | String d r =>
      if Ascii.eqb c d then String.append by_ (replaceChar c by_ r)
      else String d (replaceChar c by_ r)
  end.

(** [s.substring(0, n)]. *)
Definition substring0 (n : nat) (s : string) : string := String.substring 0 n s.

Fixpoint repeatChar (c : ascii) (n : nat) : string :=
  match n with
  | O => EmptyString
  | S k => String c (repeatChar c k)
  end.

(** [s.padEnd(n, c)] with a one-character filler. *)
Definition padEnd (n : nat) (c : ascii) (s : string) : string :=
  String.append s (repeatChar c (n - String.length s)).

(** [s.split(c)[0]]: the part of [s] before the first [c]. *)
Fixpoint beforeChar (c : ascii) (s : string) : string :=
  match s with
  | EmptyString => EmptyString
  | String d r => if Ascii.eqb c d then EmptyString else String d (beforeChar c r)
  end.

Definition isDigit (c : ascii) : bool :=
  (48 <=? charCode c) && (charCode c <=? 57).

Definition digitValue (c : ascii) : Z := charCode c - 48.

Definition decimalOfZ (n : Z) : string :=
  DecimalString.NilZero.string_of_uint (N.to_uint (Z.to_N n)).

(** [n.toString(16)] for a non-negative integer. *)
Definition hexOfZ (n : Z) : string :=
  HexadecimalString.NilZero.string_of_uint (N.to_hex_uint (Z.to_N n)).

(** *** Numbers *)

Definition floatOfZ (z : Z) : float :=
  SF2Prim (binary_normalize prec emax z 0 false).

(** The double nearest to [m * 10^p] (ties to even), for [0 <= m]. *)
Definition decimalToFloat (neg : bool) (m p : Z) : float :=
  if m =? 0 then (if neg then neg_zero else zero)
  else if 0 <=? p then
    SF2Prim (binary_normalize prec emax ((if neg then - m else m) * 10 ^ p) 0 false)
  else
    SF2Prim (SFdiv prec emax (S754_finite neg (Z.to_pos m) 0)
                             (S754_finite false (Z.to_pos (10 ^ (- p))) 0)).

(** Math.round: the nearest integer, a tie going towards +Infinity; the
    sign of zero is kept for arguments in [-0.5, 0). *)
Definition Math_round (x : float) : float :=
  match Prim2SF x with
  | S754_finite s m e =>
      if 0 <=? e then x
      else
        let d := 2 ^ (- e) in
        let v := if s then Z.neg m else Z.pos m in
        let n := (2 * v + d) / (2 * d) in
        if n =? 0 then (if s then neg_zero else zero) else floatOfZ n
  | _ => x
  end.

Definition Math_abs (x : float) : float := PrimFloat.abs x.

(** White space and line terminators among the code units below 256. *)
Definition isWhiteSpace (c : ascii) : bool :=
  let n := charCode c in
  ((9 <=? n) && (n <=? 13)) || (n =? 32) || (n =? 160).

Fixpoint trimStart (s : string) : string :=
  match s with
  | String c r => if isWhiteSpace c then trimStart r else s
  | EmptyString => s
  end.

(** The longest run of decimal digits at the head of [s], accumulated on
    [acc]; the number of digits read; the rest of the string. *)
Fixpoint readDigits (s : string) (acc n : Z) : Z * Z * string :=
  match s with
  | String c r =>
      if isDigit c then readDigits r (10 * acc + digitValue c) (n + 1)
      else (acc, n, s)
  | EmptyString => (acc, n, s)
  end.

(** The value of an ExponentPart at the head of [r]; 0 when there is none. *)
Definition readExponent (r : string) : Z :=
  match r with
  | String c r1 =>
      if (charCode c =? 101) || (charCode c =? 69) then
        match r1 with
        | String d r2 =>
            if charCode d =? 43 then
              let '(v, n, _) := readDigits r2 0 0 in if n =? 0 then 0 else v
            else if charCode d =? 45 then
              let '(v, n, _) := readDigits r2 0 0 in if n =? 0 then 0 else - v
            else
              let '(v, n, _) := readDigits r1 0 0 in if n =? 0 then 0 else v
        | EmptyString => 0
        end
      else 0
  | EmptyString => 0
  end.

(** The longest prefix that is a StrUnsignedDecimalLiteral, as a number. *)
Definition parseUnsigned (neg : bool) (s : string) : float :=
  let '(ip, ni, r1) := readDigits s 0 0 in
  match r1 with
  | String c r2 =>
      if charCode c =? 46 then
        let '(m, nf, r3) := readDigits r2 ip 0 in
        if (ni =? 0) && (nf =? 0) then nan
        else decimalToFloat neg m (readExponent r3 - nf)
      else if ni =? 0 then
        (if String.prefix "Infinity" s
         then (if neg then neg_infinity else infinity) else nan)
      else decimalToFloat neg ip (readExponent r1)
  | EmptyString => if ni =? 0 then nan else decimalToFloat neg ip 0
  end.

(** parseFloat: leading white space is skipped, then the longest prefix
    that is a StrDecimalLiteral is converted; NaN when there is none. *)
Definition parseFloat (s : string) : float :=
  let t := trimStart s in
  match t with
  | String c r =>
      if charCode c =? 43 then parseUnsigned false r
      else if charCode c =? 45 then parseUnsigned true r
      else parseUnsigned false t
  | EmptyString => nan
  end.

(** [10^n <= num/den]. *)
Definition pow10Le (n num den : Z) : bool :=
  if 0 <=? n then 10 ^ n * den <=? num else den <=? num * 10 ^ (- n).

(** The least [n' >= n] with [num/den < 10^n']. *)
Fixpoint decExpFrom (fuel : nat) (n num den : Z) : Z :=
  match fuel with
  | O => n
  | S f => if pow10Le n num den then decExpFrom f (n + 1) num den else n
  end.

(** The decimal exponent [n] of a positive fraction: [10^(n-1) <= num/den < 10^n]. *)
Definition decExp (num den : Z) : Z :=
  decExpFrom 8 ((Z.log2 num - Z.log2 den - 1) * 30103 / 100000 - 1) num den.

(** The shortest decimal [s * 10^p] that reads back as [x = num/den]:
    for [k = 1, 2, ...] digits the two [k]-digit neighbours of [x] are
    tried, and of two that read back the closer one is taken. *)
Fixpoint shortestDecimal (fuel : nat) (k : Z) (x : float) (num den n0 : Z) : Z * Z :=
  match fuel with
  | O => (0, 0)
  | S f =>
      let p := n0 - k in
      let lo := if 0 <=? p then num / (den * 10 ^ p) else num * 10 ^ (- p) / den in
      let hi := lo + 1 in
      let okLo := PrimFloat.eqb (decimalToFloat false lo p) x in
      let okHi := PrimFloat.eqb (decimalToFloat false hi p) x in
      if okLo && okHi then
        let rn := if 0 <=? p then num - lo * den * 10 ^ p else num * 10 ^ (- p) - lo * den in
        let rd := if 0 <=? p then den * 10 ^ p else den in
        if 2 * rn <? rd then (lo, p)
        else if rd <? 2 * rn then (hi, p)
        else if Z.even lo then (lo, p) else (hi, p)
      else if okLo then (lo, p)
      else if okHi then (hi, p)
      else shortestDecimal f (k + 1) x num den n0
  end.

Fixpoint stripZeros (fuel : nat) (s p : Z) : Z * Z :=
  match fuel with
  | O => (s, p)
  | S f => if (s mod 10 =? 0) && negb (s =? 0) then stripZeros f (s / 10) (p + 1) else (s, p)
  end.

Definition dropString (n : nat) (s : string) : string :=
  String.substring n (String.length s - n) s.

(** Number::toString for a positive finite [x = m * 2^e]. *)
Definition positiveToString (x : float) (m : positive) (e : Z) : string :=
  let num := if 0 <=? e then Z.pos m * 2 ^ e else Z.pos m in
  let den := if 0 <=? e then 1 else 2 ^ (- e) in
  let '(s0, p0) := shortestDecimal 17 1 x num den (decExp num den) in
  let '(s, p) := stripZeros 20 s0 p0 in
  let ds := decimalOfZ s in
  let k := Z.of_nat (String.length ds) in
  let n := k + p in
  if (k <=? n) && (n <=? 21) then
    String.append ds (repeatChar "0" (Z.to_nat (n - k)))
  else if (0 <? n) && (n <=? 21) then
    String.append (substring0 (Z.to_nat n) ds)
      (String "." (dropString (Z.to_nat n) ds))
  else if (-6 <? n) && (n <=? 0) then
    String.append "0." (String.append (repeatChar "0" (Z.to_nat (- n))) ds)
  else
    let ex := String.append (if 0 <=? n - 1 then "e+" else "e-") (decimalOfZ (Z.abs (n - 1))) in
    if k =? 1 then String.append ds ex
    else String.append (substring0 1 ds)
           (String "." (String.append (dropString 1 ds) ex)).

(** Number::toString (radix 10), as in a template literal. *)
Definition Number_toString (x : float) : string :=
  match Prim2SF x with
  | S754_nan => "NaN"
  | S754_zero _ => "0"
  | S754_infinity s => if s then "-Infinity" else "Infinity"
  | S754_finite s m e =>
      let body := positiveToString (PrimFloat.abs x) m e in
      if s then String "-" body else body
  end.

(** [x.toFixed(2)]. *)
Definition toFixed2 (x : float) : string :=
  match Prim2SF x with
  | S754_zero _ => "0.00"
  | S754_finite s m e =>
      if PrimFloat.leb 1e21%float (PrimFloat.abs x) then Number_toString x
      else
        let num := if 0 <=? e then Z.pos m * 2 ^ e else Z.pos m in
        let den := if 0 <=? e then 1 else 2 ^ (- e) in
        let n := (200 * num + den) / (2 * den) in
        let ds := decimalOfZ n in
        let ds := String.append (repeatChar "0" (3 - String.length ds)) ds in
        let cut := (String.length ds - 2)%nat in
        let body := String.append (substring0 cut ds) (String "." (dropString cut ds)) in
        if s then String "-" body else body
  | _ => Number_toString x
  end.

End Js.

Import Js.

(** ** Data model (types.ts) *)

(** A transaction row.  Properties typed [T | null] are options (None is
    null); optional properties typed [T | null] are [nullable]; optional
    properties that exclude null are options (None is undefined). *)
Record Transaction : Type := mkTransaction {
  rowId : string;
  postedDate : option string;
  description : string;
  debit : option string;
  credit : option string;
  runningBalance : option string;
  normalizedDate : nullable string;
  normalizedAmount : nullable float;
  normalizedBalance : nullable float;
  originalPostedDate : nullable string;
  originalDescription : option string;
  originalDebit : nullable string;
  originalCredit : nullable string;
  isEdited : option bool;
  editedFields : option (list string)
}.

Record StatementMetadata : Type := mkMetadata {
  financialInstitution : option string;
  accountName : option string;
  accountNumberLastFour : option string;
  accountType : option string;
  currency : option string;
  statementStartDate : option string;
  statementEndDate : option string;
  openingBalance : option string;
  closingBalance : option string;
  totalDebits : option string;
  totalCredits : option string;
  normalizedOpeningBalance : option float;
  normalizedClosingBalance : option float;
  normalizedTotalDebits : option float;
  normalizedTotalCredits : option float
}.

Inductive Severity : Type := error | warning.

Module Flag.
Record t : Type := mk {
  rowId : option string;
  severity : Severity;
  message : string;
  field : option string;
  suggestedFix : option string
}.
End Flag.
Abbreviation ValidationFlag := Flag.t.

Inductive Status : Type := PASS | BLOCK.

Record ValidationResult : Type := mkResult {
  status : Status;
  flags : list ValidationFlag;
  isReconciled : bool;
  totalTransactions : nat;
  flaggedRowsCount : nat
}.

Module Hash.
Record t : Type := mk {
  rowId : string;
  hash : string;
  date : string;
  amount : float;
  description : string;
  accountLastFour : string
}.
End Hash.
Abbreviation TransactionHash := Hash.t.

Record NormalizeResult : Type := mkNormalized {
  normalized : list Transaction;
  errors : list ValidationFlag
}.

(** *** Property assignment on a copy of a transaction *)

Definition setPostedDate (v : option string) (t : Transaction) : Transaction :=
  mkTransaction (rowId t) v (description t) (debit t) (credit t)
    (runningBalance t) (normalizedDate t) (normalizedAmount t)
    (normalizedBalance t) (originalPostedDate t) (originalDescription t)
    (originalDebit t) (originalCredit t) (isEdited t) (editedFields t).

Definition setDescription (v : string) (t : Transaction) : Transaction :=
  mkTransaction (rowId t) (postedDate t) v (debit t) (credit t)
    (runningBalance t) (normalizedDate t) (normalizedAmount t)
    (normalizedBalance t) (originalPostedDate t) (originalDescription t)
    (originalDebit t) (originalCredit t) (isEdited t) (editedFields t).

Definition setDebit (v : option string) (t : Transaction) : Transaction :=
  mkTransaction (rowId t) (postedDate t) (description t) v (credit t)
    (runningBalance t) (normalizedDate t) (normalizedAmount t)
    (normalizedBalance t) (originalPostedDate t) (originalDescription t)
    (originalDebit t) (originalCredit t) (isEdited t) (editedFields t).

Definition setCredit (v : option string) (t : Transaction) : Transaction :=
  mkTransaction (rowId t) (postedDate t) (description t) (debit t) v
    (runningBalance t) (normalizedDate t) (normalizedAmount t)
    (normalizedBalance t) (originalPostedDate t) (originalDescription t)
    (originalDebit t) (originalCredit t) (isEdited t) (editedFields t).

Definition setNormalizedDate (v : nullable string) (t : Transaction) : Transaction :=
  mkTransaction (rowId t) (postedDate t) (description t) (debit t) (credit t)
    (runningBalance t) v (normalizedAmount t)
    (normalizedBalance t) (originalPostedDate t) (originalDescription t)
    (originalDebit t) (originalCredit t) (isEdited t) (editedFields t).

Definition setNormalizedAmount (v : nullable float) (t : Transaction) : Transaction :=
  mkTransaction (rowId t) (postedDate t) (description t) (debit t) (credit t)
    (runningBalance t) (normalizedDate t) v
    (normalizedBalance t) (originalPostedDate t) (originalDescription t)
    (originalDebit t) (originalCredit t) (isEdited t) (editedFields t).

Definition setNormalizedBalance (v : nullable float) (t : Transaction) : Transaction :=
  mkTransaction (rowId t) (postedDate t) (description t) (debit t) (credit t)
    (runningBalance t) (normalizedDate t) (normalizedAmount t)
    v (originalPostedDate t) (originalDescription t)
    (originalDebit t) (originalCredit t) (isEdited t) (editedFields t).

Definition setOriginalPostedDate (v : nullable string) (t : Transaction) : Transaction :=
  mkTransaction (rowId t) (postedDate t) (description t) (debit t) (credit t)
    (runningBalance t) (normalizedDate t) (normalizedAmount t)
    (normalizedBalance t) v (originalDescription t)
    (originalDebit t) (originalCredit t) (isEdited t) (editedFields t).

Definition setOriginalDescription (v : option string) (t : Transaction) : Transaction :=
  mkTransaction (rowId t) (postedDate t) (description t) (debit t) (credit t)
    (runningBalance t) (normalizedDate t) (normalizedAmount t)
    (normalizedBalance t) (originalPostedDate t) v
    (originalDebit t) (originalCredit t) (isEdited t) (editedFields t).

Definition setOriginalDebit (v : nullable string) (t : Transaction) : Transaction :=
  mkTransaction (rowId t) (postedDate t) (description t) (debit t) (credit t)
    (runningBalance t) (normalizedDate t) (normalizedAmount t)
    (normalizedBalance t) (originalPostedDate t) (originalDescription t)
    v (originalCredit t) (isEdited t) (editedFields t).

Definition setOriginalCredit (v : nullable string) (t : Transaction) : Transaction :=
  mkTransaction (rowId t) (postedDate t) (description t) (debit t) (credit t)
    (runningBalance t) (normalizedDate t) (normalizedAmount t)
    (normalizedBalance t) (originalPostedDate t) (originalDescription t)
    (originalDebit t) v (isEdited t) (editedFields t).

Definition setIsEdited (v : option bool) (t : Transaction) : Transaction :=
  mkTransaction (rowId t) (postedDate t) (description t) (debit t) (credit t)
    (runningBalance t) (normalizedDate t) (normalizedAmount t)
    (normalizedBalance t) (originalPostedDate t) (originalDescription t)
    (originalDebit t) (originalCredit t) v (editedFields t).

Definition setEditedFields (v : option (list string)) (t : Transaction) : Transaction :=
  mkTransaction (rowId t) (postedDate t) (description t) (debit t) (credit t)
    (runningBalance t) (normalizedDate t) (normalizedAmount t)
    (normalizedBalance t) (originalPostedDate t) (originalDescription t)
    (originalDebit t) (originalCredit t) (isEdited t) v.

(** ** Pushing flags

    Both checking stages build their flag list by [push] on a local array;
    the array is the state of this small state monad. *)

Definition Emit (A : Type) : Type := list ValidationFlag -> A * list ValidationFlag.

Definition ret {A : Type} (a : A) : Emit A := fun fl => (a, fl).

Definition bind {A B : Type} (m : Emit A) (k : A -> Emit B) : Emit B :=
  fun fl => let '(a, fl') := m fl in k a fl'.

Definition push (f : ValidationFlag) : Emit unit := fun fl => (tt, fl ++ [f]).

Notation "'do' x <- m ; k" := (bind m (fun x => k))
  (at level 10, x name, m at level 100, k at level 200).
Notation "'run' m ; k" := (bind m (fun _ => k))
  (at level 10, m at level 100, k at level 200).

(** [array.map(callback)] with a callback that pushes flags. *)
Fixpoint mapEmit {A B : Type} (f : A -> Emit B) (l : list A) : Emit (list B) :=
  match l with
  | [] => ret []
  | a :: r => do b <- f a; do bs <- mapEmit f r; ret (b :: bs)
  end.

(** [for (const a of array) body]. *)
Fixpoint forEmit {A : Type} (f : A -> Emit unit) (l : list A) : Emit unit :=
  match l with
  | [] => ret tt
  | a :: r => run f a; forEmit f r
  end.

(** ** simpleHash *)

(** One round of the loop: [hash = (hash << 5) - hash + char; hash = hash & hash]. *)
Definition hashStep (hash : Z) (c : ascii) : Z :=
  let hash := shl32 hash 5 - hash + charCode c in
  and32 hash hash.

Fixpoint hashLoop (input : string) (hash : Z) : Z :=
  match input with
  | EmptyString => hash
  | String c r => hashLoop r (hashStep hash c)
  end.

Definition simpleHash (input : string) : string :=
  hexOfZ (Z.abs (hashLoop input 0)).

(** ** A reference date engine: the ISO date-only form

    ECMAScript fixes the meaning of [new Date(s)] only for its own
    date-time format; everything else is left to the implementation.  This
    instance reads YYYY-MM-DD (UTC midnight) and rejects every other string;
    it is used to evaluate the pipeline on concrete statements. *)

Module IsoDate.

(** Days from 1970-01-01 to the civil date [y-m-d]. *)
Definition daysFromCivil (y m d : Z) : Z :=
  let y' := if m <=? 2 then y - 1 else y in
  let era := y' / 400 in
  let yoe := y' - era * 400 in
  let doy := (153 * (if 2 <? m then m - 3 else m + 9) + 2) / 5 + d - 1 in
  let doe := yoe * 365 + yoe / 4 - yoe / 100 + doy in
  era * 146097 + doe - 719468.

(** The civil date of a day number. *)
Definition civilFromDays (z : Z) : Z * Z * Z :=
  let z := z + 719468 in
  let era := z / 146097 in
  let doe := z - era * 146097 in
  let yoe := (doe - doe / 1460 + doe / 36524 - doe / 146096) / 365 in
  let doy := doe - (365 * yoe + yoe / 4 - yoe / 100) in
  let mp := (5 * doy + 2) / 153 in
  let d := doy - (153 * mp + 2) / 5 + 1 in
  let m := if mp <? 10 then mp + 3 else mp - 9 in
  ((if m <=? 2 then yoe + era * 400 + 1 else yoe + era * 400), m, d).

Definition msPerDay : Z := 86400000.

Definition allDigits (s : string) : bool :=
  String.eqb (filterChars isDigit s) s.

Definition number (s : string) : Z := fst (fst (readDigits s 0 0)).

(** The time value of [new Date(s)], None for an Invalid Date. *)
Definition parse (s : string) : option Z :=
  let y := String.substring 0 4 s in
  let m := String.substring 5 2 s in
  let d := String.substring 8 2 s in
  if (String.length s =? 10)%nat
     && String.eqb (String.substring 4 1 s) "-"
     && String.eqb (String.substring 7 1 s) "-"
     && allDigits y && allDigits m && allDigits d
     && (1 <=? number m) && (number m <=? 12)
     && (1 <=? number d) && (number d <=? 31)
  then Some (daysFromCivil (number y) (number m) (number d) * msPerDay)
  else None.

Definition pad (n : nat) (z : Z) : string :=
  let ds := decimalOfZ z in
  String.append (repeatChar "0" (n - String.length ds)) ds.

(** [toISOString] of a valid time value. *)
Definition toISOString (t : Z) : string :=
  let '(y, m, d) := civilFromDays (t / msPerDay) in
  let ms := t mod msPerDay in
  let year :=
    if (0 <=? y) && (y <=? 9999) then pad 4 y
    else String.append (if y <? 0 then "-" else "+") (pad 6 (Z.abs y)) in
  String.append year (String.append "-" (String.append (pad 2 m)
    (String.append "-" (String.append (pad 2 d)
    (String.append "T" (String.append (pad 2 (ms / 3600000))
    (String.append ":" (String.append (pad 2 (ms / 60000 mod 60))
    (String.append ":" (String.append (pad 2 (ms / 1000 mod 60))
    (String.append "." (String.append (pad 3 (ms mod 1000)) "Z")))))))))))).

End IsoDate.

(** ** PROMPT 6: applyEdit *)

(** [array.includes(x)] on strings. *)
Definition includes (x : string) (l : list string) : bool :=
  existsb (String.eqb x) l.

(** [v || ''] for a [string | null]. *)
Definition optStringOrEmpty (v : option string) : string :=
  match v with
  | Some s => if truthyString s then s else EmptyString
  | None => EmptyString
  end.

Definition applyEdit (transaction : Transaction) (field : string)
    (newValue : option string) : Transaction :=
  (* const edited = { ...transaction } *)
  let edited := transaction in
  (* Store original value if not already stored *)
  let edited :=
    if negb (truthyNullableString (originalPostedDate edited))
       && String.eqb field "postedDate"
    then setOriginalPostedDate (ofOption (postedDate transaction)) edited
    else edited in
  let edited :=
    if negb (truthyOptString (originalDescription edited))
       && String.eqb field "description"
    then setOriginalDescription (Some (description transaction)) edited
    else edited in
  let edited :=
    if negb (truthyNullableString (originalDebit edited))
       && String.eqb field "debit"
    then setOriginalDebit (ofOption (debit transaction)) edited
    else edited in
  let edited :=
    if negb (truthyNullableString (originalCredit edited))
       && String.eqb field "credit"
    then setOriginalCredit (ofOption (credit transaction)) edited
    else edited in
  (* Apply the edit: the switch on the field name *)
  let edited :=
    if String.eqb field "postedDate" then setPostedDate newValue edited
    else if String.eqb field "description"
      then setDescription (optStringOrEmpty newValue) edited
    else if String.eqb field "debit" then setDebit newValue edited
    else if String.eqb field "credit" then setCredit newValue edited
    else edited in
  (* Mark as edited *)
  let edited := setIsEdited (Some true) edited in
  let edited :=
    match editedFields edited with
    | None => setEditedFields (Some []) edited
    | Some _ => edited
    end in
  match editedFields edited with
  | Some fs =>
      if negb (includes field fs)
      then setEditedFields (Some (fs ++ [field])) edited
      else edited
  | None => edited
  end.

(** The copy made by the spread is shallow: when the argument already has
    an editedFields array, the copy shares it, and the push is seen through
    the argument too.  This is the argument as the caller finds it after
    the call. *)
Definition applyEdit_argument (transaction : Transaction) (field : string) : Transaction :=
  match editedFields transaction with
  | Some fs =>
      if negb (includes field fs)
      then setEditedFields (Some (fs ++ [field])) transaction
      else transaction
  | None => transaction
  end.

(** A run of edits, each applied to the result of the one before. *)
Definition applyEdits (transaction : Transaction)
    (edits : list (string * option string)) : Transaction :=
  fold_left (fun t e => applyEdit t (fst e) (snd e)) edits transaction.

(** The shadow property of an editable field. *)
Definition originalOf (field : string) (t : Transaction) : nullable string :=
  if String.eqb field "postedDate" then originalPostedDate t
  else if String.eqb field "description" then
    match originalDescription t with Some s => Present s | None => Undefined end
  else if String.eqb field "debit" then originalDebit t
  else if String.eqb field "credit" then originalCredit t
  else Undefined.

(** The current value of an editable field. *)
Definition valueOf (field : string) (t : Transaction) : nullable string :=
  if String.eqb field "postedDate" then ofOption (postedDate t)
  else if String.eqb field "description" then Present (description t)
  else if String.eqb field "debit" then ofOption (debit t)
  else if String.eqb field "credit" then ofOption (credit t)
  else Undefined.

(** ** PROMPT 10: generateTransactionHash *)

(** A [string | null | undefined] inside a template literal. *)
Definition templateString (o : nullable string) : string :=
  match o with
  | Undefined => "undefined"
  | Null => "null"
  | Present s => s
  end.

(** A [number | null | undefined] inside a template literal. *)
Definition templateNumber (o : nullable float) : string :=
  match o with
  | Undefined => "undefined"
  | Null => "null"
  | Present x => Number_toString x
  end.

Definition hashInput (transaction : Transaction) (accountLastFour : string) : string :=
  String.append (rowId transaction) (String.append "|"
  (String.append (templateString (normalizedDate transaction)) (String.append "|"
  (String.append (templateNumber (normalizedAmount transaction)) (String.append "|"
  (String.append (description transaction) (String.append "|" accountLastFour))))))).

Definition generateTransactionHash (transaction : Transaction)
    (accountLastFour : string) : TransactionHash :=
  let hash := simpleHash (hashInput transaction accountLastFour) in
  Hash.mk (rowId transaction) hash
    (stringOr (normalizedDate transaction) EmptyString)
    (numberOrZero (normalizedAmount transaction))
    (description transaction)
    accountLastFour.

Definition generateFITID (transaction : Transaction) (accountLastFour : string) : string :=
  let hash := generateTransactionHash transaction accountLastFour in
  padEnd 32 "0" (substring0 32 (Hash.hash hash)).

(** ** PROMPT 8: generateCSVExport *)

Definition quoteChar : ascii := charOf 34.

Definition newline : string := str1 (charOf 10).

(** [x?.toFixed(2) || '0.00']. *)
Definition fixedOrZero (o : nullable float) : string :=
  match o with
  | Present x => toFixed2 x
  | _ => "0.00"
  end.

Definition csvRow (tx : Transaction) : string :=
  let date := stringOr (normalizedDate tx) EmptyString in
  let description :=
    String quoteChar
      (String.append
         (replaceChar quoteChar (String quoteChar (str1 quoteChar)) (description tx))
         (str1 quoteChar)) in
  let amount := fixedOrZero (normalizedAmount tx) in
  let balance := fixedOrZero (normalizedBalance tx) in
  String.append date (String.append "," (String.append description
    (String.append "," (String.append amount (String.append "," balance))))).

(** [rows.join(sep)]. *)
Fixpoint join (sep : string) (rows : list string) : string :=
  match rows with
  | [] => EmptyString
  | [r] => r
  | r :: rest => String.append r (String.append sep (join sep rest))
  end.

Definition generateCSVExport (transactions : list Transaction) (isReady : bool)
    : option string :=
  if negb isReady then None
  else
    let rows := "date,description,amount,balance" :: map csvRow transactions in
    Some (join newline rows).

(** ** The sample statement of the demo page *)

Definition rawTransaction (id : string) (date : string) (desc : string)
    (deb cre : option string) (bal : string) : Transaction :=
  mkTransaction id (Some date) desc deb cre (Some bal)
    Undefined Undefined Undefined
    Undefined None Undefined Undefined (Some false) None.

Definition sampleMetadata : StatementMetadata :=
  mkMetadata (Some "First National Bank") (Some "Business Checking Account")
    (Some "4567") (Some "Checking") (Some "USD")
    (Some "2024-01-01") (Some "2024-01-31")
    (Some "5000.00") (Some "5847.50") (Some "2500.00") (Some "3347.50")
    (Some 5000%float) (Some 5847.5%float) None None.

(** The same statement with the closing balance stated as 6000.00. *)
Definition mismatchMetadata : StatementMetadata :=
  mkMetadata (Some "First National Bank") (Some "Business Checking Account")
    (Some "4567") (Some "Checking") (Some "USD")
    (Some "2024-01-01") (Some "2024-01-31")
    (Some "5000.00") (Some "6000.00") (Some "2500.00") (Some "3347.50")
    (Some 5000%float) (Some 6000%float) None None.

(** A statement whose balances were not found by the extraction. *)
Definition bareMetadata : StatementMetadata :=
  mkMetadata None None None None (Some "USD") None None
    None None None None None None None None.

Definition sampleTransactions : list Transaction :=
  [ rawTransaction "TXN001" "2024-01-02"
      "DEPOSIT - Customer Payment for Invoice #INV-2024-001 - ABC Corporation - Reference: PO-5678"
      None (Some "1500.00") "6500.00";
    rawTransaction "TXN002" "2024-01-03"
      "CHECK #1001 - Office Supplies & Equipment - Staples Business"
      (Some "250.00") None "6250.00";
    rawTransaction "TXN003" "2024-01-05"
      "ACH TRANSFER OUT - Monthly Payroll Distribution - Employee Salaries & Benefits - Batch ID: PAY-20240105"
      (Some "3000.00") None "3250.00";
    rawTransaction "TXN004" "2024-01-08"
      "WIRE TRANSFER IN - Client Retainer Payment - XYZ Consulting LLC - Invoice #INV-2024-002"
      None (Some "2500.00") "5750.00";
    rawTransaction "TXN005" "2024-01-10"
      "BANK FEE - Monthly Service Charge & Wire Transfer Fee"
      (Some "25.00") None "5725.00";
    rawTransaction "TXN006" "2024-01-15"
      "DEPOSIT - Refund for Returned Equipment - Original Purchase Order #PO-5600 - Vendor Credit"
      None (Some "347.50") "6072.50";
    rawTransaction "TXN007" "2024-01-20"
      "CHECK #1002 - Quarterly Insurance Premium - General Liability & Property Coverage - Policy #POL-2024-789"
      (Some "225.00") None "5847.50" ].

(** A row carrying nothing but a normalized amount. *)
Definition amountRow (id : string) (amount : float) : Transaction :=
  mkTransaction id None EmptyString None None None
    Undefined (Present amount) Undefined
    Undefined None Undefined Undefined None None.

(** ** The stages that read dates *)

Section Pipeline.

(** The time value of [new Date(s)]; None stands for an Invalid Date. *)
Variable Date_parse : string -> option Z.
(** [toISOString] of a valid time value. *)
Variable Date_toISOString : Z -> string.

(** *** PROMPT 4: normalizeTransactions *)

(** [s.replace(/[^0-9.-]/g, '')]. *)
Definition stripAmount (s : string) : string :=
  filterChars (fun c => isDigit c || (charCode c =? 46) || (charCode c =? 45)) s.

Definition round2 (x : float) : float :=
  (Math_round (x * 100) / 100)%float.

Definition dateFlag (tx : Transaction) (text : string) : ValidationFlag :=
  Flag.mk (Some (rowId tx)) error text (Some "postedDate") None.

(** The date block.  [new Date(string)] does not throw, and neither does
    toISOString on a valid date, so the catch branch (which would push
    a date parsing error) is never entered. *)
Definition normalizeDate (tx normalized : Transaction) : Emit Transaction :=
  match postedDate tx with
  | Some s =>
      if truthyString s then
        match Date_parse s with
        | Some date =>
            ret (setNormalizedDate
                   (Present (beforeChar "T" (Date_toISOString date))) normalized)
        | None =>
            run push (dateFlag tx (String.append "Invalid date format: " s));
            ret normalized
        end
      else ret normalized
  | None => ret normalized
  end.

(** The amount block, before rounding: debit negative, credit positive. *)
Definition rawAmount (tx : Transaction) : float :=
  let amount := 0%float in
  let amount :=
    match debit tx with
    | Some s =>
        if truthyString s then
          let debitNum := parseFloat (stripAmount s) in
          if negb (isNaN debitNum) then (- Math_abs debitNum)%float else amount
        else amount
    | None => amount
    end in
  match credit tx with
  | Some s =>
      if truthyString s then
        let creditNum := parseFloat (stripAmount s) in
        if negb (isNaN creditNum) then Math_abs creditNum else amount
      else amount
  | None => amount
  end.

Definition normalizeBalance (tx normalized : Transaction) : Transaction :=
  match runningBalance tx with
  | Some s =>
      if truthyString s then
        let balanceNum := parseFloat (stripAmount s) in
        if negb (isNaN balanceNum)
        then setNormalizedBalance (Present (round2 balanceNum)) normalized
        else normalized
      else normalized
  | None => normalized
  end.

(** The callback of [transactions.map]. *)
Definition normalizeOne (tx : Transaction) : Emit Transaction :=
  (* const normalized = { ...tx } *)
  let normalized := tx in
  do normalized <- normalizeDate tx normalized;
  let normalized := setNormalizedAmount (Present (round2 (rawAmount tx))) normalized in
  let normalized := normalizeBalance tx normalized in
  ret normalized.

Definition normalizeTransactions (transactions : list Transaction) : NormalizeResult :=
  let '(normalized, errors) := mapEmit normalizeOne transactions [] in
  mkNormalized normalized errors.

(** *** PROMPT 5: reconcileStatement *)

(** [x || 0] for an optional number that excludes null. *)
Definition optNumberOrZero (o : option float) : float :=
  match o with
  | Some x => if truthyNumber x then x else 0%float
  | None => 0%float
  end.

(** [transactions.reduce((sum, tx) => sum + (tx.normalizedAmount || 0), 0)]. *)
Definition transactionSum (transactions : list Transaction) : float :=
  fold_left (fun sum tx => (sum + numberOrZero (normalizedAmount tx))%float)
    transactions 0%float.

(** The message of the balance-identity flag.  The not-equal sign is one
    code unit in the program and stands here as its UTF-8 bytes; the text is
    only ever compared for equality. *)
Definition mismatchMessage (openingBalance transactionSum closingBalance difference : float) : string :=
  String.append "Reconciliation mismatch: Opening ("
  (String.append (Number_toString openingBalance)
  (String.append ") + Transactions ("
  (String.append (Number_toString transactionSum)
  (String.append ") ≠ Closing ("
  (String.append (Number_toString closingBalance)
  (String.append "). Difference: " (Number_toString difference))))))).

Definition mismatchFlag (openingBalance transactionSum closingBalance difference : float) : ValidationFlag :=
  Flag.mk None error
    (mismatchMessage openingBalance transactionSum closingBalance difference)
    None None.

Definition runningFlag (tx : Transaction) (expectedBalance got : float) : ValidationFlag :=
  Flag.mk (Some (rowId tx)) warning
    (String.append "Running balance mismatch: Expected "
       (String.append (Number_toString expectedBalance)
          (String.append ", got " (Number_toString got))))
    (Some "runningBalance") None.

(** The running balance loop; [expectedBalance] is the loop variable. *)
Fixpoint checkRunning (expectedBalance : float) (transactions : list Transaction) : Emit unit :=
  match transactions with
  | [] => ret tt
  | tx :: rest =>
      let expectedBalance := (expectedBalance + numberOrZero (normalizedAmount tx))%float in
      run (match normalizedBalance tx with
           | Present b =>
               let diff := Math_abs (expectedBalance - b) in
               if (0.01 <? diff)%float then push (runningFlag tx expectedBalance b)
               else ret tt
           | _ => ret tt
           end);
      checkRunning expectedBalance rest
  end.

(** [a < b] on Date objects: a comparison of time values, false as soon
    as one of them is NaN. *)
Definition dateLt (a b : option Z) : bool :=
  match a, b with
  | Some x, Some y => x <? y
  | _, _ => false
  end.

Definition periodFlag (tx : Transaction) (d : string) : ValidationFlag :=
  Flag.mk (Some (rowId tx)) warning
    (String.append "Transaction date "
       (String.append d " outside statement period"))
    (Some "postedDate") None.

Definition checkDate (startDate endDate : option Z) (tx : Transaction) : Emit unit :=
  match normalizedDate tx with
  | Present d =>
      if truthyString d then
        let txDate := Date_parse d in
        if dateLt txDate startDate || dateLt endDate txDate
        then push (periodFlag tx d)
        else ret tt
      else ret tt
  | _ => ret tt
  end.

Definition checkDates (metadata : StatementMetadata) (transactions : list Transaction) : Emit unit :=
  match statementStartDate metadata, statementEndDate metadata with
  | Some s, Some e =>
      if truthyString s && truthyString e then
        forEmit (checkDate (Date_parse s) (Date_parse e)) transactions
      else ret tt
  | _, _ => ret tt
  end.

Definition isError (f : ValidationFlag) : bool :=
  match Flag.severity f with
  | error => true
  | warning => false
  end.

(** [new Set(flags.map((f) => f.rowId)).size]. *)
Definition rowIdSetSize (flags : list ValidationFlag) : nat :=
  size (list_to_set (map Flag.rowId flags) : gset (option string)).

Definition reconcileStatement (metadata : StatementMetadata)
    (transactions : list Transaction) : ValidationResult :=
  let openingBalance := optNumberOrZero (normalizedOpeningBalance metadata) in
  let closingBalance := optNumberOrZero (normalizedClosingBalance metadata) in
  let transactionSum := transactionSum transactions in
  let calculatedClosing := (openingBalance + transactionSum)%float in
  let difference := Math_abs (calculatedClosing - closingBalance) in
  let '(_, flags) :=
    (run (if (0.01 <? difference)%float
          then push (mismatchFlag openingBalance transactionSum closingBalance difference)
          else ret tt);
     run checkRunning openingBalance transactions;
     checkDates metadata transactions) [] in
  let isReconciled := (length (List.filter isError flags) =? 0)%nat in
  mkResult (if isReconciled then PASS else BLOCK)
    flags isReconciled (length transactions) (rowIdSetSize flags).

(** *** PROMPT 9: generateOFXExport *)

(** [o?.replace(/-/g, '') || d]. *)
Definition compactDateOr (o : option string) (d : string) : string :=
  match o with
  | Some s =>
      let r := filterChars (fun c => negb (charCode c =? 45)) s in
      if truthyString r then r else d
  | None => d
  end.

Definition nullableCompactDateOr (o : nullable string) (d : string) : string :=
  match o with
  | Present s => compactDateOr (Some s) d
  | _ => d
  end.

(** [s || d] for a [string | null]. *)
Definition optStringOr (o : option string) (d : string) : string :=
  match o with
  | Some s => if truthyString s then s else d
  | None => d
  end.

Definition line (tag value : string) : string :=
  String.append tag (String.append value newline).

(** [new Date().toISOString().replace(/[-:T.]/g, '').slice(0, 14)], where
    [now] is the wall clock read by [new Date()]. *)
Definition serverStamp (now : Z) : string :=
  substring0 14
    (filterChars
       (fun c => negb ((charCode c =? 45) || (charCode c =? 58)
                       || (charCode c =? 84) || (charCode c =? 46)))
       (Date_toISOString now)).

Definition ofxTransaction (accountLastFour : string) (tx : Transaction) : string :=
  let fitid := generateFITID tx accountLastFour in
  let dtposted := nullableCompactDateOr (normalizedDate tx) "20240101" in
  let trnamt := toFixed2 (numberOrZero (normalizedAmount tx)) in
  let memo := substring0 255 (description tx) in
  let isDebit :=
    match normalizedAmount tx with
    | Present x => truthyNumber x && (x <? 0)%float
    | _ => false
    end in
  String.append (line "<STMTTRN>" EmptyString)
  (String.append (line "<TRNTYPE>" (if isDebit then "DEBIT" else "CREDIT"))
  (String.append (line "<DTPOSTED>" dtposted)
  (String.append (line "<TRNAMT>" trnamt)
  (String.append (line "<FITID>" fitid)
  (String.append (line "<MEMO>" memo)
  (line "</STMTTRN>" EmptyString)))))).

Definition ofxHeader : list string :=
  [ "OFXHEADER:100"; "SECURITY:NONE"; "ENCODING:USASCII"; "CHARSET:1252";
    "COMPRESSION:NONE"; "OLDFILEFORMAT:NO"; "NEWFILEFORMAT:YES"; EmptyString;
    "<OFX>"; "<SIGNONMSGSRSV1>"; "<SONRS>"; "<STATUS>"; "<CODE>0";
    "<SEVERITY>INFO"; "</STATUS>" ].

Definition concatLines (ls : list string) : string :=
  fold_right (fun l acc => String.append (line l EmptyString) acc) EmptyString ls.

Definition concatStrings (ls : list string) : string :=
  fold_right String.append EmptyString ls.

Definition generateOFXExport (now : Z) (metadata : StatementMetadata)
    (transactions : list Transaction) (isReady : bool) : option string :=
  if negb isReady then None
  else
    let startDate := compactDateOr (statementStartDate metadata) "20240101" in
    let endDate := compactDateOr (statementEndDate metadata) "20240131" in
    let accountLastFour := optStringOr (accountNumberLastFour metadata) "0000" in
    let closingBalance := optNumberOrZero (normalizedClosingBalance metadata) in
    Some (concatStrings
      [ concatLines ofxHeader;
        line "<DTSERVER>" (serverStamp now);
        concatLines [ "<LANGUAGE>ENG"; "</SONRS>"; "</SIGNONMSGSRSV1>";
                      "<BANKMSGSRSV1>"; "<STMTTRNRS>"; "<STATUS>"; "<CODE>0";
                      "<SEVERITY>INFO"; "</STATUS>"; "<STMTRS>" ];
        line "<CURDEF>" (optStringOr (currency metadata) "USD");
        concatLines [ "<BANKACCTFROM>"; "<BANKID>000000000" ];
        line "<ACCTID>" accountLastFour;
        concatLines [ "<ACCTTYPE>CHECKING"; "</BANKACCTFROM>"; "<BANKTRANLIST>" ];
        line "<DTSTART>" startDate;
        line "<DTEND>" endDate;
        concatStrings (map (ofxTransaction accountLastFour) transactions);
        concatLines [ "</BANKTRANLIST>"; "<LEDGERBAL>" ];
        line "<BALAMT>" (toFixed2 closingBalance);
        line "<DTASOF>" endDate;
        concatLines [ "</LEDGERBAL>"; "</STMTRS>"; "</STMTTRNRS>";
                      "</BANKMSGSRSV1>"; "</OFX>" ] ]).

End Pipeline.

(** ** Vocabulary of the statements *)

(** A flag about the statement as a whole: its rowId is null. *)
Definition statementLevel (f : ValidationFlag) : bool :=
  match Flag.rowId f with
  | None => true
  | Some _ => false
  end.

(** A warning attached to a row. *)
Definition rowWarning (f : ValidationFlag) : Prop :=
  isError f = false /\ statementLevel f = false.

(** The number of distinct non-null rowId values among the flags. *)
Definition distinctFlaggedRows (flags : list ValidationFlag) : nat :=
  size (list_to_set (omap Flag.rowId flags) : gset string).

(** The rows of the balance examples: only the normalized amount is set. *)
Definition exampleRows : list Transaction :=
  [ amountRow "TXN001" 1500%float; amountRow "TXN002" (-250)%float;
    amountRow "TXN003" (-3000)%float; amountRow "TXN004" 2500%float;
    amountRow "TXN005" (-25)%float; amountRow "TXN006" 347.5%float;
    amountRow "TXN007" (-225)%float ].








(** A statement whose balances were not parsed and whose rows cancel out. *)
Definition cancellingRows : list Transaction :=
  [ amountRow "TXN001" 100.25%float; amountRow "TXN002" (-100.25)%float ].

Definition withOpeningBalance (v : option float) (m : StatementMetadata) : StatementMetadata :=
  mkMetadata (financialInstitution m) (accountName m) (accountNumberLastFour m)
    (accountType m) (currency m) (statementStartDate m) (statementEndDate m)
    (openingBalance m) (closingBalance m) (totalDebits m) (totalCredits m)
    v (normalizedClosingBalance m)
    (normalizedTotalDebits m) (normalizedTotalCredits m).

Definition withClosingBalance (v : option float) (m : StatementMetadata) : StatementMetadata :=
  mkMetadata (financialInstitution m) (accountName m) (accountNumberLastFour m)
    (accountType m) (currency m) (statementStartDate m) (statementEndDate m)
    (openingBalance m) (closingBalance m) (totalDebits m) (totalCredits m)
    (normalizedOpeningBalance m) v
    (normalizedTotalDebits m) (normalizedTotalCredits m).

(** The row the normalizer returns for [tx], and the flags it pushes for it. *)
Definition normalizedRow (Date_parse : string -> option Z)
    (Date_toISOString : Z -> string) (tx : Transaction) : Transaction :=
  fst (normalizeOne Date_parse Date_toISOString tx []).

Definition dateErrors (Date_parse : string -> option Z)
    (Date_toISOString : Z -> string) (tx : Transaction) : list ValidationFlag :=
  snd (normalizeOne Date_parse Date_toISOString tx []).

(** A raw amount field that is present and parses as a number. *)
Definition parsedField (o : option string) : option float :=
  match o with
  | Some s =>
      let n := parseFloat (stripAmount s) in
      if isNaN n then None else Some n
  | None => None
  end.

(** The signed amount in the words of the specification: start from 0; a
    debit that parses gives minus its absolute value; a credit that parses
    gives plus its absolute value and overrides the debit. *)
Definition signedAmount (tx : Transaction) : float :=
  match parsedField (credit tx), parsedField (debit tx) with
  | Some c, _ => Math_abs c
  | None, Some d => (- Math_abs d)%float
  | None, None => 0%float
  end.

Definition debitOnlyRow : Transaction :=
  rawTransaction "TXN002" "2024-01-03"
    "CHECK #1001 - Office Supplies & Equipment - Staples Business"
    (Some "250.00") None "6250.00".

Definition creditOnlyRow : Transaction :=
  rawTransaction "TXN001" "2024-01-02"
    "DEPOSIT - Customer Payment for Invoice #INV-2024-001 - ABC Corporation - Reference: PO-5678"
    None (Some "1500.00") "6500.00".

Definition emptyRow : Transaction :=
  rawTransaction "TXN008" "2024-01-21" "MEMO ENTRY" None None "5847.50".

(** A row whose date was not extracted, and one whose date is garbled. *)
Definition undatedRow : Transaction :=
  mkTransaction "TXN009" None "CHECK #1003" (Some "10.00") None None
    Undefined Undefined Undefined
    Undefined None Undefined Undefined (Some false) None.

Definition garbledDateRow : Transaction :=
  rawTransaction "TXN010" "not a date" "CHECK #1004" (Some "10.00") None "5837.50".

(** The fields applyEdit knows. *)
Definition editableFields : list string :=
  [ "postedDate"; "description"; "debit"; "credit" ].

(** A shadow or a value that a truthiness test takes as set. *)
Definition truthyNullable (o : nullable string) : bool := truthyNullableString o.

(** A run of edits that all target [field]. *)
Definition editsOf (field : string) (values : list (option string))
    : list (string * option string) :=
  map (fun v => (field, v)) values.

Definition blankDescriptionRow : Transaction :=
  rawTransaction "TXN011" "2024-01-22" EmptyString (Some "12.00") None "5825.50".

(** Two rows that differ in their description only. *)
Definition collisionRowA : Transaction :=
  mkTransaction "TXN012" (Some "2024-01-23") "PAYMENT Aa" (Some "5.00") None None
    (Present "2024-01-23") (Present (-5)%float) Undefined
    Undefined None Undefined Undefined (Some false) None.

Definition collisionRowB : Transaction :=
  mkTransaction "TXN012" (Some "2024-01-23") "PAYMENT BB" (Some "5.00") None None
    (Present "2024-01-23") (Present (-5)%float) Undefined
    Undefined None Undefined Undefined (Some false) None.

(** A property that is missing or null. *)
Definition isAbsent {A : Type} (o : nullable A) : bool :=
  match o with
  | Present _ => false
  | _ => true
  end.

(** A statement period without balances, and a row dated after its end. *)
Definition periodMetadata : StatementMetadata :=
  mkMetadata (Some "First National Bank") (Some "Business Checking Account")
    (Some "4567") (Some "Checking") (Some "USD")
    (Some "2024-01-01") (Some "2024-01-31")
    None None None None None None None None.

Definition lateRow : Transaction :=
  mkTransaction "TXN013" (Some "2024-02-05") "MEMO ENTRY" None None None
    Undefined Undefined Undefined
    Undefined None Undefined Undefined (Some false) None.

(** What a call finds around it: how the engine reads and prints dates
    (fixed for the life of the process) and the wall clock at the time of
    the call. *)
Record Runtime : Type := mkRuntime {
  engineParse : string -> option Z;
  enginePrint : Z -> string;
  wallClock : Z
}.

(** reconcileStatement(metadata, normalizeTransactions(transactions).normalized)
    evaluated in a runtime. *)
Definition validateAt (rt : Runtime) (metadata : StatementMetadata)
    (transactions : list Transaction) : ValidationResult :=
  reconcileStatement (engineParse rt) metadata
    (normalized (normalizeTransactions (engineParse rt) (enginePrint rt) transactions)).

(** generateOFXExport evaluated in a runtime: [new Date()] reads its clock. *)
Definition exportOFXAt (rt : Runtime) (metadata : StatementMetadata)
    (transactions : list Transaction) (isReady : bool) : option string :=
  generateOFXExport (enginePrint rt) (wallClock rt) metadata transactions isReady.

(** A debit of one eighth: its hundredfold is the tie -12.5. *)
Definition halfCentRow : Transaction :=
  rawTransaction "TXN014" "2024-01-24" "SERVICE FEE" (Some "0.125") None "5847.38".

(** ** The remaining functions of the parser and the page that calls them *)

(** *** PROMPT 1: validateDocument *)

Module Doc.
Record t : Type := mk {
  status : Status;
  reasons : list string
}.
End Doc.

(** [if (!field) reasons.push(text)]. *)
Definition pushIfMissing (field : option string) (text : string)
    (reasons : list string) : list string :=
  if negb (truthyOptString field) then reasons ++ [text] else reasons.

Definition validateDocument (metadata : StatementMetadata) : Doc.t :=
  let reasons := [] in
  let reasons := pushIfMissing (financialInstitution metadata)
                   "Financial institution not identified" reasons in
  let reasons := pushIfMissing (accountName metadata)
                   "Account name not found" reasons in
  let reasons := pushIfMissing (statementStartDate metadata)
                   "Statement start date missing" reasons in
  let reasons := pushIfMissing (statementEndDate metadata)
                   "Statement end date missing" reasons in
  let reasons := pushIfMissing (openingBalance metadata)
                   "Opening balance not found" reasons in
  let reasons := pushIfMissing (closingBalance metadata)
                   "Closing balance not found" reasons in
  let reasons := pushIfMissing (currency metadata)
                   "Currency not identified" reasons in
  Doc.mk (if (length reasons =? 0)%nat then PASS else BLOCK) reasons.

(** *** PROMPT 7: generateReviewStatus *)

Inductive ExportStatus : Type := READY | BLOCKED.

Module Review.
Record t : Type := mk {
  totalTransactions : nat;
  flaggedRowsCount : nat;
  unresolvedFlags : list ValidationFlag;
  exportStatus : ExportStatus;
  blockedReason : option string
}.
End Review.

Definition generateReviewStatus (transactions : list Transaction)
    (validationResult : option ValidationResult) : Review.t :=
  (* validationResult?.flags || [] *)
  let unresolvedFlags :=
    match validationResult with
    | Some r => flags r
    | None => []
    end in
  let isReady := (length (List.filter isError unresolvedFlags) =? 0)%nat in
  Review.mk (length transactions)
    (* validationResult?.flaggedRowsCount || 0 *)
    (match validationResult with
     | Some r => flaggedRowsCount r
     | None => 0%nat
     end)
    unresolvedFlags
    (if isReady then READY else BLOCKED)
    (if isReady then None
     else Some (String.append
                  (decimalOfZ (Z.of_nat (length (List.filter isError unresolvedFlags))))
                  " critical issues must be resolved")).

(** *** The page: inline edit and export handlers *)

(** The map of handleEditTransaction: the rows whose rowId is the edited
    one are replaced by their edit, the others are kept. *)
Definition editTransactions (transactions : list Transaction) (rowId_ field : string)
    (newValue : option string) : list Transaction :=
  map (fun tx => if String.eqb (rowId tx) rowId_
                 then applyEdit tx field newValue else tx)
      transactions.

(** What the page keeps between events. *)
Record PageState : Type := mkPage {
  pageTransactions : list Transaction;
  pageValidation : option ValidationResult
}.

(** The page hands the status of its last validation to ExportPanel. *)
Definition panelIsReady (r : ValidationResult) : bool :=
  match status r with
  | PASS => true
  | BLOCK => false
  end.

(** ReviewStatus component: the error counter it shows. *)
Definition errorCount (r : ValidationResult) : nat :=
  length (List.filter isError (flags r)).

(** TransactionTable component. *)

(** [f.rowId === rowId]. *)
Definition flagOfRow (rowId_ : string) (f : ValidationFlag) : bool :=
  match Flag.rowId f with
  | Some id => String.eqb id rowId_
  | None => false
  end.

Definition getRowFlags (validationFlags : list ValidationFlag) (rowId_ : string)
    : list ValidationFlag :=
  List.filter (flagOfRow rowId_) validationFlags.

(** [rowFlags.some((f) => f.severity === 'error')]. *)
Definition hasErrors (validationFlags : list ValidationFlag) (rowId_ : string) : bool :=
  existsb isError (getRowFlags validationFlags rowId_).

Section Page.

Variable Date_parse : string -> option Z.
Variable Date_toISOString : Z -> string.

(** handleEditTransaction: the edited rows are stored as they are, the
    verdict is recomputed from their normalization. *)
Definition handleEditTransaction (metadata : StatementMetadata) (st : PageState)
    (rowId_ field : string) (newValue : option string) : PageState :=
  let updatedTransactions :=
    editTransactions (pageTransactions st) rowId_ field newValue in
  let normalized :=
    normalized (normalizeTransactions Date_parse Date_toISOString updatedTransactions) in
  let reconciliation := reconcileStatement Date_parse metadata normalized in
  mkPage updatedTransactions (Some reconciliation).

(** handleExportCSV: the text offered for download, None when the handler
    returns before producing one. *)
Definition handleExportCSV (st : PageState) : option string :=
  match pageValidation st with
  | None => None
  | Some r =>
      match status r with
      | BLOCK => None
      | PASS =>
          let normalized :=
            normalized (normalizeTransactions Date_parse Date_toISOString
                          (pageTransactions st)) in
          match generateCSVExport normalized true with
          | Some csv => if truthyString csv then Some csv else None
          | None => None
          end
      end
  end.

(** handleExportOFX, with the metadata the page holds and the clock. *)
Definition handleExportOFX (now : Z) (metadata : StatementMetadata) (st : PageState)
    : option string :=
  match pageValidation st with
  | None => None
  | Some r =>
      match status r with
      | BLOCK => None
      | PASS =>
          let normalized :=
            normalized (normalizeTransactions Date_parse Date_toISOString
                          (pageTransactions st)) in
          match generateOFXExport Date_toISOString now metadata normalized true with
          | Some ofx => if truthyString ofx then Some ofx else None
          | None => None
          end
      end
  end.

End Page.

(** The fields validateDocument requires. *)
Definition requiredFields (metadata : StatementMetadata) : list (option string) :=
  [ financialInstitution metadata; accountName metadata;
    statementStartDate metadata; statementEndDate metadata;
    openingBalance metadata; closingBalance metadata; currency metadata ].

(** The absolute difference reconcileStatement compares with 0.01. *)
Definition balanceDifference (metadata : StatementMetadata)
    (transactions : list Transaction) : float :=
  Math_abs (optNumberOrZero (normalizedOpeningBalance metadata)
            + transactionSum transactions
            - optNumberOrZero (normalizedClosingBalance metadata))%float.

(** A warning of reconcileStatement about one of the given rows. *)
Definition rowWarningOf (transactions : list Transaction) (f : ValidationFlag) : Prop :=
  Flag.severity f = warning
  /\ (Flag.field f = Some "runningBalance" \/ Flag.field f = Some "postedDate")
  /\ exists tx, In tx transactions /\ Flag.rowId f = Some (rowId tx).

(** Two rows that agree on everything the normalizer does not write. *)
Definition sameOutsideNormalized (t n : Transaction) : Prop :=
  rowId n = rowId t /\ postedDate n = postedDate t
  /\ description n = description t /\ debit n = debit t /\ credit n = credit t
  /\ runningBalance n = runningBalance t
  /\ originalPostedDate n = originalPostedDate t
  /\ originalDescription n = originalDescription t
  /\ originalDebit n = originalDebit t /\ originalCredit n = originalCredit t
  /\ isEdited n = isEdited t /\ editedFields n = editedFields t.

(** Two rows that agree on everything an edit of [field] does not write:
    the other raw fields and shadows, and all normalized fields. *)
Definition sameOutsideField (field : string) (t e : Transaction) : Prop :=
  rowId e = rowId t /\ runningBalance e = runningBalance t
  /\ normalizedDate e = normalizedDate t
  /\ normalizedAmount e = normalizedAmount t
  /\ normalizedBalance e = normalizedBalance t
  /\ forall g : string, g <> field ->
       valueOf g e = valueOf g t /\ originalOf g e = originalOf g t.

(** The value an edit writes into an editable field. *)
Definition writtenValue (field : string) (newValue : option string) : nullable string :=
  if String.eqb field "description" then Present (optStringOrEmpty newValue)
  else ofOption newValue.

(** The editedFields array, empty when the property is missing. *)
Definition fieldsOf (t : Transaction) : list string :=
  match editedFields t with
  | Some fs => fs
  | None => []
  end.

(** The statement period can be compared with: both dates are present and
    at least one of them parses. *)
Definition periodUsable (Date_parse : string -> option Z)
    (metadata : StatementMetadata) : bool :=
  match statementStartDate metadata, statementEndDate metadata with
  | Some s, Some e =>
      truthyString s && truthyString e
      && (match Date_parse s with Some _ => true | None => false end
          || match Date_parse e with Some _ => true | None => false end)
  | _, _ => false
  end.

(** ** Text extraction: the string methods and regular expressions it uses *)

Module JsString.

Definition between (lo hi : Z) (c : ascii) : bool :=
  (lo <=? charCode c) && (charCode c <=? hi).

(** The upper case of an ASCII letter; every other character is itself.
    Under the [i] flag two characters match when their canonical forms are
    equal, and the canonical form of a code unit below 128 is this one,
    while that of a code unit from 128 on is never below 128. *)
Definition upperAscii (c : ascii) : ascii :=
  if between 97 122 c then charOf (charCode c - 32) else c.

(** toLowerCase on one code unit below 256: the ASCII capitals and the
    Latin-1 capitals (all of 192..222 but the multiplication sign). *)
Definition lowerChar (c : ascii) : ascii :=
  if between 65 90 c || (between 192 222 c && negb (charCode c =? 215))
  then charOf (charCode c + 32) else c.

Fixpoint toLowerCase (s : string) : string :=
  match s with
  | EmptyString => EmptyString
  | String c r => String (lowerChar c) (toLowerCase r)
  end.

(** toUpperCase on a string of ASCII characters. *)
Fixpoint toUpperCase (s : string) : string :=
  match s with
  | EmptyString => EmptyString
  | String c r => String (upperAscii c) (toUpperCase r)
  end.

Fixpoint trimEnd (s : string) : string :=
  match s with
  | EmptyString => EmptyString
  | String c r =>
      match trimEnd r with
      | EmptyString => if isWhiteSpace c then EmptyString else str1 c
      | String d t => String c (String d t)
      end
  end.

Definition trim (s : string) : string := trimEnd (trimStart s).

(** [s.includes(needle)]. *)
Fixpoint includesString (needle s : string) : bool :=
  String.prefix needle s
  || match s with
     | String _ r => includesString needle r
     | EmptyString => false
     end.

(** [s.padStart(n, c)] with a one-character filler. *)
Definition padStart (n : nat) (c : ascii) (s : string) : string :=
  String.append (repeatChar c (n - String.length s)) s.

(** [s.substring(n)]. *)
Fixpoint dropChars (n : nat) (s : string) : string :=
  match n, s with
  | S k, String _ r => dropChars k r
  | _, _ => s
  end.

End JsString.

Import JsString.

(** The pattern language of the parser's literals: character classes,
    sequence, alternation, capture groups, and greedy or lazy repetition of
    a character class (the literals repeat nothing else).  There are no
    assertions and no back references, so matching at an index reads only
    the text from that index on. *)
Module Regex.

Inductive t : Type :=
| Empty
| Class (p : ascii -> bool)
| Seq (r1 r2 : t)
| Alt (r1 r2 : t)
| Repeat (p : ascii -> bool) (min : nat) (max : option nat) (greedy : bool)
| Group (n : nat) (r : t).

(** The capture array of a match, by group number; group 0 is the match. *)
Definition Captures : Type := list (nat * string).

Definition setCapture (n : nat) (w : string) (caps : Captures) : Captures :=
  (n, w) :: caps.

Fixpoint capture (n : nat) (caps : Captures) : option string :=
  match caps with
  | [] => None
  | (m, w) :: rest => if Nat.eqb n m then Some w else capture n rest
  end.

(** [match[n]] of a group that takes part in every match of its pattern. *)
Definition group (n : nat) (caps : Captures) : string :=
  match capture n caps with
  | Some w => w
  | None => EmptyString
  end.

(** What was read between [s] and its suffix [rest]. *)
Definition consumed (s rest : string) : string :=
  substring0 (String.length s - String.length rest) s.

Definition more (max : option nat) : bool :=
  match max with
  | Some O => false
  | _ => true
  end.

Definition less (max : option nat) : option nat := option_map Nat.pred max.

(** Repetition of a class, with backtracking: a greedy one tries one more
    character before it tries the continuation, a lazy one the other way
    round. *)
Fixpoint repeatMatch {A : Type} (p : ascii -> bool) (greedy : bool)
    (k : string -> option A) (s : string) (min : nat) (max : option nat)
    {struct s} : option A :=
  match s with
  | String c r =>
      if p c && more max then
        match min with
        | S m => repeatMatch p greedy k r m (less max)
        | O =>
            if greedy then
              match repeatMatch p greedy k r 0%nat (less max) with
              | Some res => Some res
              | None => k s
              end
            else
              match k s with
              | Some res => Some res
              | None => repeatMatch p greedy k r 0%nat (less max)
              end
        end
      else
        match min with
        | O => k s
        | S _ => None
        end
  | EmptyString =>
      match min with
      | O => k s
      | S _ => None
      end
  end.

(** The backtracking matcher, in continuation-passing style as the
    language definition gives it: [k] is tried on each way of matching [r]
    at the head of [s], in priority order, until it succeeds. *)
Fixpoint matchHere {A : Type} (r : t) (s : string) (caps : Captures)
    (k : string -> Captures -> option A) {struct r} : option A :=
  match r with
  | Empty => k s caps
  | Class p =>
      match s with
      | String c rest => if p c then k rest caps else None
      | EmptyString => None
      end
  | Seq r1 r2 => matchHere r1 s caps (fun s1 caps1 => matchHere r2 s1 caps1 k)
  | Alt r1 r2 =>
      match matchHere r1 s caps k with
      | Some res => Some res
      | None => matchHere r2 s caps k
      end
  | Repeat p min max greedy =>
      repeatMatch p greedy (fun rest => k rest caps) s min max
  | Group n r1 =>
      matchHere r1 s caps (fun rest caps1 => k rest (setCapture n (consumed s rest) caps1))
  end.

(** A match at the head of [s]. *)
Definition matchAt (r : t) (s : string) : option Captures :=
  matchHere (Group 0 r) s [] (fun _ caps => Some caps).

(** The leftmost match in [s]: its index and captures. *)
Fixpoint search (r : t) (s : string) (index : nat) : option (nat * Captures) :=
  match matchAt r s with
  | Some caps => Some (index, caps)
  | None =>
      match s with
      | String _ rest => search r rest (S index)
      | EmptyString => None
      end
  end.

(** [s.match(r)] for a pattern without the [g] flag. *)
Definition match_ (r : t) (s : string) : option Captures :=
  option_map snd (search r s 0).

(** The loop [while ((match = r.exec(s)) !== null)] for a pattern with the
    [g] flag, as the list of its matches: each search starts at lastIndex,
    the end of the match before.  [s] is the text from lastIndex on. *)
Fixpoint execLoop (fuel : nat) (r : t) (s : string) : list Captures :=
  match fuel with
  | O => []
  | S fuel' =>
      match search r s 0 with
      | Some (index, caps) =>
          caps :: execLoop fuel' r
                    (dropChars (index + String.length (group 0 caps)) s)
      | None => []
      end
  end.

(** *** Pattern syntax *)

(** A pattern character, under the [i] flag or not. *)
Definition chr (ignoreCase : bool) (c : ascii) : t :=
  Class (fun d => if ignoreCase then Ascii.eqb (upperAscii d) (upperAscii c)
                  else Ascii.eqb d c).

Fixpoint lit (ignoreCase : bool) (s : string) : t :=
  match s with
  | EmptyString => Empty
  | String c EmptyString => chr ignoreCase c
  | String c r => Seq (chr ignoreCase c) (lit ignoreCase r)
  end.

Fixpoint seq (rs : list t) : t :=
  match rs with
  | [] => Empty
  | [r] => r
  | r :: rest => Seq r (seq rest)
  end.

Fixpoint alt (rs : list t) : t :=
  match rs with
  | [] => Empty
  | [r] => r
  | r :: rest => Alt r (alt rest)
  end.

Definition star (p : ascii -> bool) : t := Repeat p 0 None true.
Definition plus (p : ascii -> bool) : t := Repeat p 1 None true.
Definition lazyPlus (p : ascii -> bool) : t := Repeat p 1 None false.
Definition opt (p : ascii -> bool) : t := Repeat p 0 (Some 1%nat) true.
Definition times (p : ascii -> bool) (min max : nat) : t :=
  Repeat p min (Some max) true.

Definition only (c : ascii) (d : ascii) : bool := Ascii.eqb d c.

(** [\d], [\s], [[\s:]], [[^\n]], [[^\d\n]], [[\d,]], [[A-Za-z]]. *)
Definition digit : ascii -> bool := isDigit.
Definition space : ascii -> bool := isWhiteSpace.
Definition spaceOrColon (c : ascii) : bool := isWhiteSpace c || only ":" c.
Definition notNewline (c : ascii) : bool := negb (charCode c =? 10).
Definition notDigitOrNewline (c : ascii) : bool :=
  negb (isDigit c || (charCode c =? 10)).
Definition digitOrComma (c : ascii) : bool := isDigit c || only "," c.
Definition letter (c : ascii) : bool := between 65 90 c || between 97 122 c.

End Regex.

(** *** The patterns of the parser *)

Module Pattern.
Import Regex.

(** The amount [[\d,]+\.?\d*] of the balance and transaction patterns. *)
Definition amount : Regex.t :=
  seq [plus digitOrComma; opt (only "."); star digit].

(** The date [[A-Za-z]+\s+\d{1,2},?\s+\d{4}] of the period pattern. *)
Definition longDate : Regex.t :=
  seq [plus letter; plus space; times digit 1 2; opt (only ","); plus space;
       times digit 4 4].

(** [/(?:Bank|Credit Union|Financial|Institution)[\s:]*([^\n]+)/i] *)
Definition bank : Regex.t :=
  seq [alt [lit true "Bank"; lit true "Credit Union"; lit true "Financial";
            lit true "Institution"];
       star spaceOrColon; Group 1 (plus notNewline)].

(** [/(?:Account|Checking|Savings)[\s:]*([^\n]+)/i] *)
Definition account : Regex.t :=
  seq [alt [lit true "Account"; lit true "Checking"; lit true "Savings"];
       star spaceOrColon; Group 1 (plus notNewline)].

(** [/(?:Account\s*(?:Number|#)|Acct)[\s:]*\*+(\d{4})/i] *)
Definition accountNumber : Regex.t :=
  seq [alt [seq [lit true "Account"; star space;
                 alt [lit true "Number"; lit true "#"]];
            lit true "Acct"];
       star spaceOrColon; plus (only "*"); Group 1 (times digit 4 4)].

(** [/(?:Statement|Period)[\s:]*(date)\s*(?:to|-|through)\s*(date)/i] *)
Definition dateRange : Regex.t :=
  seq [alt [lit true "Statement"; lit true "Period"];
       star spaceOrColon; Group 1 longDate; star space;
       alt [lit true "to"; lit true "-"; lit true "through"];
       star space; Group 2 longDate].

(** [/(?:Opening|Beginning)\s+(?:Balance|Amount)[\s:]*\$?(amount)/i] *)
Definition opening : Regex.t :=
  seq [alt [lit true "Opening"; lit true "Beginning"]; plus space;
       alt [lit true "Balance"; lit true "Amount"];
       star spaceOrColon; opt (only "$"); Group 1 amount].

(** [/(?:Closing|Ending|Final)\s+(?:Balance|Amount)[\s:]*\$?(amount)/i] *)
Definition closing : Regex.t :=
  seq [alt [lit true "Closing"; lit true "Ending"; lit true "Final"]; plus space;
       alt [lit true "Balance"; lit true "Amount"];
       star spaceOrColon; opt (only "$"); Group 1 amount].

(** [/(?:Currency|USD|GBP|EUR|CAD|AUD)/i] *)
Definition currency : Regex.t :=
  alt [lit true "Currency"; lit true "USD"; lit true "GBP"; lit true "EUR";
       lit true "CAD"; lit true "AUD"].

(** [/(\d{1,2}\/\d{1,2}\/\d{4})\s+([^\d\n]+?)\s+(amount)\s+(amount)/gm] *)
Definition transaction : Regex.t :=
  seq [Group 1 (seq [times digit 1 2; chr false "/"; times digit 1 2;
                     chr false "/"; times digit 4 4]);
       plus space; Group 2 (lazyPlus notDigitOrNewline); plus space;
       Group 3 amount; plus space; Group 4 amount].

(** [/(\d{1,2})\/(\d{1,2})\/(\d{4})/] *)
Definition slashDate : Regex.t :=
  seq [Group 1 (times digit 1 2); chr false "/"; Group 2 (times digit 1 2);
       chr false "/"; Group 3 (times digit 4 4)].

(** [/([A-Za-z]+)\s+(\d{1,2}),?\s+(\d{4})/] *)
Definition monthDate : Regex.t :=
  seq [Group 1 (plus letter); plus space; Group 2 (times digit 1 2);
       opt (only ","); plus space; Group 3 (times digit 4 4)].

End Pattern.

(** *** parseDateString and parseStatementText *)

Module Parsed.
Record t : Type := mk {
  metadata : StatementMetadata;
  transactions : list Transaction
}.
End Parsed.

Definition emptyMetadata : StatementMetadata :=
  mkMetadata None None None None None None None None None None None
             None None None None.

Definition setFinancialInstitution (v : option string) (m : StatementMetadata) :=
  mkMetadata v (accountName m) (accountNumberLastFour m) (accountType m)
    (currency m) (statementStartDate m) (statementEndDate m) (openingBalance m)
    (closingBalance m) (totalDebits m) (totalCredits m)
    (normalizedOpeningBalance m) (normalizedClosingBalance m)
    (normalizedTotalDebits m) (normalizedTotalCredits m).

Definition setAccountName (v : option string) (m : StatementMetadata) :=
  mkMetadata (financialInstitution m) v (accountNumberLastFour m) (accountType m)
    (currency m) (statementStartDate m) (statementEndDate m) (openingBalance m)
    (closingBalance m) (totalDebits m) (totalCredits m)
    (normalizedOpeningBalance m) (normalizedClosingBalance m)
    (normalizedTotalDebits m) (normalizedTotalCredits m).

Definition setAccountNumberLastFour (v : option string) (m : StatementMetadata) :=
  mkMetadata (financialInstitution m) (accountName m) v (accountType m)
    (currency m) (statementStartDate m) (statementEndDate m) (openingBalance m)
    (closingBalance m) (totalDebits m) (totalCredits m)
    (normalizedOpeningBalance m) (normalizedClosingBalance m)
    (normalizedTotalDebits m) (normalizedTotalCredits m).

Definition setCurrency (v : option string) (m : StatementMetadata) :=
  mkMetadata (financialInstitution m) (accountName m) (accountNumberLastFour m)
    (accountType m) v (statementStartDate m) (statementEndDate m)
    (openingBalance m) (closingBalance m) (totalDebits m) (totalCredits m)
    (normalizedOpeningBalance m) (normalizedClosingBalance m)
    (normalizedTotalDebits m) (normalizedTotalCredits m).

Definition setStatementDates (from to : option string) (m : StatementMetadata) :=
  mkMetadata (financialInstitution m) (accountName m) (accountNumberLastFour m)
    (accountType m) (currency m) from to
    (openingBalance m) (closingBalance m) (totalDebits m) (totalCredits m)
    (normalizedOpeningBalance m) (normalizedClosingBalance m)
    (normalizedTotalDebits m) (normalizedTotalCredits m).

Definition setOpeningBalance (v : string) (m : StatementMetadata) :=
  mkMetadata (financialInstitution m) (accountName m) (accountNumberLastFour m)
    (accountType m) (currency m) (statementStartDate m) (statementEndDate m)
    (Some v) (closingBalance m) (totalDebits m) (totalCredits m)
    (Some (parseFloat v)) (normalizedClosingBalance m)
    (normalizedTotalDebits m) (normalizedTotalCredits m).

Definition setClosingBalance (v : string) (m : StatementMetadata) :=
  mkMetadata (financialInstitution m) (accountName m) (accountNumberLastFour m)
    (accountType m) (currency m) (statementStartDate m) (statementEndDate m)
    (openingBalance m) (Some v) (totalDebits m) (totalCredits m)
    (normalizedOpeningBalance m) (Some (parseFloat v))
    (normalizedTotalDebits m) (normalizedTotalCredits m).

(** One [if (m) { ... m[...] ... }] block on the metadata. *)
Definition whenMatch (r : Regex.t) (text : string)
    (f : Regex.Captures -> StatementMetadata -> StatementMetadata)
    (m : StatementMetadata) : StatementMetadata :=
  match Regex.match_ r text with
  | Some caps => f caps m
  | None => m
  end.

(** The transaction the loop body builds from one match. *)
Definition classify (description amount1 : string) (tx : Transaction) : Transaction :=
  let descLower := toLowerCase description in
  if includesString "withdrawal" descLower || includesString "debit" descLower
     || includesString "payment" descLower
  then setDebit (Some amount1) tx
  else if includesString "deposit" descLower || includesString "credit" descLower
          || includesString "transfer in" descLower
  then setCredit (Some amount1) tx
  else setDebit (Some amount1) tx.

Definition setRunningBalance (v : option string) (t : Transaction) : Transaction :=
  mkTransaction (rowId t) (postedDate t) (description t) (debit t) (credit t) v
    (normalizedDate t) (normalizedAmount t) (normalizedBalance t)
    (originalPostedDate t) (originalDescription t) (originalDebit t)
    (originalCredit t) (isEdited t) (editedFields t).

Section Extraction.

(** [new Date(s).getMonth()]; None stands for NaN, the month of an
    Invalid Date. *)
Variable Date_getMonth : string -> option Z.

(** [monthNum.toString()] for [getMonth() + 1]. *)
Definition monthNumber (monthName : string) : string :=
  match Date_getMonth (String.append monthName " 1, 2000") with
  | Some m => Number_toString (floatOfZ (m + 1))
  | None => "NaN"
  end.

Definition isoOf (year month day : string) : string :=
  String.append year
    (String.append "-"
       (String.append (padStart 2 "0" month)
          (String.append "-" (padStart 2 "0" day)))).

(** Nothing in the try block throws, so its catch is never entered. *)
Definition parseDateString (dateStr : string) : option string :=
  if negb (truthyString dateStr) then None
  else
    match Regex.match_ Pattern.slashDate dateStr with
    | Some caps =>
        let month := Regex.group 1 caps in
        let day := Regex.group 2 caps in
        let year := Regex.group 3 caps in
        Some (isoOf year month day)
    | None =>
        match Regex.match_ Pattern.monthDate dateStr with
        | Some caps =>
            let monthName := Regex.group 1 caps in
            let day := Regex.group 2 caps in
            let year := Regex.group 3 caps in
            Some (isoOf year (monthNumber monthName) day)
        | None => None
        end
    end.

Definition buildTransaction (rowId_ : Z) (caps : Regex.Captures) : Transaction :=
  let dateStr := Regex.group 1 caps in
  let description_ := Regex.group 2 caps in
  let amount1 := Regex.group 3 caps in
  let amount2 := Regex.group 4 caps in
  let tx :=
    mkTransaction (String.append "row_" (decimalOfZ rowId_))
      (parseDateString dateStr) (trim description_) None None None
      Null Null Null Undefined None Undefined Undefined
      (Some false) (Some []) in
  setRunningBalance (Some amount2) (classify description_ amount1 tx).

(** The loop over the matches, with its counter. *)
Fixpoint buildTransactions (rowId_ : Z) (matches : list Regex.Captures)
    : list Transaction :=
  match matches with
  | [] => []
  | caps :: rest => buildTransaction rowId_ caps :: buildTransactions (rowId_ + 1) rest
  end.

(** The metadata block of parseStatementText.  (The [lines] array the
    function computes first is never read.) *)
Definition parsedMetadata (pdfText : string) : StatementMetadata :=
  let m := emptyMetadata in
  let m := whenMatch Pattern.bank pdfText
             (fun caps => setFinancialInstitution (Some (trim (Regex.group 1 caps)))) m in
  let m := whenMatch Pattern.account pdfText
             (fun caps => setAccountName (Some (trim (Regex.group 1 caps)))) m in
  let m := whenMatch Pattern.accountNumber pdfText
             (fun caps => setAccountNumberLastFour (Some (Regex.group 1 caps))) m in
  let m := whenMatch Pattern.dateRange pdfText
             (fun caps => setStatementDates (parseDateString (Regex.group 1 caps))
                                            (parseDateString (Regex.group 2 caps))) m in
  let m := whenMatch Pattern.opening pdfText
             (fun caps => setOpeningBalance (replaceChar "," EmptyString (Regex.group 1 caps))) m in
  let m := whenMatch Pattern.closing pdfText
             (fun caps => setClosingBalance (replaceChar "," EmptyString (Regex.group 1 caps))) m in
  setCurrency
    (Some match Regex.match_ Pattern.currency pdfText with
          | Some caps => toUpperCase (Regex.group 0 caps)
          | None => "USD"
          end) m.

(** The matches of the extraction loop.  Every match of the transaction
    pattern is at least one character long, so there are at most as many
    as the text is long. *)
Definition transactionMatches (fuel : nat) (pdfText : string) : list Regex.Captures :=
  Regex.execLoop fuel Pattern.transaction pdfText.

Definition parsedTransactions (pdfText : string) : list Transaction :=
  buildTransactions 1 (transactionMatches (S (String.length pdfText)) pdfText).

Definition parseStatementText (pdfText : string) : Parsed.t :=
  Parsed.mk (parsedMetadata pdfText) (parsedTransactions pdfText).

(** *** PROMPT 2 and PROMPT 3: extractMetadata, extractTransactions *)

Definition extractMetadata (pdfText : string) : StatementMetadata :=
  Parsed.metadata (parseStatementText pdfText).

Definition extractTransactions (pdfText : string) : list Transaction :=
  Parsed.transactions (parseStatementText pdfText).

End Extraction.

(** *** What a match is
    The words a pattern matches, with the captures a match adds. *)

Fixpoint allChars (p : ascii -> bool) (w : string) : bool :=
  match w with
  | EmptyString => true
  | String c r => p c && allChars p r
  end.

Inductive Matches : Regex.t -> string -> Regex.Captures -> Regex.Captures -> Prop :=
| M_Empty caps : Matches Regex.Empty EmptyString caps caps
| M_Class p c caps : p c = true -> Matches (Regex.Class p) (str1 c) caps caps
| M_Seq r1 r2 w1 w2 c0 c1 c2 :
    Matches r1 w1 c0 c1 -> Matches r2 w2 c1 c2 ->
    Matches (Regex.Seq r1 r2) (String.append w1 w2) c0 c2
| M_AltL r1 r2 w c0 c1 : Matches r1 w c0 c1 -> Matches (Regex.Alt r1 r2) w c0 c1
| M_AltR r1 r2 w c0 c1 : Matches r2 w c0 c1 -> Matches (Regex.Alt r1 r2) w c0 c1
| M_Repeat p min max greedy w caps :
    allChars p w = true -> (min <= String.length w)%nat ->
    (forall m, max = Some m -> (String.length w <= m)%nat) ->
    Matches (Regex.Repeat p min max greedy) w caps caps
| M_Group n r w c0 c1 :
    Matches r w c0 c1 -> Matches (Regex.Group n r) w c0 (Regex.setCapture n w c1).

(** One to two digits, and four digits. *)
Definition shortNumber (w : string) : Prop :=
  allChars isDigit w = true /\ (1 <= String.length w <= 2)%nat.

Definition yearNumber (w : string) : Prop :=
  allChars isDigit w = true /\ String.length w = 4%nat.

(** The second form parseDateString reads: a name, a day, an optional
    comma and a year, separated by white space. *)
Definition longDateText (name sp1 day comma sp2 year : string) : string :=
  String.append name
    (String.append sp1
       (String.append day
          (String.append comma (String.append sp2 year)))).

(** The characters of an amount. *)
Definition amountChar (c : ascii) : bool :=
  isDigit c || Ascii.eqb c "," || Ascii.eqb c ".".

(** The row identifiers the extraction loop hands out. *)
Fixpoint rowIdsFrom (first : Z) (n : nat) : list string :=
  match n with
  | O => []
  | S k => String.append "row_" (decimalOfZ first) :: rowIdsFrom (first + 1) k
  end.

(** The values the currency field can take. *)
Definition currencyWords : list string :=
  ["CURRENCY"; "USD"; "GBP"; "EUR"; "CAD"; "AUD"].

(** A row as the extraction loop builds it: a date in the ISO layout made
    of the three numbers of the slash date, one amount on the debit or the
    credit side, the balance, and nothing normalized or edited yet. *)
Definition extractedRow (tx : Transaction) : Prop :=
  (exists month day year,
      shortNumber month /\ shortNumber day /\ yearNumber year
      /\ postedDate tx = Some (isoOf year month day))
  /\ (exists amount,
        allChars amountChar amount = true /\ amount <> EmptyString
        /\ ((debit tx = Some amount /\ credit tx = None)
            \/ (debit tx = None /\ credit tx = Some amount)))
  /\ (exists balance,
        allChars amountChar balance = true /\ balance <> EmptyString
        /\ runningBalance tx = Some balance)
  /\ allChars Regex.notDigitOrNewline (description tx) = true
  /\ normalizedDate tx = Null /\ normalizedAmount tx = Null
  /\ normalizedBalance tx = Null
  /\ originalPostedDate tx = Undefined /\ originalDescription tx = None
  /\ originalDebit tx = Undefined /\ originalCredit tx = Undefined
  /\ isEdited tx = Some false /\ editedFields tx = Some [].

(** Digits and the decimal point. *)
Definition plainAmountChar (c : ascii) : bool := isDigit c || Ascii.eqb c ".".

Definition fourDigits (o : option string) : Prop :=
  match o with
  | Some w => yearNumber w
  | None => True
  end.

(** A reference for the month of [new Date(name + ' 1, 2000')]: a month
    is known by the first three letters of its English name, in either
    case, and any other word gives an Invalid Date.  (Engines differ on
    unknown words; the properties below hold for every engine, and this one
    serves the examples.) *)
Module MonthNames.

Definition names : list string :=
  ["jan"; "feb"; "mar"; "apr"; "may"; "jun";
   "jul"; "aug"; "sep"; "oct"; "nov"; "dec"].

Fixpoint indexOf (s : string) (l : list string) (i : Z) : option Z :=
  match l with
  | [] => None
  | x :: rest => if String.eqb s x then Some i else indexOf s rest (i + 1)
  end.

Definition getMonth (s : string) : option Z :=
  indexOf (toLowerCase (substring0 3 s)) names 0.

End MonthNames.

(** A balance as the extraction stores it: the text without commas and the
    number parseFloat reads from it, or neither. *)
Definition balanceFields (text : option string) (number : option float) : Prop :=
  match text with
  | Some s => allChars plainAmountChar s = true /\ number = Some (parseFloat s)
  | None => number = None
  end.

(** The text of a statement for the examples. *)
Definition sampleText : string :=
  String.append "First Bank: Main Street Branch"
    (String.append newline
       (String.append "01/15/2024 GROCERY STORE 250.00 4,750.00"
          (String.append newline
             "1/16/2024  Payroll Deposit  1,500.00  6,250.00"))).

(** The rows extracted from the sample text, and the second of them. *)
Definition sampleRows : list Transaction :=
  extractTransactions MonthNames.getMonth sampleText.

Definition sampleRow2 : Transaction :=
  mkTransaction "row_2" (Some "2024-01-16") "Payroll Deposit"
    None (Some "1,500.00") (Some "6,250.00")
    Null Null Null Undefined None Undefined Undefined (Some false) (Some []).

(** The polynomial simpleHash evaluates: base 31 over the code units,
    without wrapping. *)
Fixpoint polynomial (input : string) (acc : Z) : Z :=
  match input with
  | EmptyString => acc
  | String c r => polynomial r (31 * acc + charCode c)
  end.

(** A description with one word put between a prefix and a suffix. *)
Definition withWord (tx : Transaction) (before word after : string) : Transaction :=
  setDescription (String.append before (String.append word after)) tx.

(** A row whose description holds quotes, commas and a line break. *)
Definition quotedRow : Transaction :=
  mkTransaction "TXN020" (Some "2024-01-25")
    (String.append "ACME "
       (String quoteChar
          (String.append "WIDGETS"
             (String quoteChar (String.append ", INC." (String.append newline "REF 7"))))))
    (Some "12.50") None None
    (Present "2024-01-25") (Present (-12.5)%float) Undefined
    Undefined None Undefined Undefined (Some false) None.

(** * Properties *)

(** ** Flags are appended, never removed *)

Lemma filter_all_false {A : Type} (p : A -> bool) (l : list A) :
  Forall (fun a => p a = false) l -> List.filter p l = [].
Proof.
  induction 1 as [|a l Ha _ IH]; simpl; [reflexivity|].
  rewrite Ha. exact IH.
Qed.

Lemma rowWarning_not_error (l : list ValidationFlag) :
  Forall rowWarning l -> List.filter isError l = [].
Proof.
  intros H. apply filter_all_false.
  eapply Forall_impl; [exact H|]. intros f [He _]. exact He.
Qed.

Lemma rowWarning_not_statementLevel (l : list ValidationFlag) :
  Forall rowWarning l -> List.filter statementLevel l = [].
Proof.
  intros H. apply filter_all_false.
  eapply Forall_impl; [exact H|]. intros f [_ Hs]. exact Hs.
Qed.

(** ** The size of the set of rowIds *)

Lemma size_add_elem `{Countable A} (x : A) (X : gset A) :
  size ({[x]} ∪ X) = if decide (x ∈ X) then size X else S (size X).
Proof.
  destruct (decide (x ∈ X)) as [Hin|Hnin].
  - f_equal. apply subseteq_union_1_L, singleton_subseteq_l, Hin.
  - rewrite size_union by (apply disjoint_singleton_l, Hnin).
    rewrite size_singleton. reflexivity.
Qed.

Lemma null_rowId_member (fl : list ValidationFlag) :
  None ∈ (list_to_set (map Flag.rowId fl) : gset (option string))
  <-> existsb statementLevel fl = true.
Proof.
  rewrite elem_of_list_to_set, list_elem_of_In, in_map_iff, existsb_exists.
  split; intros (f & H1 & H2); exists f.
  - split; [exact H2|]. unfold statementLevel. rewrite H1. reflexivity.
  - split; [|exact H1]. unfold statementLevel in H2.
    destruct (Flag.rowId f); [discriminate|reflexivity].
Qed.

Lemma row_rowId_member (id : string) (fl : list ValidationFlag) :
  Some id ∈ (list_to_set (map Flag.rowId fl) : gset (option string))
  <-> id ∈ (list_to_set (omap Flag.rowId fl) : gset string).
Proof.
  rewrite !elem_of_list_to_set, list_elem_of_In, in_map_iff, list_elem_of_omap.
  split; intros (f & H1 & H2); exists f.
  - split; [apply list_elem_of_In, H2|exact H1].
  - split; [exact H2|apply list_elem_of_In, H1].
Qed.

Lemma omap_rowId_cons (f : ValidationFlag) (rest : list ValidationFlag) :
  omap Flag.rowId (f :: rest)
  = match Flag.rowId f with
    | Some id => id :: omap Flag.rowId rest
    | None => omap Flag.rowId rest
    end.
Proof. reflexivity. Qed.

Lemma rowIdSetSize_split (fl : list ValidationFlag) :
  rowIdSetSize fl
  = (distinctFlaggedRows fl + (if existsb statementLevel fl then 1 else 0))%nat.
Proof.
  unfold rowIdSetSize, distinctFlaggedRows.
  induction fl as [|f rest IH]; [reflexivity|].
  simpl map. rewrite list_to_set_cons, size_add_elem, IH, omap_rowId_cons.
  simpl existsb.
  assert (Hs : statementLevel f
               = match Flag.rowId f with Some _ => false | None => true end)
    by reflexivity.
  rewrite Hs. clear Hs.
  destruct (Flag.rowId f) as [id|]; cbn [orb].
  - rewrite list_to_set_cons, size_add_elem.
    destruct (decide (Some id ∈ _)) as [Hin|Hnin];
      destruct (decide (id ∈ _)) as [Hin'|Hnin']; try lia.
    + exfalso. apply Hnin'. apply row_rowId_member, Hin.
    + exfalso. apply Hnin. apply row_rowId_member, Hin'.
  - destruct (decide (None ∈ _)) as [Hin|Hnin].
    + apply null_rowId_member in Hin. rewrite Hin. reflexivity.
    + destruct (existsb statementLevel rest) eqn:He; [|lia].
      exfalso. apply Hnin, null_rowId_member, He.
Qed.

Section PipelineProperties.

Variable Date_parse : string -> option Z.
Variable Date_toISOString : Z -> string.

Lemma checkRunning_appends (transactions : list Transaction) :
  forall (expectedBalance : float) (fl : list ValidationFlag),
  exists out, checkRunning expectedBalance transactions fl = (tt, fl ++ out)
              /\ Forall rowWarning out.
Proof.
  induction transactions as [|tx rest IH]; intros e fl; simpl.
  - exists []. rewrite app_nil_r. split; [reflexivity|constructor].
  - unfold bind.
    set (e' := (e + numberOrZero (normalizedAmount tx))%float).
    destruct (normalizedBalance tx) as [| |b]; simpl.
    + apply IH.
    + apply IH.
    + destruct (0.01 <? Math_abs (e' - b))%float; simpl.
      * destruct (IH e' (fl ++ [runningFlag tx e' b])) as (out & Hout & Hw).
        exists (runningFlag tx e' b :: out). split.
        -- rewrite Hout. rewrite <- app_assoc. reflexivity.
        -- constructor; [split; reflexivity|exact Hw].
      * apply IH.
Qed.

Lemma checkDate_appends (startDate endDate : option Z) (tx : Transaction)
    (fl : list ValidationFlag) :
  exists out, checkDate Date_parse startDate endDate tx fl = (tt, fl ++ out)
              /\ Forall rowWarning out.
Proof.
  assert (Hnil : exists out, ret tt fl = (tt, fl ++ out) /\ Forall rowWarning out).
  { exists []. rewrite app_nil_r. split; [reflexivity|constructor]. }
  unfold checkDate.
  destruct (normalizedDate tx) as [| |d]; try exact Hnil.
  destruct (truthyString d); try exact Hnil.
  destruct (dateLt (Date_parse d) startDate || dateLt endDate (Date_parse d));
    try exact Hnil.
  exists [periodFlag tx d]. split; [reflexivity|].
  constructor; [split; reflexivity|constructor].
Qed.

Lemma forEmit_checkDate_appends (startDate endDate : option Z)
    (transactions : list Transaction) :
  forall fl : list ValidationFlag,
  exists out,
    forEmit (checkDate Date_parse startDate endDate) transactions fl = (tt, fl ++ out)
    /\ Forall rowWarning out.
Proof.
  induction transactions as [|tx rest IH]; intros fl; simpl.
  - exists []. rewrite app_nil_r. split; [reflexivity|constructor].
  - unfold bind.
    destruct (checkDate_appends startDate endDate tx fl) as (o1 & H1 & W1).
    rewrite H1.
    destruct (IH (fl ++ o1)) as (o2 & H2 & W2).
    exists (o1 ++ o2). split.
    + rewrite H2. rewrite <- app_assoc. reflexivity.
    + apply Forall_app. split; assumption.
Qed.

Lemma checkDates_appends (metadata : StatementMetadata)
    (transactions : list Transaction) (fl : list ValidationFlag) :
  exists out, checkDates Date_parse metadata transactions fl = (tt, fl ++ out)
              /\ Forall rowWarning out.
Proof.
  assert (Hnil : exists out, ret tt fl = (tt, fl ++ out) /\ Forall rowWarning out).
  { exists []. rewrite app_nil_r. split; [reflexivity|constructor]. }
  unfold checkDates.
  destruct (statementStartDate metadata) as [s|]; try exact Hnil.
  destruct (statementEndDate metadata) as [e|]; try exact Hnil.
  destruct (truthyString s && truthyString e); try exact Hnil.
  apply forEmit_checkDate_appends.
Qed.

(** The flag list of the reconciliation: the balance-identity flag when
    the difference exceeds the tolerance, then row warnings only. *)
Lemma reconcile_flags (metadata : StatementMetadata) (transactions : list Transaction) :
  let opening := optNumberOrZero (normalizedOpeningBalance metadata) in
  let closing := optNumberOrZero (normalizedClosingBalance metadata) in
  let total := transactionSum transactions in
  let difference := Math_abs (opening + total - closing) in
  exists out,
    flags (reconcileStatement Date_parse metadata transactions)
    = (if (0.01 <? difference)%float
       then [mismatchFlag opening total closing difference] else []) ++ out
    /\ Forall rowWarning out.
Proof.
  intros opening closing total difference.
  unfold reconcileStatement.
  fold opening closing total. fold difference.
  unfold bind.
  set (head := if (0.01 <? difference)%float
               then [mismatchFlag opening total closing difference] else []).
  assert (Hhead : (if (0.01 <? difference)%float
                   then push (mismatchFlag opening total closing difference)
                   else ret tt) [] = (tt, head)).
  { unfold head. destruct (0.01 <? difference)%float; reflexivity. }
  rewrite Hhead.
  destruct (checkRunning_appends transactions opening head) as (o1 & H1 & W1).
  rewrite H1.
  destruct (checkDates_appends metadata transactions (head ++ o1)) as (o2 & H2 & W2).
  rewrite H2. simpl.
  exists (o1 ++ o2). split.
  - rewrite <- app_assoc. reflexivity.
  - apply Forall_app. split; assumption.
Qed.

Lemma reconcile_status (metadata : StatementMetadata) (transactions : list Transaction) :
  let r := reconcileStatement Date_parse metadata transactions in
  status r = (if (length (List.filter isError (flags r)) =? 0)%nat then PASS else BLOCK)
  /\ isReconciled r = (length (List.filter isError (flags r)) =? 0)%nat.
Proof.
  unfold reconcileStatement.
  destruct (bind _ _ _) as [u fl]. simpl. split; reflexivity.
Qed.






(** *** Floating-point facts used by the reconciliation *)

Lemma abs_zero_add_sub (s : float) :
  PrimFloat.abs (0 + s - 0)%float = PrimFloat.abs s.
Proof.
  apply Prim2SF_inj.
  rewrite !abs_spec, sub_spec, add_spec.
  change (Prim2SF 0%float) with (S754_zero false).
  destruct (Prim2SF s) as [b|b| |b m e]; try reflexivity.
  destruct b; reflexivity.
Qed.

Lemma SFleb_not_SFltb (x y : spec_float) :
  SFleb x y = true -> SFltb y x = false.
Proof.
  unfold SFleb, SFltb.
  destruct x as [sx|sx| |sx mx ex], y as [sy|sy| |sy my ey]; simpl;
    try discriminate; try reflexivity;
    try (destruct sx; simpl; try discriminate; reflexivity);
    try (destruct sy; simpl; try discriminate; reflexivity);
    try (destruct sx, sy; simpl; try discriminate; reflexivity).
  destruct sx, sy; simpl; try discriminate; try reflexivity.
  - rewrite (Z.compare_antisym ex ey).
    destruct (ex ?= ey)%Z eqn:He; simpl; try discriminate; try reflexivity.
    pose proof (Pos.compare_cont_antisym mx my Eq) as Ha. simpl in Ha.
    destruct (Pos.compare_cont Eq mx my), (Pos.compare_cont Eq my mx);
      simpl in *; try discriminate; reflexivity.
  - rewrite (Z.compare_antisym ex ey).
    destruct (ex ?= ey)%Z eqn:He; simpl; try discriminate; try reflexivity.
    pose proof (Pos.compare_cont_antisym mx my Eq) as Ha. simpl in Ha.
    destruct (Pos.compare_cont Eq mx my), (Pos.compare_cont Eq my mx);
      simpl in *; try discriminate; reflexivity.
Qed.

Lemma leb_not_ltb (x y : float) :
  (x <=? y)%float = true -> (y <? x)%float = false.
Proof.
  rewrite leb_spec, ltb_spec. apply SFleb_not_SFltb.
Qed.

Lemma reconcile_no_error_pass (metadata : StatementMetadata)
    (transactions : list Transaction) :
  let opening := optNumberOrZero (normalizedOpeningBalance metadata) in
  let closing := optNumberOrZero (normalizedClosingBalance metadata) in
  let r := reconcileStatement Date_parse metadata transactions in
  (0.01 <? Math_abs (opening + transactionSum transactions - closing))%float = false ->
  status r = PASS /\ isReconciled r = true
  /\ List.filter isError (flags r) = []
  /\ List.filter statementLevel (flags r) = [].
Proof.
  intros opening closing r Hd.
  destruct (reconcile_flags metadata transactions) as (out & Hfl & Hw).
  fold opening closing r in Hfl. rewrite Hd in Hfl. simpl in Hfl.
  destruct (reconcile_status metadata transactions) as [Hst Hrec].
  fold r in Hst, Hrec.
  assert (He : List.filter isError (flags r) = []).
  { rewrite Hfl. apply rowWarning_not_error, Hw. }
  rewrite Hst, Hrec, He. repeat split.
  rewrite Hfl. apply rowWarning_not_statementLevel, Hw.
Qed.

(** C9. An absent normalized opening or closing balance is replaced by 0:
    the result is the one obtained with the balance stated as 0.  With
    neither balance parsed and normalized amounts that sum to within 0.01
    of 0, the status is PASS and the result holds no error flag and no
    balance-identity flag. *)
Theorem reconcile_missing_balances (metadata : StatementMetadata)
    (transactions : list Transaction) :
  (normalizedOpeningBalance metadata = None ->
   reconcileStatement Date_parse metadata transactions
   = reconcileStatement Date_parse (withOpeningBalance (Some 0%float) metadata) transactions)
  /\ (normalizedClosingBalance metadata = None ->
      reconcileStatement Date_parse metadata transactions
      = reconcileStatement Date_parse (withClosingBalance (Some 0%float) metadata) transactions)
  /\ (normalizedOpeningBalance metadata = None ->
      normalizedClosingBalance metadata = None ->
      (Math_abs (transactionSum transactions) <=? 0.01)%float = true ->
      let r := reconcileStatement Date_parse metadata transactions in
      status r = PASS
      /\ List.filter isError (flags r) = []
      /\ List.filter statementLevel (flags r) = []).
Proof.
  split; [|split].
  - intros Ho. unfold reconcileStatement, checkDates. simpl. rewrite Ho. reflexivity.
  - intros Hc. unfold reconcileStatement, checkDates. simpl. rewrite Hc. reflexivity.
  - intros Ho Hc Hsum r.
    destruct (reconcile_no_error_pass metadata transactions) as (Hs & _ & He & Hl).
    + rewrite Ho, Hc. simpl. unfold Math_abs in *.
      rewrite abs_zero_add_sub. apply leb_not_ltb, Hsum.
    + fold r in Hs, He, Hl. repeat split; assumption.
Qed.

(** C2. With isReady false both serializers return the none-result,
    whatever the transactions, the metadata and the clock. *)
Theorem export_blocked_when_not_ready (now : Z) (metadata : StatementMetadata)
    (transactions : list Transaction) :
  generateCSVExport transactions false = None
  /\ generateOFXExport Date_toISOString now metadata transactions false = None.
Proof.
  split.
  - unfold generateCSVExport. simpl. reflexivity.
  - unfold generateOFXExport. simpl. reflexivity.
Qed.

(** C5 (as the code behaves).  On the statement with closing balance
    stated as 6000.00 the only flag is the statement-level one: no row is
    flagged, the number of distinct non-null rowId values among the flags is
    0, and yet flaggedRowsCount is 1, because the null rowId is a member of
    the set whose size is taken. *)
Theorem flaggedRowsCount_counts_null_rowId :
  let r := reconcileStatement Date_parse mismatchMetadata exampleRows in
  map Flag.rowId (flags r) = [None]
  /\ distinctFlaggedRows (flags r) = 0%nat
  /\ flaggedRowsCount r = 1%nat.
Proof.
  vm_compute. repeat split; reflexivity.
Qed.

(** *** The normalizer, row by row *)

Lemma normalizeOne_run (tx : Transaction) (fl : list ValidationFlag) :
  normalizeOne Date_parse Date_toISOString tx fl
  = (normalizedRow Date_parse Date_toISOString tx,
     fl ++ dateErrors Date_parse Date_toISOString tx).
Proof.
  unfold normalizedRow, dateErrors, normalizeOne, normalizeDate, bind, ret, push.
  destruct (postedDate tx) as [s|]; simpl; [|rewrite app_nil_r; reflexivity].
  destruct (truthyString s); simpl; [|rewrite app_nil_r; reflexivity].
  destruct (Date_parse s); simpl; [rewrite app_nil_r|]; reflexivity.
Qed.

Lemma mapEmit_normalizeOne (transactions : list Transaction) :
  forall fl : list ValidationFlag,
  mapEmit (normalizeOne Date_parse Date_toISOString) transactions fl
  = (map (normalizedRow Date_parse Date_toISOString) transactions,
     fl ++ flat_map (dateErrors Date_parse Date_toISOString) transactions).
Proof.
  induction transactions as [|tx rest IH]; intros fl; simpl.
  - unfold ret. rewrite app_nil_r. reflexivity.
  - unfold bind, ret. rewrite normalizeOne_run, IH, app_assoc. reflexivity.
Qed.

Lemma normalizeTransactions_rows (transactions : list Transaction) :
  normalizeTransactions Date_parse Date_toISOString transactions
  = mkNormalized (map (normalizedRow Date_parse Date_toISOString) transactions)
                 (flat_map (dateErrors Date_parse Date_toISOString) transactions).
Proof.
  unfold normalizeTransactions. rewrite mapEmit_normalizeOne. reflexivity.
Qed.

Lemma dateErrors_cases (tx : Transaction) :
  dateErrors Date_parse Date_toISOString tx
  = match postedDate tx with
    | Some s =>
        if truthyString s then
          match Date_parse s with
          | Some _ => []
          | None => [dateFlag tx (String.append "Invalid date format: " s)]
          end
        else []
    | None => []
    end.
Proof.
  unfold dateErrors, normalizeOne, normalizeDate, bind, ret, push.
  destruct (postedDate tx) as [s|]; simpl; [|reflexivity].
  destruct (truthyString s); simpl; [|reflexivity].
  destruct (Date_parse s); reflexivity.
Qed.

Lemma normalizedRow_date (tx : Transaction) :
  normalizedDate (normalizedRow Date_parse Date_toISOString tx)
  = match postedDate tx with
    | Some s =>
        if truthyString s then
          match Date_parse s with
          | Some date => Present (beforeChar "T" (Date_toISOString date))
          | None => normalizedDate tx
          end
        else normalizedDate tx
    | None => normalizedDate tx
    end.
Proof.
  unfold normalizedRow, normalizeOne, normalizeDate, normalizeBalance, bind, ret, push.
  destruct (postedDate tx) as [s|]; [destruct (truthyString s); [destruct (Date_parse s)|]|];
    simpl;
    (destruct (runningBalance tx) as [b|]; [destruct (truthyString b);
       [destruct (negb (isNaN (parseFloat (stripAmount b))))|]|]; reflexivity).
Qed.

Lemma normalizedRow_amount (tx : Transaction) :
  normalizedAmount (normalizedRow Date_parse Date_toISOString tx)
  = Present (round2 (rawAmount tx)).
Proof.
  unfold normalizedRow, normalizeOne, normalizeDate, normalizeBalance, bind, ret, push.
  destruct (postedDate tx) as [s|]; [destruct (truthyString s); [destruct (Date_parse s)|]|];
    simpl;
    (destruct (runningBalance tx) as [b|]; [destruct (truthyString b);
       [destruct (negb (isNaN (parseFloat (stripAmount b))))|]|]; reflexivity).
Qed.

Lemma parsedField_empty : parsedField (Some EmptyString) = None.
Proof. vm_compute. reflexivity. Qed.

Lemma rawAmount_signed (tx : Transaction) : rawAmount tx = signedAmount tx.
Proof.
  unfold rawAmount, signedAmount.
  destruct (credit tx) as [c|], (debit tx) as [d|].
  - destruct c as [|a c], d as [|b d];
      rewrite ?parsedField_empty; simpl;
      repeat match goal with
             | |- context [isNaN ?x] => destruct (isNaN x); simpl
             end; reflexivity.
  - destruct c as [|a c]; rewrite ?parsedField_empty; simpl;
      repeat match goal with
             | |- context [isNaN ?x] => destruct (isNaN x); simpl
             end; reflexivity.
  - destruct d as [|b d]; rewrite ?parsedField_empty; simpl;
      repeat match goal with
             | |- context [isNaN ?x] => destruct (isNaN x); simpl
             end; reflexivity.
  - reflexivity.
Qed.

(** C6. For every transaction the normalized amount is the signed amount
    (0, then minus the absolute debit when the debit is present and parses,
    then plus the absolute credit when the credit is present and parses, the
    credit overriding the debit), rounded to cents.  A debit of 250.00 alone
    gives -250, a credit of 1500.00 alone gives 1500, and a row with neither
    gives 0. *)
Theorem normalize_amount_sign (transactions : list Transaction) :
  map normalizedAmount
      (normalized (normalizeTransactions Date_parse Date_toISOString transactions))
  = map (fun tx => Present (round2 (signedAmount tx))) transactions
  /\ map normalizedAmount
       (normalized (normalizeTransactions Date_parse Date_toISOString
                      [debitOnlyRow; creditOnlyRow; emptyRow]))
     = [Present (-250)%float; Present 1500%float; Present 0%float].
Proof.
  assert (H : forall txs,
    map normalizedAmount
      (normalized (normalizeTransactions Date_parse Date_toISOString txs))
    = map (fun tx => Present (round2 (signedAmount tx))) txs).
  { intros txs. rewrite normalizeTransactions_rows. simpl.
    rewrite map_map. apply map_ext. intros tx.
    rewrite normalizedRow_amount, rawAmount_signed. reflexivity. }
  split; [apply H|].
  rewrite H. vm_compute. reflexivity.
Qed.

(** C4 (as the code behaves).  A transaction whose postedDate is present
    (neither null nor empty) and does not parse gets an error flag with its
    rowId and field postedDate, and its normalizedDate, absent on the way in,
    is absent on the way out.  Every flag of the normalizer is such a flag:
    a transaction whose postedDate is absent gets none. *)
Theorem normalize_unparsable_date (transactions : list Transaction) :
  let r := normalizeTransactions Date_parse Date_toISOString transactions in
  (forall (i : nat) (tx : Transaction) (s : string),
      nth_error transactions i = Some tx ->
      postedDate tx = Some s -> s <> EmptyString -> Date_parse s = None ->
      In (Flag.mk (Some (rowId tx)) error
            (String.append "Invalid date format: " s) (Some "postedDate") None)
         (errors r)
      /\ (isAbsent (normalizedDate tx) = true ->
          option_map (fun n => isAbsent (normalizedDate n)) (nth_error (normalized r) i)
          = Some true))
  /\ (forall f : ValidationFlag, In f (errors r) ->
      exists (tx : Transaction) (s : string),
        In tx transactions /\ postedDate tx = Some s /\ s <> EmptyString
        /\ Date_parse s = None
        /\ f = Flag.mk (Some (rowId tx)) error
                 (String.append "Invalid date format: " s) (Some "postedDate") None).
Proof.
  intros r. unfold r. rewrite normalizeTransactions_rows. simpl. split.
  - intros i tx s Hi Hp Hs Hd. split.
    + apply in_flat_map. exists tx. split; [eapply nth_error_In; exact Hi|].
      rewrite dateErrors_cases, Hp, Hd.
      destruct s as [|a s]; [congruence|]. simpl. left. reflexivity.
    + intros Ha. rewrite nth_error_map, Hi. simpl.
      rewrite normalizedRow_date, Hp, Hd.
      destruct (truthyString s); rewrite Ha; reflexivity.
  - intros f Hf. apply in_flat_map in Hf. destruct Hf as (tx & Htx & Hf).
    rewrite dateErrors_cases in Hf.
    destruct (postedDate tx) as [s|] eqn:Hp; [|contradiction].
    destruct s as [|a s]; [contradiction|]. simpl in Hf.
    destruct (Date_parse (String a s)) eqn:Hd; [contradiction|].
    destruct Hf as [Hf|[]].
    exists tx, (String a s). repeat split; try assumption; [discriminate|].
    symmetry. exact Hf.
Qed.

(** *** Re-running the normalizer *)

Lemma normalizedRow_raw (tx : Transaction) :
  let n := normalizedRow Date_parse Date_toISOString tx in
  rowId n = rowId tx /\ postedDate n = postedDate tx /\ debit n = debit tx
  /\ credit n = credit tx /\ runningBalance n = runningBalance tx.
Proof.
  destruct tx as [id pd de db cr rb nd na nb opd ode odb ocr ie ef].
  unfold normalizedRow, normalizeOne, normalizeDate, normalizeBalance, bind, ret, push;
    simpl.
  destruct pd as [s|]; [destruct (truthyString s); [destruct (Date_parse s)|]|];
    simpl;
    (destruct rb as [b|]; [destruct (truthyString b);
       [destruct (negb (isNaN (parseFloat (stripAmount b))))|]|];
     repeat split; reflexivity).
Qed.

Lemma normalizedRow_idempotent (tx : Transaction) :
  normalizedRow Date_parse Date_toISOString (normalizedRow Date_parse Date_toISOString tx)
  = normalizedRow Date_parse Date_toISOString tx.
Proof.
  destruct tx as [id pd de db cr rb nd na nb opd ode odb ocr ie ef].
  unfold normalizedRow, normalizeOne, normalizeDate, normalizeBalance, rawAmount,
    bind, ret, push; simpl.
  destruct pd as [s|]; [destruct (truthyString s) eqn:Hs;
                        [destruct (Date_parse s) eqn:Hd|]|]; simpl;
    (destruct rb as [b|]; [destruct (truthyString b) eqn:Hb;
       [destruct (negb (isNaN (parseFloat (stripAmount b)))) eqn:Hn|]|]; simpl;
     rewrite ?Hs, ?Hd, ?Hb, ?Hn; simpl; rewrite ?Hs, ?Hd, ?Hb, ?Hn; reflexivity).
Qed.

Lemma dateErrors_normalizedRow (tx : Transaction) :
  dateErrors Date_parse Date_toISOString (normalizedRow Date_parse Date_toISOString tx)
  = dateErrors Date_parse Date_toISOString tx.
Proof.
  rewrite !dateErrors_cases.
  destruct (normalizedRow_raw tx) as (Hid & Hp & _). rewrite Hp.
  unfold dateFlag. rewrite Hid. reflexivity.
Qed.

Lemma normalizeTransactions_idempotent (transactions : list Transaction) :
  normalizeTransactions Date_parse Date_toISOString
    (normalized (normalizeTransactions Date_parse Date_toISOString transactions))
  = normalizeTransactions Date_parse Date_toISOString transactions.
Proof.
  rewrite !normalizeTransactions_rows. simpl. f_equal.
  - rewrite map_map. apply map_ext. intros tx. apply normalizedRow_idempotent.
  - induction transactions as [|tx rest IH]; simpl; [reflexivity|].
    rewrite dateErrors_normalizedRow, IH. reflexivity.
Qed.

(** C7. Evaluating reconcileStatement on the normalizer's output twice,
    on unchanged inputs, gives the same ValidationResult, whatever the wall
    clock shows at either call: same status, same flags in the same order
    with the same messages, same isReconciled, totalTransactions and
    flaggedRowsCount.  The result does not change either when the rows
    handed to the normalizer are rows it has normalized before, which is how
    the pipeline is re-run after an edit. *)
Theorem validation_reentrant (metadata : StatementMetadata)
    (transactions : list Transaction) (clock1 clock2 : Z) :
  let first :=
    validateAt (mkRuntime Date_parse Date_toISOString clock1) metadata transactions in
  let second :=
    validateAt (mkRuntime Date_parse Date_toISOString clock2) metadata transactions in
  let again :=
    validateAt (mkRuntime Date_parse Date_toISOString clock2) metadata
      (normalized (normalizeTransactions Date_parse Date_toISOString transactions)) in
  first = second
  /\ status first = status second
  /\ flags first = flags second
  /\ map Flag.message (flags first) = map Flag.message (flags second)
  /\ isReconciled first = isReconciled second
  /\ totalTransactions first = totalTransactions second
  /\ flaggedRowsCount first = flaggedRowsCount second
  /\ again = first.
Proof.
  intros first second again.
  assert (H : first = second) by reflexivity.
  rewrite <- H. repeat split.
  unfold again, first, validateAt. simpl.
  rewrite normalizeTransactions_idempotent. reflexivity.
Qed.

(** flaggedRowsCount, for every statement: the number of distinct non-null
    rowIds among the flags, plus one as soon as a statement-level flag is
    present. *)
Lemma flaggedRowsCount_split (metadata : StatementMetadata)
    (transactions : list Transaction) :
  let r := reconcileStatement Date_parse metadata transactions in
  flaggedRowsCount r
  = (distinctFlaggedRows (flags r)
     + (if existsb statementLevel (flags r) then 1 else 0))%nat.
Proof.
  unfold reconcileStatement.
  destruct (bind _ _ _) as [u fl]. simpl. apply rowIdSetSize_split.
Qed.

End PipelineProperties.

(** ** The normalizer and the reconciler on concrete statements *)

(** The sample statement: 5000.00 + 847.50 = 5847.50, no flag, PASS. *)
Lemma sample_statement_passes :
  let n := normalizeTransactions IsoDate.parse IsoDate.toISOString sampleTransactions in
  errors n = []
  /\ map normalizedAmount (normalized n)
     = map Present [1500; -250; -3000; 2500; -25; 347.5; -225]%float
  /\ reconcileStatement IsoDate.parse sampleMetadata (normalized n)
     = mkResult PASS [] true 7 0.
Proof.
  vm_compute. repeat split; reflexivity.
Qed.

(** Rounding to cents is Math.round on the hundredfold, so a tie goes
    towards +Infinity: a debit of 0.125 becomes -0.12. *)
Lemma normalize_rounds_ties_up :
  rawAmount halfCentRow = (-0.125)%float
  /\ map normalizedAmount
       (normalized (normalizeTransactions IsoDate.parse IsoDate.toISOString
                      [halfCentRow]))
     = [Present (-0.12)%float].
Proof.
  vm_compute. split; reflexivity.
Qed.

(** A row dated 2024-02-05 in a statement for January 2024: exactly one
    flag, a warning on that row, and the status stays PASS. *)
Lemma late_row_warning :
  let n := normalizeTransactions IsoDate.parse IsoDate.toISOString [lateRow] in
  let r := reconcileStatement IsoDate.parse periodMetadata (normalized n) in
  errors n = []
  /\ flags r = [Flag.mk (Some "TXN013") warning
                  "Transaction date 2024-02-05 outside statement period"
                  (Some "postedDate") None]
  /\ status r = PASS.
Proof.
  vm_compute. repeat split; reflexivity.
Qed.

(** C4, the claim as stated fails: a row whose postedDate is null gets no
    flag from the normalizer, whatever the date engine. *)
Lemma absent_date_not_flagged :
  postedDate undatedRow = None
  /\ forall (Date_parse : string -> option Z) (Date_toISOString : Z -> string),
       errors (normalizeTransactions Date_parse Date_toISOString [undatedRow]) = [].
Proof.
  split; [reflexivity|]. intros dp ts. reflexivity.
Qed.

Lemma normalize_unparsable_date_witness :
  let r := normalizeTransactions IsoDate.parse IsoDate.toISOString [garbledDateRow] in
  In (Flag.mk (Some (rowId garbledDateRow)) error
        (String.append "Invalid date format: " "not a date") (Some "postedDate") None)
     (errors r)
  /\ option_map (fun n => isAbsent (normalizedDate n)) (nth_error (normalized r) 0)
     = Some true.
Proof.
  destruct (proj1 (normalize_unparsable_date IsoDate.parse IsoDate.toISOString
                     [garbledDateRow]) 0%nat garbledDateRow "not a date")
    as [Hflag Hdate].
  - reflexivity.
  - reflexivity.
  - discriminate.
  - vm_compute. reflexivity.
  - split; [exact Hflag|]. apply Hdate. reflexivity.
Defined.

Lemma reconcile_missing_balances_witness :
  let r := reconcileStatement IsoDate.parse bareMetadata cancellingRows in
  status r = PASS
  /\ List.filter isError (flags r) = []
  /\ List.filter statementLevel (flags r) = [].
Proof.
  refine (proj2 (proj2 (reconcile_missing_balances IsoDate.parse bareMetadata
                          cancellingRows)) _ _ _).
  - reflexivity.
  - reflexivity.
  - vm_compute. reflexivity.
Defined.

(** ** applyEdit *)

Ltac edit_cases tx :=
  destruct tx as [id pd de db cr rb nd na nb opd ode odb ocr ie ef];
  unfold originalOf, valueOf, applyEdit, truthyNullable; simpl.

Ltac edit_simpl :=
  repeat (progress (rewrite ?andb_false_r, ?andb_true_r; simpl)).

Ltac finish_edit :=
  repeat match goal with
         | |- context [match ?ef with Some _ => _ | None => _ end] =>
             is_var ef; destruct ef; simpl
         | |- context [if negb (includes ?f ?l) then _ else _] =>
             destruct (includes f l); simpl
         end; try reflexivity.

(** The first edit of a field whose shadow is not set stores the value
    the field had. *)
Lemma applyEdit_stores_shadow (field : string) (tx : Transaction) (v : option string) :
  In field editableFields ->
  truthyNullable (originalOf field tx) = false ->
  originalOf field (applyEdit tx field v) = valueOf field tx.
Proof.
  intros Hin. unfold editableFields in Hin. simpl in Hin.
  destruct Hin as [<-|[<-|[<-|[<-|[]]]]]; edit_cases tx; intros H.
  - edit_simpl. rewrite H. edit_simpl. finish_edit.
  - assert (Ho : truthyOptString ode = false).
    { destruct ode as [s|]; [exact H|reflexivity]. }
    edit_simpl. rewrite Ho. edit_simpl. finish_edit.
  - edit_simpl. rewrite H. edit_simpl. finish_edit.
  - edit_simpl. rewrite H. edit_simpl. finish_edit.
Qed.

(** A shadow that holds a non-empty string survives an edit of its field. *)
Lemma applyEdit_keeps_shadow (field : string) (tx : Transaction) (v : option string) :
  In field editableFields ->
  truthyNullable (originalOf field tx) = true ->
  originalOf field (applyEdit tx field v) = originalOf field tx.
Proof.
  intros Hin. unfold editableFields in Hin. simpl in Hin.
  destruct Hin as [<-|[<-|[<-|[<-|[]]]]]; edit_cases tx; intros H.
  - edit_simpl. rewrite H. edit_simpl. finish_edit.
  - assert (Ho : truthyOptString ode = true).
    { destruct ode as [s|]; [exact H|discriminate H]. }
    edit_simpl. rewrite Ho. edit_simpl. finish_edit.
  - edit_simpl. rewrite H. edit_simpl. finish_edit.
  - edit_simpl. rewrite H. edit_simpl. finish_edit.
Qed.

Lemma applyEdits_keep_shadow (field : string) (values : list (option string)) :
  In field editableFields ->
  forall tx : Transaction,
  truthyNullable (originalOf field tx) = true ->
  originalOf field (applyEdits tx (editsOf field values)) = originalOf field tx.
Proof.
  intros Hin. induction values as [|v rest IH]; intros tx H; simpl; [reflexivity|].
  unfold applyEdits in *. simpl.
  rewrite IH.
  - apply applyEdit_keeps_shadow; assumption.
  - rewrite applyEdit_keeps_shadow; assumption.
Qed.

(** The edit audit invariant, where it holds: when the shadow of a field
    is not yet set and the field holds a non-empty string, any run of one or
    more edits of the field leaves the shadow equal to that string. *)
Lemma applyEdit_shadow_kept (field : string) (tx : Transaction)
    (v : option string) (values : list (option string)) :
  In field editableFields ->
  truthyNullable (originalOf field tx) = false ->
  truthyNullable (valueOf field tx) = true ->
  originalOf field (applyEdits tx (editsOf field (v :: values))) = valueOf field tx.
Proof.
  intros Hin Hs Hv. unfold applyEdits. simpl.
  fold (applyEdits (applyEdit tx field v) (editsOf field values)).
  rewrite applyEdits_keep_shadow.
  - apply applyEdit_stores_shadow; assumption.
  - exact Hin.
  - rewrite applyEdit_stores_shadow; assumption.
Qed.

Lemma applyEdit_shadow_kept_witness :
  originalOf "debit"
    (applyEdits debitOnlyRow (editsOf "debit" [Some "260.00"; None; Some "255.00"]))
  = Present "250.00".
Proof.
  apply (applyEdit_shadow_kept "debit" debitOnlyRow (Some "260.00") [None; Some "255.00"]).
  - unfold editableFields. simpl. auto.
  - reflexivity.
  - reflexivity.
Defined.

(** Every edit sets isEdited, whatever the field. *)
Lemma applyEdit_isEdited (tx : Transaction) (field : string) (v : option string) :
  isEdited (applyEdit tx field v) = Some true.
Proof.
  unfold applyEdit.
  repeat match goal with
         | |- context [if ?b then _ else _] => destruct b; simpl
         | |- context [match editedFields ?t with Some _ => _ | None => _ end] =>
             destruct (editedFields t); simpl
         end; reflexivity.
Qed.

(** Once set, isEdited stays set through any further run of edits. *)
Lemma applyEdits_isEdited (edits : list (string * option string)) :
  forall tx : Transaction,
  isEdited tx = Some true -> isEdited (applyEdits tx edits) = Some true.
Proof.
  induction edits as [|e rest IH]; intros tx H; [exact H|].
  unfold applyEdits in *. simpl. apply IH, applyEdit_isEdited.
Qed.

Lemma applyEdits_isEdited_witness :
  isEdited (applyEdits (applyEdit debitOnlyRow "debit" (Some "1.00"))
              [("credit", None); ("memo", Some "x")]) = Some true.
Proof.
  apply (applyEdits_isEdited [("credit", None); ("memo", Some "x")]
           (applyEdit debitOnlyRow "debit" (Some "1.00"))).
  reflexivity.
Defined.

Lemma includes_In (x : string) (l : list string) :
  includes x l = true -> In x l.
Proof.
  unfold includes. intros H. apply existsb_exists in H.
  destruct H as (y & Hy & He). apply String.eqb_eq in He. subst y. exact Hy.
Qed.

(** The copy shares the editedFields array of its argument: after a
    second edit the first result shows the second field name too. *)
Lemma applyEdit_argument_shares_array :
  let t1 := applyEdit debitOnlyRow "debit" (Some "1.00") in
  editedFields t1 = Some ["debit"]
  /\ editedFields (applyEdit t1 "credit" None) = Some ["debit"; "credit"]
  /\ editedFields (applyEdit_argument t1 "credit") = Some ["debit"; "credit"].
Proof.
  repeat split; reflexivity.
Qed.

(** C3 (as the code behaves).  The shadow is tested for truthiness, so a
    shadow that holds null or the empty string counts as not stored.  On a
    row whose credit is null, two edits of credit leave originalCredit equal
    to the first edited value, not to null; on a row whose description is
    empty, two edits of description leave originalDescription equal to the
    first edited value, not to the empty string. *)
Theorem applyEdit_shadow_overwritten :
  valueOf "credit" debitOnlyRow = Null
  /\ originalOf "credit"
       (applyEdits debitOnlyRow [("credit", Some "10.00"); ("credit", Some "20.00")])
     = Present "10.00"
  /\ valueOf "description" blankDescriptionRow = Present EmptyString
  /\ originalOf "description"
       (applyEdits blankDescriptionRow
          [("description", Some "RENT"); ("description", Some "RENT JANUARY")])
     = Present "RENT".
Proof.
  repeat split; reflexivity.
Qed.

(** C10. A field name outside postedDate, description, debit and credit
    changes no raw field, no normalized field and no shadow; the result
    still has isEdited true and the name among its editedFields. *)
Theorem applyEdit_unknown_field (transaction : Transaction) (field : string)
    (newValue : option string) :
  ~ In field editableFields ->
  let edited := applyEdit transaction field newValue in
  (rowId edited = rowId transaction
   /\ postedDate edited = postedDate transaction
   /\ description edited = description transaction
   /\ debit edited = debit transaction
   /\ credit edited = credit transaction
   /\ runningBalance edited = runningBalance transaction)
  /\ (normalizedDate edited = normalizedDate transaction
      /\ normalizedAmount edited = normalizedAmount transaction
      /\ normalizedBalance edited = normalizedBalance transaction)
  /\ (originalPostedDate edited = originalPostedDate transaction
      /\ originalDescription edited = originalDescription transaction
      /\ originalDebit edited = originalDebit transaction
      /\ originalCredit edited = originalCredit transaction)
  /\ isEdited edited = Some true
  /\ exists fs, editedFields edited = Some fs /\ In field fs.
Proof.
  intros Hf edited. unfold editableFields in Hf. simpl in Hf.
  assert (H1 : String.eqb field "postedDate" = false)
    by (apply String.eqb_neq; intros E; apply Hf; auto).
  assert (H2 : String.eqb field "description" = false)
    by (apply String.eqb_neq; intros E; apply Hf; auto).
  assert (H3 : String.eqb field "debit" = false)
    by (apply String.eqb_neq; intros E; apply Hf; auto).
  assert (H4 : String.eqb field "credit" = false)
    by (apply String.eqb_neq; intros E; apply Hf; auto 6).
  unfold edited, applyEdit. rewrite H1, H2, H3, H4, !andb_false_r.
  destruct transaction as [id pd de db cr rb nd na nb opd ode odb ocr ie ef].
  simpl. destruct ef as [fs|]; simpl.
  - destruct (includes field fs) eqn:Hi; simpl.
    + repeat split. exists fs. split; [reflexivity|apply includes_In, Hi].
    + repeat split. exists (fs ++ [field]). split; [reflexivity|].
      apply in_or_app. right. left. reflexivity.
  - repeat split. exists [field]. split; [reflexivity|left; reflexivity].
Qed.

Lemma applyEdit_unknown_field_witness :
  let edited := applyEdit debitOnlyRow "runningBalance" (Some "1.00") in
  runningBalance edited = runningBalance debitOnlyRow
  /\ isEdited edited = Some true
  /\ exists fs, editedFields edited = Some fs /\ In "runningBalance" fs.
Proof.
  assert (Hf : ~ In "runningBalance" editableFields).
  { unfold editableFields. simpl. intros [H|[H|[H|[H|[]]]]]; discriminate H. }
  pose proof (applyEdit_unknown_field debitOnlyRow "runningBalance" (Some "1.00") Hf) as H.
  destruct H as ((_ & _ & _ & _ & _ & Hrb) & _ & _ & He & Hfs).
  split; [exact Hrb|]. split; [exact He|exact Hfs].
Defined.

(** ** generateTransactionHash *)

(** C8 (as the code behaves).  The hash is a function of the five
    fingerprint inputs: two calls that agree on rowId, normalizedDate,
    normalizedAmount, description and accountLastFour return the same
    TransactionHash, whatever the other fields of the transactions. *)
Theorem fingerprint_deterministic (t1 t2 : Transaction) (a1 a2 : string) :
  rowId t1 = rowId t2 ->
  normalizedDate t1 = normalizedDate t2 ->
  normalizedAmount t1 = normalizedAmount t2 ->
  description t1 = description t2 ->
  a1 = a2 ->
  generateTransactionHash t1 a1 = generateTransactionHash t2 a2
  /\ Hash.hash (generateTransactionHash t1 a1) = Hash.hash (generateTransactionHash t2 a2).
Proof.
  intros Hid Hd Ha Hdesc Hacc.
  assert (H : generateTransactionHash t1 a1 = generateTransactionHash t2 a2).
  { unfold generateTransactionHash, hashInput.
    rewrite Hid, Hd, Ha, Hdesc, Hacc. reflexivity. }
  split; [exact H|]. rewrite H. reflexivity.
Qed.

Lemma fingerprint_deterministic_witness :
  Hash.hash (generateTransactionHash debitOnlyRow "4567")
  = Hash.hash (generateTransactionHash (setDebit (Some "999.99") debitOnlyRow) "4567").
Proof.
  exact (proj2 (fingerprint_deterministic debitOnlyRow
                  (setDebit (Some "999.99") debitOnlyRow) "4567" "4567"
                  eq_refl eq_refl eq_refl eq_refl eq_refl)).
Defined.

(** C8, the claim as stated fails: two rows that differ in their
    description only, by two characters, have the same hash. *)
Lemma fingerprint_collision :
  rowId collisionRowA = rowId collisionRowB
  /\ normalizedDate collisionRowA = normalizedDate collisionRowB
  /\ normalizedAmount collisionRowA = normalizedAmount collisionRowB
  /\ description collisionRowA <> description collisionRowB
  /\ Hash.hash (generateTransactionHash collisionRowA "4567")
     = Hash.hash (generateTransactionHash collisionRowB "4567").
Proof.
  split; [reflexivity|]. split; [reflexivity|]. split; [reflexivity|].
  split; [discriminate|]. vm_compute. reflexivity.
Qed.

(** ** Export *)

Lemma length_substring0 (n : nat) :
  forall s : string, String.length (substring0 n s) = Nat.min n (String.length s).
Proof.
  unfold substring0.
  induction n as [|n IH]; intros s; destruct s as [|c s]; simpl; try reflexivity.
  rewrite IH. reflexivity.
Qed.

Lemma length_repeatChar (c : ascii) (n : nat) : String.length (repeatChar c n) = n.
Proof.
  induction n as [|n IH]; simpl; [reflexivity|]. rewrite IH. reflexivity.
Qed.

Lemma length_string_append (s1 s2 : string) :
  String.length (String.append s1 s2) = (String.length s1 + String.length s2)%nat.
Proof.
  induction s1 as [|c s1 IH]; simpl; [reflexivity|]. rewrite IH. reflexivity.
Qed.

Lemma length_padEnd_substring0 (n : nat) (c : ascii) (s : string) :
  String.length (padEnd n c (substring0 n s)) = n.
Proof.
  unfold padEnd. rewrite length_string_append, length_repeatChar, length_substring0.
  lia.
Qed.

(** The transaction identifier of the interchange format has exactly 32
    characters. *)
Lemma generateFITID_length (tx : Transaction) (accountLastFour : string) :
  String.length (generateFITID tx accountLastFour) = 32%nat.
Proof.
  unfold generateFITID. apply length_padEnd_substring0.
Qed.

(** The interchange document carries the time of the export: two exports
    of the same statement at different times differ. *)
Lemma generateOFXExport_reads_clock :
  exportOFXAt (mkRuntime IsoDate.parse IsoDate.toISOString 1704153600000)
    sampleMetadata [] true
  <> exportOFXAt (mkRuntime IsoDate.parse IsoDate.toISOString 1704153601000)
       sampleMetadata [] true.
Proof.
  vm_compute. discriminate.
Qed.

(** ** The document gate *)

Lemma pushIfMissing_length (field : option string) (text : string) (reasons : list string) :
  length (pushIfMissing field text reasons)
  = (length reasons + (if truthyOptString field then 0 else 1))%nat.
Proof.
  unfold pushIfMissing. destruct (truthyOptString field); simpl.
  - lia.
  - rewrite length_app. simpl. lia.
Qed.

(** validateDocument passes exactly when the seven required fields are all
    present and non-empty, and it gives one reason per field that is not. *)
Theorem validateDocument_gate (metadata : StatementMetadata) :
  (Doc.status (validateDocument metadata) = PASS
   <-> forallb truthyOptString (requiredFields metadata) = true)
  /\ (Doc.status (validateDocument metadata) = BLOCK
      <-> Doc.reasons (validateDocument metadata) <> [])
  /\ length (Doc.reasons (validateDocument metadata))
     = length (List.filter (fun f => negb (truthyOptString f)) (requiredFields metadata)).
Proof.
  set (r := Doc.reasons (validateDocument metadata)).
  assert (Hs : Doc.status (validateDocument metadata)
               = if (length r =? 0)%nat then PASS else BLOCK) by reflexivity.
  assert (Hl : length r
               = length (List.filter (fun f => negb (truthyOptString f))
                           (requiredFields metadata))).
  { unfold r, validateDocument. cbn [Doc.reasons].
    rewrite !pushIfMissing_length. unfold requiredFields. cbn [List.filter].
    destruct (truthyOptString (financialInstitution metadata)),
             (truthyOptString (accountName metadata)),
             (truthyOptString (statementStartDate metadata)),
             (truthyOptString (statementEndDate metadata)),
             (truthyOptString (openingBalance metadata)),
             (truthyOptString (closingBalance metadata)),
             (truthyOptString (currency metadata)); reflexivity. }
  assert (Hf : forallb truthyOptString (requiredFields metadata) = true
               <-> length r = 0%nat).
  { rewrite Hl. generalize (requiredFields metadata). intros l.
    induction l as [|f l IH]; simpl; [tauto|].
    destruct (truthyOptString f); simpl; [exact IH|].
    split; [discriminate|lia]. }
  rewrite Hs. split; [|split; [|exact Hl]].
  - rewrite Hf. destruct (length r); simpl; split; auto; discriminate.
  - destruct r as [|x r']; simpl; split; auto; try discriminate.
    intros H. now destruct H.
Qed.

(** ** The verdict of the reconciliation *)

Lemma rowWarningOf_cons (tx : Transaction) (rest : list Transaction)
    (out : list ValidationFlag) :
  Forall (rowWarningOf rest) out -> Forall (rowWarningOf (tx :: rest)) out.
Proof.
  intros H. eapply Forall_impl; [exact H|].
  intros f (Hs & Hf & t & Ht & Hid). repeat split; try assumption.
  exists t. split; [right; exact Ht|exact Hid].
Qed.

Lemma rowWarningOf_rowWarning (transactions : list Transaction)
    (out : list ValidationFlag) :
  Forall (rowWarningOf transactions) out -> Forall rowWarning out.
Proof.
  intros H. eapply Forall_impl; [exact H|].
  intros f (Hs & _ & t & _ & Hid). unfold rowWarning, isError, statementLevel.
  rewrite Hs, Hid. split; reflexivity.
Qed.

Section VerdictProperties.

Variable Date_parse : string -> option Z.
Variable Date_toISOString : Z -> string.

Lemma checkRunning_rows (transactions : list Transaction) :
  forall (expectedBalance : float) (fl : list ValidationFlag),
  exists out, checkRunning expectedBalance transactions fl = (tt, fl ++ out)
              /\ Forall (rowWarningOf transactions) out
              /\ (length out <= length transactions)%nat.
Proof.
  induction transactions as [|tx rest IH]; intros e fl; simpl.
  - exists []. rewrite app_nil_r. repeat split; [exact (List.Forall_nil _)|simpl; lia].
  - unfold bind.
    set (e' := (e + numberOrZero (normalizedAmount tx))%float).
    assert (Hskip : forall fl', exists out,
               checkRunning e' rest fl' = (tt, fl' ++ out)
               /\ Forall (rowWarningOf (tx :: rest)) out
               /\ (length out <= S (length rest))%nat).
    { intros fl'. destruct (IH e' fl') as (out & Hout & Hw & Hl).
      exists out. repeat split; [exact Hout|apply rowWarningOf_cons, Hw|lia]. }
    destruct (normalizedBalance tx) as [| |b]; simpl; try apply Hskip.
    destruct (0.01 <? Math_abs (e' - b))%float; simpl; try apply Hskip.
    destruct (IH e' (fl ++ [runningFlag tx e' b])) as (out & Hout & Hw & Hl).
    exists (runningFlag tx e' b :: out). repeat split.
    + rewrite Hout. rewrite <- app_assoc. reflexivity.
    + constructor; [|apply rowWarningOf_cons, Hw].
      repeat split; [left; reflexivity|].
      exists tx. split; [left; reflexivity|reflexivity].
    + simpl. lia.
Qed.

Lemma forEmit_checkDate_rows (startDate endDate : option Z)
    (transactions : list Transaction) :
  forall fl : list ValidationFlag,
  exists out,
    forEmit (checkDate Date_parse startDate endDate) transactions fl = (tt, fl ++ out)
    /\ Forall (rowWarningOf transactions) out
    /\ (length out <= length transactions)%nat.
Proof.
  induction transactions as [|tx rest IH]; intros fl; simpl.
  - exists []. rewrite app_nil_r. repeat split; [exact (List.Forall_nil _)|simpl; lia].
  - unfold bind.
    assert (Hskip : exists out,
               forEmit (checkDate Date_parse startDate endDate) rest fl = (tt, fl ++ out)
               /\ Forall (rowWarningOf (tx :: rest)) out
               /\ (length out <= S (length rest))%nat).
    { destruct (IH fl) as (out & Hout & Hw & Hl).
      exists out. repeat split; [exact Hout|apply rowWarningOf_cons, Hw|lia]. }
    unfold checkDate at 1.
    destruct (normalizedDate tx) as [| |d]; simpl; try exact Hskip.
    destruct (truthyString d); simpl; try exact Hskip.
    destruct (dateLt (Date_parse d) startDate || dateLt endDate (Date_parse d));
      simpl; try exact Hskip.
    destruct (IH (fl ++ [periodFlag tx d])) as (out & Hout & Hw & Hl).
    exists (periodFlag tx d :: out). repeat split.
    + rewrite Hout. rewrite <- app_assoc. reflexivity.
    + constructor; [|apply rowWarningOf_cons, Hw].
      repeat split; [right; reflexivity|].
      exists tx. split; [left; reflexivity|reflexivity].
    + simpl. lia.
Qed.

Lemma checkDates_rows (metadata : StatementMetadata)
    (transactions : list Transaction) (fl : list ValidationFlag) :
  exists out, checkDates Date_parse metadata transactions fl = (tt, fl ++ out)
              /\ Forall (rowWarningOf transactions) out
              /\ (length out <= length transactions)%nat.
Proof.
  assert (Hnil : exists out, ret tt fl = (tt, fl ++ out)
                             /\ Forall (rowWarningOf transactions) out
                             /\ (length out <= length transactions)%nat).
  { exists []. rewrite app_nil_r. repeat split; [exact (List.Forall_nil _)|simpl; lia]. }
  unfold checkDates.
  destruct (statementStartDate metadata) as [s|]; try exact Hnil.
  destruct (statementEndDate metadata) as [e|]; try exact Hnil.
  destruct (truthyString s && truthyString e); try exact Hnil.
  apply forEmit_checkDate_rows.
Qed.

(** The flags of the reconciliation: the balance-identity flag when the
    difference exceeds the tolerance, then warnings about rows of the
    statement, at most two per row. *)
Lemma reconcile_flags_rows (metadata : StatementMetadata)
    (transactions : list Transaction) :
  let opening := optNumberOrZero (normalizedOpeningBalance metadata) in
  let closing := optNumberOrZero (normalizedClosingBalance metadata) in
  let total := transactionSum transactions in
  let difference := balanceDifference metadata transactions in
  exists out,
    flags (reconcileStatement Date_parse metadata transactions)
    = (if (0.01 <? difference)%float
       then [mismatchFlag opening total closing difference] else []) ++ out
    /\ Forall (rowWarningOf transactions) out
    /\ (length out <= 2 * length transactions)%nat.
Proof.
  intros opening closing total difference.
  unfold reconcileStatement.
  fold opening closing total.
  change (Math_abs (opening + total - closing)) with difference.
  unfold bind.
  set (head := if (0.01 <? difference)%float
               then [mismatchFlag opening total closing difference] else []).
  assert (Hhead : (if (0.01 <? difference)%float
                   then push (mismatchFlag opening total closing difference)
                   else ret tt) [] = (tt, head)).
  { unfold head. destruct (0.01 <? difference)%float; reflexivity. }
  rewrite Hhead.
  destruct (checkRunning_rows transactions opening head) as (o1 & H1 & W1 & L1).
  rewrite H1.
  destruct (checkDates_rows metadata transactions (head ++ o1)) as (o2 & H2 & W2 & L2).
  rewrite H2. simpl.
  exists (o1 ++ o2). repeat split.
  - rewrite <- app_assoc. reflexivity.
  - apply Forall_app. split; assumption.
  - rewrite length_app. lia.
Qed.

Lemma reconcile_error_flags (metadata : StatementMetadata)
    (transactions : list Transaction) :
  List.filter isError (flags (reconcileStatement Date_parse metadata transactions))
  = if (0.01 <? balanceDifference metadata transactions)%float
    then [mismatchFlag (optNumberOrZero (normalizedOpeningBalance metadata))
            (transactionSum transactions)
            (optNumberOrZero (normalizedClosingBalance metadata))
            (balanceDifference metadata transactions)]
    else [].
Proof.
  destruct (reconcile_flags_rows metadata transactions) as (out & Hfl & Hw & _).
  rewrite Hfl, List.filter_app.
  rewrite (rowWarning_not_error out (rowWarningOf_rowWarning _ _ Hw)).
  destruct (0.01 <? _)%float; reflexivity.
Qed.

Lemma reconcile_total (metadata : StatementMetadata) (transactions : list Transaction) :
  totalTransactions (reconcileStatement Date_parse metadata transactions)
  = length transactions.
Proof.
  unfold reconcileStatement. destruct (bind _ _ _) as [u fl]. reflexivity.
Qed.

Lemma reconcile_flag_cases (metadata : StatementMetadata)
    (transactions : list Transaction) (f : ValidationFlag) :
  In f (flags (reconcileStatement Date_parse metadata transactions)) ->
  (Flag.rowId f = None /\ Flag.severity f = error)
  \/ rowWarningOf transactions f.
Proof.
  destruct (reconcile_flags_rows metadata transactions) as (out & Hfl & Hw & Hl).
  rewrite Hfl. intros Hin. apply in_app_or in Hin. destruct Hin as [Hin|Hin].
  - left. destruct (0.01 <? _)%float; [|contradiction].
    destruct Hin as [<-|[]]. split; reflexivity.
  - right. rewrite Forall_forall in Hw. apply Hw.
    apply list_elem_of_In. exact Hin.
Qed.

(** The verdict is decided by the balance identity alone: the status is
    BLOCK exactly when the difference exceeds 0.01, whatever the running
    balances and the dates; isReconciled mirrors it, the result holds one
    error flag when blocked and none otherwise, and totalTransactions is the
    number of rows. *)
Theorem reconcile_verdict (metadata : StatementMetadata)
    (transactions : list Transaction) :
  let r := reconcileStatement Date_parse metadata transactions in
  let exceeds := (0.01 <? balanceDifference metadata transactions)%float in
  status r = (if exceeds then BLOCK else PASS)
  /\ isReconciled r = negb exceeds
  /\ errorCount r = (if exceeds then 1 else 0)%nat
  /\ totalTransactions r = length transactions.
Proof.
  intros r exceeds.
  destruct (reconcile_status Date_parse metadata transactions) as [Hst Hrec].
  fold r in Hst, Hrec.
  pose proof (reconcile_error_flags metadata transactions) as He.
  fold r exceeds in He.
  unfold errorCount. rewrite Hst, Hrec, He.
  repeat split; try (destruct exceeds; reflexivity).
  apply reconcile_total.
Qed.

(** reconcileStatement never flags a row that is not in the statement:
    every flag is either the statement-level balance error or a warning
    (field runningBalance or postedDate) carrying the rowId of one of the
    given transactions; there are at most 1 + 2n flags for n rows. *)
Theorem reconcile_flags_about_rows (metadata : StatementMetadata)
    (transactions : list Transaction) :
  let r := reconcileStatement Date_parse metadata transactions in
  (forall f : ValidationFlag, In f (flags r) ->
     (Flag.rowId f = None /\ Flag.severity f = error)
     \/ rowWarningOf transactions f)
  /\ (length (flags r) <= 1 + 2 * length transactions)%nat.
Proof.
  intros r. split.
  - intros f. apply reconcile_flag_cases.
  - destruct (reconcile_flags_rows metadata transactions) as (out & Hfl & Hw & Hl).
    fold r in Hfl. rewrite Hfl, length_app.
    destruct (0.01 <? _)%float; simpl; lia.
Qed.

End VerdictProperties.

(** ** Review status and row flags *)

(** generateReviewStatus reports READY exactly when no unresolved flag is
    an error: warnings alone leave the export READY.  READY comes with no
    blocked reason, BLOCKED with the number of errors in its reason, and a
    missing validation result gives READY with no flags and a count of 0. *)
Theorem reviewStatus_ready_iff (transactions : list Transaction)
    (validationResult : option ValidationResult) :
  let rs := generateReviewStatus transactions validationResult in
  let errs := List.filter isError (Review.unresolvedFlags rs) in
  (Review.exportStatus rs = READY <-> errs = [])
  /\ (Review.exportStatus rs = READY -> Review.blockedReason rs = None)
  /\ (Review.exportStatus rs = BLOCKED ->
      Review.blockedReason rs
      = Some (String.append (decimalOfZ (Z.of_nat (length errs)))
                " critical issues must be resolved"))
  /\ Review.totalTransactions rs = length transactions
  /\ generateReviewStatus transactions None
     = Review.mk (length transactions) 0 [] READY None.
Proof.
  intros rs errs. unfold rs, errs, generateReviewStatus. simpl.
  destruct (List.filter isError
              match validationResult with Some r => flags r | None => [] end)
    as [|f rest] eqn:He; simpl.
  - repeat split; try reflexivity; intros H; discriminate H.
  - repeat split; try reflexivity; intros H; discriminate H.
Qed.

Section ReviewProperties.

Variable Date_parse : string -> option Z.
Variable Date_toISOString : Z -> string.

(** On the result of reconcileStatement the review status agrees with the
    verdict: READY exactly when the status is PASS; when blocked the reason
    always counts one critical issue. *)
Theorem reviewStatus_of_reconcile (metadata : StatementMetadata)
    (transactions : list Transaction) :
  let r := reconcileStatement Date_parse metadata transactions in
  let rs := generateReviewStatus transactions (Some r) in
  (Review.exportStatus rs = READY <-> status r = PASS)
  /\ Review.totalTransactions rs = totalTransactions r
  /\ Review.flaggedRowsCount rs = flaggedRowsCount r
  /\ Review.unresolvedFlags rs = flags r
  /\ (status r = BLOCK ->
      Review.blockedReason rs = Some "1 critical issues must be resolved").
Proof.
  intros r rs.
  destruct (reconcile_status Date_parse metadata transactions) as [Hst _].
  pose proof (reconcile_error_flags Date_parse metadata transactions) as Hec.
  pose proof (reconcile_total Date_parse metadata transactions) as Htot.
  fold r in Hst, Hec, Htot.
  unfold rs, generateReviewStatus. simpl. rewrite Hst, Hec, Htot.
  destruct (0.01 <? balanceDifference metadata transactions)%float; simpl.
  - repeat split; try reflexivity; intros H; discriminate H.
  - repeat split; try reflexivity; intros H; discriminate H.
Qed.

(** The table never marks a row of a reconciled statement as erroneous:
    the flags it shows on a row are the warnings carrying that rowId, the
    statement-level flag is shown on no row, and a rowId that is not in the
    statement has no flags. *)
Theorem table_row_flags (metadata : StatementMetadata)
    (transactions : list Transaction) (rowId_ : string) :
  let fl := flags (reconcileStatement Date_parse metadata transactions) in
  hasErrors fl rowId_ = false
  /\ Forall (fun f => Flag.rowId f = Some rowId_ /\ Flag.severity f = warning)
            (getRowFlags fl rowId_)
  /\ (~ In rowId_ (map rowId transactions) -> getRowFlags fl rowId_ = []).
Proof.
  intros fl.
  pose proof (reconcile_flag_cases Date_parse metadata transactions) as Hall.
  fold fl in Hall.
  assert (Hrow : forall f, In f (getRowFlags fl rowId_) ->
            Flag.rowId f = Some rowId_ /\ Flag.severity f = warning
            /\ In rowId_ (map rowId transactions)).
  { intros f Hf. unfold getRowFlags in Hf. apply List.filter_In in Hf.
    destruct Hf as [Hin Hrow]. unfold flagOfRow in Hrow.
    destruct (Flag.rowId f) as [id|] eqn:Hid; [|discriminate].
    apply String.eqb_eq in Hrow. subst id.
    destruct (Hall f Hin) as [[Hnone _]|(Hs & _ & tx & Htx & Htid)].
    - rewrite Hid in Hnone. discriminate.
    - repeat split; [exact Hs|].
      rewrite Hid in Htid. injection Htid as ->.
      apply in_map. exact Htx. }
  repeat split.
  - unfold hasErrors.
    destruct (existsb isError (getRowFlags fl rowId_)) eqn:He; [|reflexivity].
    apply existsb_exists in He. destruct He as (f & Hf & Herr).
    destruct (Hrow f Hf) as (_ & Hs & _). unfold isError in Herr.
    rewrite Hs in Herr. discriminate.
  - apply List.Forall_forall. intros f Hf.
    destruct (Hrow f Hf) as (H1 & H2 & _). split; assumption.
  - intros Hnot. destruct (getRowFlags fl rowId_) as [|f rest] eqn:Hg; [reflexivity|].
    exfalso. apply Hnot. destruct (Hrow f) as (_ & _ & H); [left; reflexivity|exact H].
Qed.

End ReviewProperties.

Lemma table_row_flags_witness :
  getRowFlags (flags (reconcileStatement IsoDate.parse sampleMetadata exampleRows)) "TXN999"
  = [].
Proof.
  apply (proj2 (proj2 (table_row_flags IsoDate.parse sampleMetadata exampleRows "TXN999"))).
  simpl. intros [H|[H|[H|[H|[H|[H|[H|[]]]]]]]]; discriminate H.
Defined.

(** ** The date check *)

Section DateCheckProperties.

Variable Date_parse : string -> option Z.
Variable Date_toISOString : Z -> string.

Lemma checkRunning_fields (transactions : list Transaction) :
  forall (expectedBalance : float) (fl : list ValidationFlag),
  exists out, checkRunning expectedBalance transactions fl = (tt, fl ++ out)
              /\ Forall (fun f => Flag.field f = Some "runningBalance") out.
Proof.
  induction transactions as [|tx rest IH]; intros e fl; simpl.
  - exists []. rewrite app_nil_r. split; [reflexivity|exact (List.Forall_nil _)].
  - unfold bind.
    set (e' := (e + numberOrZero (normalizedAmount tx))%float).
    destruct (normalizedBalance tx) as [| |b]; simpl; try apply IH.
    destruct (0.01 <? Math_abs (e' - b))%float; simpl; try apply IH.
    destruct (IH e' (fl ++ [runningFlag tx e' b])) as (out & Hout & Hw).
    exists (runningFlag tx e' b :: out). split.
    + rewrite Hout. rewrite <- app_assoc. reflexivity.
    + constructor; [reflexivity|exact Hw].
Qed.

Lemma forEmit_checkDate_unparsed (transactions : list Transaction) :
  forall fl : list ValidationFlag,
  forEmit (checkDate Date_parse None None) transactions fl = (tt, fl).
Proof.
  induction transactions as [|tx rest IH]; intros fl; simpl; [reflexivity|].
  unfold bind, checkDate at 1.
  destruct (normalizedDate tx) as [| |d]; simpl; try apply IH.
  destruct (truthyString d); simpl; try apply IH.
  unfold dateLt. destruct (Date_parse d); simpl; apply IH.
Qed.

Lemma checkDates_unusable (metadata : StatementMetadata)
    (transactions : list Transaction) (fl : list ValidationFlag) :
  periodUsable Date_parse metadata = false ->
  checkDates Date_parse metadata transactions fl = (tt, fl).
Proof.
  unfold periodUsable, checkDates.
  destruct (statementStartDate metadata) as [s|]; [|reflexivity].
  destruct (statementEndDate metadata) as [e|]; [|reflexivity].
  destruct (truthyString s && truthyString e); simpl; [|reflexivity].
  destruct (Date_parse s); simpl; [discriminate|].
  destruct (Date_parse e); simpl; [discriminate|].
  intros _. apply forEmit_checkDate_unparsed.
Qed.

(** Without a usable statement period the date check is skipped: when a
    period date is missing or empty, or when neither of them parses, no flag
    about postedDate is raised, whatever the dates of the transactions. *)
Theorem date_check_needs_period (metadata : StatementMetadata)
    (transactions : list Transaction) :
  periodUsable Date_parse metadata = false ->
  Forall (fun f => Flag.field f <> Some "postedDate")
         (flags (reconcileStatement Date_parse metadata transactions)).
Proof.
  intros Hp. unfold reconcileStatement, bind.
  set (d := Math_abs _).
  set (m := mismatchFlag _ _ _ _).
  assert (Hhead : exists head,
             (if (0.01 <? d)%float then push m else ret tt) [] = (tt, head)
             /\ Forall (fun f => Flag.field f <> Some "postedDate") head).
  { destruct (0.01 <? d)%float.
    - exists [m]. split; [reflexivity|].
      constructor; [discriminate|exact (List.Forall_nil _)].
    - exists []. split; [reflexivity|exact (List.Forall_nil _)]. }
  destruct Hhead as (head & Hh & Fh). rewrite Hh.
  destruct (checkRunning_fields transactions
              (optNumberOrZero (normalizedOpeningBalance metadata)) head)
    as (o1 & H1 & F1).
  rewrite H1, (checkDates_unusable metadata transactions (head ++ o1) Hp). simpl.
  apply Forall_app. split; [exact Fh|].
  eapply Forall_impl; [exact F1|]. intros f Hf. rewrite Hf. discriminate.
Qed.

End DateCheckProperties.

(** ** What the normalizer writes, and what it leaves *)

Section NormalizerFrame.

Variable Date_parse : string -> option Z.
Variable Date_toISOString : Z -> string.

Lemma normalizedRow_same (tx : Transaction) :
  sameOutsideNormalized tx (normalizedRow Date_parse Date_toISOString tx).
Proof.
  destruct tx as [id pd de db cr rb nd na nb opd ode odb ocr ie ef].
  unfold sameOutsideNormalized, normalizedRow, normalizeOne, normalizeDate,
    normalizeBalance, bind, ret, push; simpl.
  destruct pd as [s|]; [destruct (truthyString s); [destruct (Date_parse s)|]|];
    simpl;
    (destruct rb as [b|]; [destruct (truthyString b);
       [destruct (negb (isNaN (parseFloat (stripAmount b))))|]|];
     repeat split; reflexivity).
Qed.

Lemma dateErrors_length (tx : Transaction) :
  (length (dateErrors Date_parse Date_toISOString tx) <= 1)%nat.
Proof.
  rewrite dateErrors_cases.
  destruct (postedDate tx) as [s|]; simpl; [|lia].
  destruct (truthyString s); simpl; [|lia].
  destruct (Date_parse s); simpl; lia.
Qed.

(** normalizeTransactions returns one row per input row, in the same
    order, and each returned row equals its input on everything but the
    three normalized fields: raw fields, shadows and edit tracking are never
    touched.  It raises at most one flag per row. *)
Theorem normalize_preserves_rows (transactions : list Transaction) :
  let r := normalizeTransactions Date_parse Date_toISOString transactions in
  length (normalized r) = length transactions
  /\ Forall2 sameOutsideNormalized transactions (normalized r)
  /\ (length (errors r) <= length transactions)%nat.
Proof.
  intros r. unfold r. rewrite normalizeTransactions_rows. simpl.
  split; [apply length_map|]. split.
  - induction transactions as [|tx rest IH]; simpl; constructor.
    + apply normalizedRow_same.
    + exact IH.
  - induction transactions as [|tx rest IH]; [simpl; lia|].
    change (flat_map (dateErrors Date_parse Date_toISOString) (tx :: rest))
      with (dateErrors Date_parse Date_toISOString tx
            ++ flat_map (dateErrors Date_parse Date_toISOString) rest).
    rewrite length_app. pose proof (dateErrors_length tx). cbv zeta in IH.
    simpl length. lia.
Qed.

(** The normalizer flags dates only: a debit and a credit that do not
    parse give the amount 0 without any flag, and every flag it raises has
    field postedDate and severity error. *)
Theorem unparsable_amount_is_zero (transactions : list Transaction) :
  let r := normalizeTransactions Date_parse Date_toISOString transactions in
  Forall (fun f => Flag.field f = Some "postedDate" /\ Flag.severity f = error)
         (errors r)
  /\ forall (i : nat) (tx : Transaction),
       nth_error transactions i = Some tx ->
       parsedField (debit tx) = None -> parsedField (credit tx) = None ->
       option_map normalizedAmount (nth_error (normalized r) i)
       = Some (Present 0%float).
Proof.
  intros r. unfold r. rewrite normalizeTransactions_rows. simpl. split.
  - apply List.Forall_forall. intros f Hf. apply in_flat_map in Hf.
    destruct Hf as (tx & _ & Hf). rewrite dateErrors_cases in Hf.
    destruct (postedDate tx) as [s|]; [|contradiction].
    destruct (truthyString s); [|contradiction].
    destruct (Date_parse s); [contradiction|].
    destruct Hf as [<-|[]]. split; reflexivity.
  - intros i tx Hi Hd Hc. rewrite nth_error_map, Hi. simpl.
    rewrite normalizedRow_amount, rawAmount_signed. unfold signedAmount.
    rewrite Hd, Hc. vm_compute. reflexivity.
Qed.

End NormalizerFrame.

Lemma unparsable_amount_is_zero_witness :
  option_map normalizedAmount
    (nth_error (normalized (normalizeTransactions IsoDate.parse IsoDate.toISOString
                              [setDebit (Some "n/a") debitOnlyRow])) 0)
  = Some (Present 0%float).
Proof.
  apply (proj2 (unparsable_amount_is_zero IsoDate.parse IsoDate.toISOString
                  [setDebit (Some "n/a") debitOnlyRow])
           0%nat (setDebit (Some "n/a") debitOnlyRow)).
  - reflexivity.
  - vm_compute. reflexivity.
  - reflexivity.
Defined.

(** ** Edits: what one edit writes, and how edits compose *)

(** applyEdit as one record: what each property of the result holds. *)
Lemma applyEdit_record (tx : Transaction) (field : string) (v : option string) :
  applyEdit tx field v
  = mkTransaction (rowId tx)
      (if String.eqb field "postedDate" then v else postedDate tx)
      (if String.eqb field "description" then optStringOrEmpty v else description tx)
      (if String.eqb field "debit" then v else debit tx)
      (if String.eqb field "credit" then v else credit tx)
      (runningBalance tx) (normalizedDate tx) (normalizedAmount tx)
      (normalizedBalance tx)
      (if negb (truthyNullableString (originalPostedDate tx))
          && String.eqb field "postedDate"
       then ofOption (postedDate tx) else originalPostedDate tx)
      (if negb (truthyOptString (originalDescription tx))
          && String.eqb field "description"
       then Some (description tx) else originalDescription tx)
      (if negb (truthyNullableString (originalDebit tx))
          && String.eqb field "debit"
       then ofOption (debit tx) else originalDebit tx)
      (if negb (truthyNullableString (originalCredit tx))
          && String.eqb field "credit"
       then ofOption (credit tx) else originalCredit tx)
      (Some true)
      (Some (if includes field (fieldsOf tx)
             then fieldsOf tx else fieldsOf tx ++ [field])).
Proof.
  destruct tx as [id pd de db cr rb nd na nb opd ode odb ocr ie ef].
  unfold applyEdit, fieldsOf.
  destruct (String.eqb_spec field "postedDate") as [->|N1].
  { edit_simpl. destruct opd as [| |[|c s]]; edit_simpl;
      (destruct ef as [fs|]; edit_simpl;
       [destruct (includes "postedDate" fs)|]; edit_simpl; reflexivity). }
  destruct (String.eqb_spec field "description") as [->|N2].
  { edit_simpl. destruct ode as [[|c s]|]; edit_simpl;
      (destruct ef as [fs|]; edit_simpl;
       [destruct (includes "description" fs)|]; edit_simpl; reflexivity). }
  destruct (String.eqb_spec field "debit") as [->|N3].
  { edit_simpl. destruct odb as [| |[|c s]]; edit_simpl;
      (destruct ef as [fs|]; edit_simpl;
       [destruct (includes "debit" fs)|]; edit_simpl; reflexivity). }
  destruct (String.eqb_spec field "credit") as [->|N4].
  { edit_simpl. destruct ocr as [| |[|c s]]; edit_simpl;
      (destruct ef as [fs|]; edit_simpl;
       [destruct (includes "credit" fs)|]; edit_simpl; reflexivity). }
  edit_simpl.
  destruct ef as [fs|]; edit_simpl; [destruct (includes field fs)|];
    edit_simpl; reflexivity.
Qed.

Lemma applyEdit_untouched (tx : Transaction) (field : string) (v : option string) :
  let e := applyEdit tx field v in
  rowId e = rowId tx /\ runningBalance e = runningBalance tx
  /\ normalizedDate e = normalizedDate tx
  /\ normalizedAmount e = normalizedAmount tx
  /\ normalizedBalance e = normalizedBalance tx.
Proof.
  simpl. rewrite applyEdit_record. repeat split; reflexivity.
Qed.

Lemma applyEdit_other_field (tx : Transaction) (field g : string) (v : option string) :
  g <> field ->
  valueOf g (applyEdit tx field v) = valueOf g tx
  /\ originalOf g (applyEdit tx field v) = originalOf g tx.
Proof.
  intros Hg. rewrite applyEdit_record. unfold valueOf, originalOf. simpl.
  destruct (String.eqb_spec g "postedDate") as [->|G1].
  { destruct (String.eqb_spec field "postedDate") as [E|E]; [congruence|].
    rewrite andb_false_r. split; reflexivity. }
  destruct (String.eqb_spec g "description") as [->|G2].
  { destruct (String.eqb_spec field "description") as [E|E]; [congruence|].
    rewrite andb_false_r. split; reflexivity. }
  destruct (String.eqb_spec g "debit") as [->|G3].
  { destruct (String.eqb_spec field "debit") as [E|E]; [congruence|].
    rewrite andb_false_r. split; reflexivity. }
  destruct (String.eqb_spec g "credit") as [->|G4].
  { destruct (String.eqb_spec field "credit") as [E|E]; [congruence|].
    rewrite andb_false_r. split; reflexivity. }
  split; reflexivity.
Qed.

Section StaleDate.

Variable Date_parse : string -> option Z.
Variable Date_toISOString : Z -> string.

(** Clearing the date of a normalized row and normalizing again keeps the
    earlier normalized date and raises no flag: the stale date stays in the
    row. *)
Theorem cleared_date_stays_normalized (tx : Transaction) :
  let row := normalizedRow Date_parse Date_toISOString tx in
  let cleared := applyEdit row "postedDate" None in
  postedDate cleared = None
  /\ normalizedDate (normalizedRow Date_parse Date_toISOString cleared)
     = normalizedDate row
  /\ dateErrors Date_parse Date_toISOString cleared = [].
Proof.
  intros row cleared.
  assert (Hp : postedDate cleared = None).
  { unfold cleared. rewrite applyEdit_record. reflexivity. }
  assert (Hn : normalizedDate cleared = normalizedDate row).
  { unfold cleared. rewrite applyEdit_record. reflexivity. }
  split; [exact Hp|]. split.
  - rewrite normalizedRow_date, Hp. exact Hn.
  - rewrite dateErrors_cases, Hp. reflexivity.
Qed.

End StaleDate.

(** An edit of one field leaves the rest of the row as it was: rowId,
    runningBalance, the three normalized fields (which therefore go stale
    until the row is normalized again), and the value and the shadow of
    every other editable field. *)
Theorem applyEdit_frame (tx : Transaction) (field : string) (v : option string) :
  sameOutsideField field tx (applyEdit tx field v).
Proof.
  unfold sameOutsideField.
  destruct (applyEdit_untouched tx field v) as (H1 & H2 & H3 & H4 & H5).
  repeat split; try assumption; apply applyEdit_other_field; assumption.
Qed.

Lemma applyEdit_writes (field : string) (tx : Transaction) (v : option string) :
  In field editableFields ->
  valueOf field (applyEdit tx field v) = writtenValue field v.
Proof.
  intros Hin. unfold editableFields in Hin. simpl in Hin.
  rewrite applyEdit_record.
  destruct Hin as [<-|[<-|[<-|[<-|[]]]]]; reflexivity.
Qed.

(** The last edit of a field decides its value: after any run of edits of
    one editable field the field holds the last value written (for the
    description a cleared value is stored as the empty string). *)
Theorem applyEdit_last_write_wins (field : string) (tx : Transaction)
    (values : list (option string)) (v : option string) :
  In field editableFields ->
  valueOf field (applyEdits tx (editsOf field (values ++ [v]))) = writtenValue field v.
Proof.
  intros Hin. unfold applyEdits, editsOf.
  rewrite map_app, fold_left_app. simpl.
  apply applyEdit_writes, Hin.
Qed.

Lemma applyEdit_last_write_wins_witness :
  valueOf "description"
    (applyEdits debitOnlyRow (editsOf "description" ([Some "RENT"; Some "X"] ++ [None])))
  = Present EmptyString.
Proof.
  apply (applyEdit_last_write_wins "description" debitOnlyRow [Some "RENT"; Some "X"] None).
  unfold editableFields. simpl. auto.
Defined.

Lemma applyEdit_fields (tx : Transaction) (field : string) (v : option string) :
  fieldsOf (applyEdit tx field v)
  = if includes field (fieldsOf tx) then fieldsOf tx else fieldsOf tx ++ [field].
Proof.
  rewrite applyEdit_record. reflexivity.
Qed.

Lemma includes_false_not_In (x : string) (l : list string) :
  includes x l = false -> ~ In x l.
Proof.
  unfold includes. intros H Hin.
  assert (Ht : existsb (String.eqb x) l = true).
  { apply existsb_exists. exists x. split; [exact Hin|apply String.eqb_refl]. }
  rewrite H in Ht. discriminate.
Qed.

(** editedFields behaves as a set: an edit adds the field name when it is
    not there and never a second time, keeps every name already recorded,
    and keeps the list free of duplicates. *)
Theorem applyEdit_editedFields_set (tx : Transaction) (field : string)
    (v : option string) :
  let before := fieldsOf tx in
  let after := fieldsOf (applyEdit tx field v) in
  In field after
  /\ (forall g, In g before -> In g after)
  /\ (length after <= length before + 1)%nat
  /\ (List.NoDup before -> List.NoDup after).
Proof.
  intros before after. unfold after. rewrite applyEdit_fields. fold before.
  destruct (includes field before) eqn:Hi.
  - repeat split; try (intros; assumption); try lia.
    apply includes_In, Hi.
  - repeat split.
    + apply in_or_app. right. left. reflexivity.
    + intros g Hg. apply in_or_app. left. exact Hg.
    + rewrite length_app. simpl. lia.
    + intros Hnd. apply List.NoDup_app.
      * exact Hnd.
      * constructor; [intros []|constructor].
      * intros a Ha [<-|[]]. exact (includes_false_not_In _ _ Hi Ha).
Qed.

Lemma applyEdit_editedFields_set_witness :
  List.NoDup (fieldsOf (applyEdit (applyEdit debitOnlyRow "debit" None) "debit" (Some "1"))).
Proof.
  apply (proj2 (proj2 (proj2
           (applyEdit_editedFields_set (applyEdit debitOnlyRow "debit" None)
              "debit" (Some "1"))))).
  vm_compute. constructor; [intros []|constructor].
Defined.

(** ** The inline edit handler of the page *)

(** The map of handleEditTransaction keeps the number and the rowIds of
    the rows, edits exactly the rows carrying the given rowId (all of them,
    should the rowId occur twice), and changes nothing when no row carries
    it. *)
Theorem editTransactions_frame (transactions : list Transaction) (rowId_ field : string)
    (v : option string) :
  let updated := editTransactions transactions rowId_ field v in
  length updated = length transactions
  /\ map rowId updated = map rowId transactions
  /\ (forall (i : nat) (tx : Transaction), nth_error transactions i = Some tx ->
        nth_error updated i
        = Some (if String.eqb (rowId tx) rowId_ then applyEdit tx field v else tx))
  /\ (~ In rowId_ (map rowId transactions) -> updated = transactions).
Proof.
  intros updated. unfold updated, editTransactions.
  split; [apply length_map|]. split; [|split].
  - rewrite map_map. apply map_ext. intros tx.
    destruct (String.eqb (rowId tx) rowId_); [|reflexivity].
    apply applyEdit_untouched.
  - intros i tx Hi. rewrite nth_error_map, Hi. reflexivity.
  - intros Hnot. induction transactions as [|tx rest IH]; [reflexivity|].
    simpl. destruct (String.eqb_spec (rowId tx) rowId_) as [E|E].
    + exfalso. apply Hnot. left. exact E.
    + f_equal. apply IH. intros H. apply Hnot. right. exact H.
Qed.

Lemma editTransactions_frame_witness :
  editTransactions sampleTransactions "TXN999" "debit" (Some "1.00") = sampleTransactions.
Proof.
  apply (proj2 (proj2 (proj2
           (editTransactions_frame sampleTransactions "TXN999" "debit" (Some "1.00"))))).
  simpl. intros [H|[H|[H|[H|[H|[H|[H|[]]]]]]]]; discriminate H.
Defined.


(** ** The export handlers of the page *)

Lemma truthy_append (a b : string) :
  truthyString a = true -> truthyString (String.append a b) = true.
Proof.
  destruct a as [|c a]; [discriminate|reflexivity].
Qed.

Lemma csv_ready_nonempty (transactions : list Transaction) :
  exists csv, generateCSVExport transactions true = Some csv
              /\ truthyString csv = true.
Proof.
  unfold generateCSVExport. simpl.
  destruct (map csvRow transactions) as [|row rows]; eexists; split;
    reflexivity.
Qed.

Section ExportHandlers.

Variable Date_parse : string -> option Z.
Variable Date_toISOString : Z -> string.

Lemma ofx_ready_nonempty (now : Z) (metadata : StatementMetadata)
    (transactions : list Transaction) :
  exists ofx, generateOFXExport Date_toISOString now metadata transactions true = Some ofx
              /\ truthyString ofx = true.
Proof.
  unfold generateOFXExport. simpl negb. cbv iota.
  eexists. split; [reflexivity|].
  unfold concatStrings. simpl fold_right.
  apply truthy_append. reflexivity.
Qed.

(** The page exports only on PASS: handleExportCSV and handleExportOFX
    produce a document exactly when the page holds a validation result whose
    status is PASS, and the document is then the serializer's output for the
    freshly normalized rows, which is never null. *)
Theorem page_export_gate (now : Z) (metadata : StatementMetadata) (st : PageState) :
  let rows := normalized (normalizeTransactions Date_parse Date_toISOString
                            (pageTransactions st)) in
  let passed := match pageValidation st with
                | Some r => panelIsReady r
                | None => false
                end in
  handleExportCSV Date_parse Date_toISOString st
  = (if passed then generateCSVExport rows true else None)
  /\ handleExportOFX Date_parse Date_toISOString now metadata st
     = (if passed then generateOFXExport Date_toISOString now metadata rows true else None)
  /\ generateCSVExport rows true <> None
  /\ generateOFXExport Date_toISOString now metadata rows true <> None.
Proof.
  intros rows passed. unfold passed, handleExportCSV, handleExportOFX, panelIsReady.
  fold rows.
  destruct (csv_ready_nonempty rows) as (csv & Hc & Tc).
  destruct (ofx_ready_nonempty now metadata rows) as (ofx & Ho & To).
  rewrite Hc, Ho, Tc, To.
  destruct (pageValidation st) as [r|]; [destruct (status r)|];
    repeat split; try reflexivity; try discriminate.
Qed.

(** After an inline edit the page holds the edited rows and the verdict
    of their normalization, so the export that follows is decided by the
    balance identity of the edited statement alone: refused when the
    difference exceeds 0.01 and produced otherwise, whatever date errors the
    normalizer found in the edited rows. *)
Theorem export_after_edit (metadata : StatementMetadata) (st : PageState)
    (rowId_ field : string) (v : option string) :
  let st' := handleEditTransaction Date_parse Date_toISOString metadata st rowId_ field v in
  let rows := normalized (normalizeTransactions Date_parse Date_toISOString
                            (pageTransactions st')) in
  pageTransactions st' = editTransactions (pageTransactions st) rowId_ field v
  /\ pageValidation st' = Some (reconcileStatement Date_parse metadata rows)
  /\ handleExportCSV Date_parse Date_toISOString st'
     = (if (0.01 <? balanceDifference metadata rows)%float
        then None else generateCSVExport rows true)
  /\ generateCSVExport rows true <> None.
Proof.
  intros st' rows.
  split; [reflexivity|]. split; [reflexivity|].
  assert (Hcsv : handleExportCSV Date_parse Date_toISOString st'
                 = (if (0.01 <? balanceDifference metadata rows)%float
                    then None else generateCSVExport rows true)).
  { unfold handleExportCSV. fold rows.
    destruct (csv_ready_nonempty rows) as (csv & Hc & Tc).
    change (pageValidation st')
      with (Some (reconcileStatement Date_parse metadata rows)).
    destruct (reconcile_status Date_parse metadata rows) as [Hst _].
    rewrite Hst, (reconcile_error_flags Date_parse metadata rows), Hc, Tc.
    destruct (0.01 <? balanceDifference metadata rows)%float; reflexivity. }
  split; [exact Hcsv|].
  destruct (csv_ready_nonempty rows) as (csv & Hc & _). rewrite Hc. discriminate.
Qed.

End ExportHandlers.

(** ** Text extraction *)

Lemma substring0_append (w rest : string) :
  substring0 (String.length w) (String.append w rest) = w.
Proof.
  unfold substring0. induction w as [|c w IH]; simpl.
  - destruct rest; reflexivity.
  - now rewrite IH.
Qed.

Lemma string_append_assoc (a b c : string) :
  String.append a (String.append b c) = String.append (String.append a b) c.
Proof.
  induction a as [|x a IH]; [reflexivity|].
  change (String x (String.append a (String.append b c))
          = String x (String.append (String.append a b) c)).
  now rewrite IH.
Qed.

Lemma consumed_append (w rest : string) :
  Regex.consumed (String.append w rest) rest = w.
Proof.
  unfold Regex.consumed. rewrite length_string_append.
  replace (String.length w + String.length rest - String.length rest)%nat
    with (String.length w) by lia.
  apply substring0_append.
Qed.

Lemma repeatMatch_sound {A : Type} (p : ascii -> bool) (greedy : bool)
    (k : string -> option A) (s : string) :
  forall (min : nat) (max : option nat) (res : A),
    Regex.repeatMatch p greedy k s min max = Some res ->
    exists w rest,
      s = String.append w rest /\ allChars p w = true
      /\ (min <= String.length w)%nat
      /\ (forall m, max = Some m -> (String.length w <= m)%nat)
      /\ k rest = Some res.
Proof.
  assert (Hstop : forall s0 (min : nat) (max : option nat) (res : A),
             match min with O => k s0 | S _ => None end = Some res ->
             exists w rest,
               s0 = String.append w rest /\ allChars p w = true
               /\ (min <= String.length w)%nat
               /\ (forall m, max = Some m -> (String.length w <= m)%nat)
               /\ k rest = Some res).
  { intros s0 min max res H. destruct min; [|discriminate].
    exists EmptyString, s0. repeat split; try assumption; simpl; intros; lia. }
  assert (Hmore : forall c r (min : nat) (max : option nat) (res : A),
             p c = true -> Regex.more max = true ->
             (exists w rest,
                r = String.append w rest /\ allChars p w = true
                /\ (Nat.pred min <= String.length w)%nat
                /\ (forall m, Regex.less max = Some m -> (String.length w <= m)%nat)
                /\ k rest = Some res) ->
             exists w rest,
               String c r = String.append w rest /\ allChars p w = true
               /\ (min <= String.length w)%nat
               /\ (forall m, max = Some m -> (String.length w <= m)%nat)
               /\ k rest = Some res).
  { intros c r min max res Hp Hm (w & rest & -> & Hall & Hmin & Hmax & Hk).
    exists (String c w), rest. simpl. rewrite Hp, Hall.
    repeat split; try assumption; try lia.
    intros m ->. destruct m as [|m]; [discriminate|].
    specialize (Hmax m eq_refl). lia. }
  induction s as [|c r IH]; intros min max res H; simpl in H.
  - apply Hstop; exact H.
  - destruct (p c) eqn:Hp; simpl in H; [|apply Hstop; exact H].
    destruct (Regex.more max) eqn:Hm; [|apply Hstop; exact H].
    destruct min as [|m].
    + destruct greedy.
      * destruct (Regex.repeatMatch p true k r 0 (Regex.less max)) eqn:E.
        -- injection H as <-. apply Hmore; auto.
        -- apply (Hstop _ 0%nat); exact H.
      * destruct (k (String c r)) eqn:E.
        -- apply (Hstop _ 0%nat). rewrite E. exact H.
        -- apply Hmore; auto.
    + apply Hmore; auto.
Qed.

Lemma matchHere_sound (r : Regex.t) :
  forall (A : Type) (s : string) (caps : Regex.Captures)
         (k : string -> Regex.Captures -> option A) (res : A),
    Regex.matchHere r s caps k = Some res ->
    exists w rest caps',
      s = String.append w rest /\ Matches r w caps caps'
      /\ k rest caps' = Some res.
Proof.
  induction r as [|p|r1 IH1 r2 IH2|r1 IH1 r2 IH2|p min max greedy|n r IH];
    intros A s caps k res H; simpl in H.
  - exists EmptyString, s, caps. repeat split; [constructor|exact H].
  - destruct s as [|c rest]; [discriminate|].
    destruct (p c) eqn:Hp; [|discriminate].
    exists (str1 c), rest, caps. repeat split; [now constructor|exact H].
  - apply IH1 in H. destruct H as (w1 & rest1 & caps1 & -> & M1 & H).
    apply IH2 in H. destruct H as (w2 & rest2 & caps2 & -> & M2 & H).
    exists (String.append w1 w2), rest2, caps2. repeat split.
    + apply string_append_assoc.
    + econstructor; eassumption.
    + exact H.
  - destruct (Regex.matchHere r1 s caps k) eqn:E.
    + injection H as <-. apply IH1 in E.
      destruct E as (w & rest & caps' & -> & M & E).
      exists w, rest, caps'. repeat split; [now apply M_AltL|exact E].
    + apply IH2 in H. destruct H as (w & rest & caps' & -> & M & E').
      exists w, rest, caps'. repeat split; [now apply M_AltR|exact E'].
  - apply repeatMatch_sound in H.
    destruct H as (w & rest & -> & Hall & Hmin & Hmax & H).
    exists w, rest, caps. repeat split; [now constructor|exact H].
  - apply IH in H. destruct H as (w & rest & caps' & -> & M & H).
    rewrite consumed_append in H.
    exists w, rest, (Regex.setCapture n w caps'). repeat split;
      [now constructor|exact H].
Qed.

Lemma matchAt_sound (r : Regex.t) (s : string) (caps : Regex.Captures) :
  Regex.matchAt r s = Some caps ->
  exists w rest caps0,
    s = String.append w rest /\ Matches r w [] caps0
    /\ caps = Regex.setCapture 0 w caps0.
Proof.
  unfold Regex.matchAt. intros H. apply matchHere_sound in H.
  destruct H as (w & rest & caps' & -> & M & H).
  inversion M; subst. injection H as <-.
  eauto 6.
Qed.

Lemma search_sound (r : Regex.t) (s : string) :
  forall (start index : nat) (caps : Regex.Captures),
    Regex.search r s start = Some (index, caps) ->
    exists pre w rest caps0,
      s = String.append pre (String.append w rest)
      /\ index = (start + String.length pre)%nat
      /\ Matches r w [] caps0
      /\ caps = Regex.setCapture 0 w caps0.
Proof.
  induction s as [|c s IH]; intros start index caps H; simpl in H.
  - destruct (Regex.matchAt r EmptyString) eqn:E; [|discriminate].
    injection H as <- <-. apply matchAt_sound in E.
    destruct E as (w & rest & caps0 & E & M & ->).
    exists EmptyString, w, rest, caps0. simpl. repeat split; auto; lia.
  - destruct (Regex.matchAt r (String c s)) eqn:E.
    + injection H as <- <-. apply matchAt_sound in E.
      destruct E as (w & rest & caps0 & E & M & ->).
      exists EmptyString, w, rest, caps0. simpl. repeat split; auto; lia.
    + apply IH in H. destruct H as (pre & w & rest & caps0 & -> & -> & M & ->).
      exists (String c pre), w, rest, caps0. simpl. repeat split; auto; lia.
Qed.

Lemma match_sound (r : Regex.t) (s : string) (caps : Regex.Captures) :
  Regex.match_ r s = Some caps ->
  exists pre w rest caps0,
    s = String.append pre (String.append w rest)
    /\ Matches r w [] caps0
    /\ caps = Regex.setCapture 0 w caps0.
Proof.
  unfold Regex.match_. destruct (Regex.search r s 0) as [[i c]|] eqn:E;
    [|discriminate].
  simpl. intros [= <-]. apply search_sound in E.
  destruct E as (pre & w & rest & caps0 & ? & ? & ? & ?). eauto 8.
Qed.

(** *** The shape of the parser's matches *)

Ltac invert_match :=
  repeat match goal with
  | H : Matches (Regex.Seq _ _) _ _ _ |- _ => inversion H; clear H; subst
  | H : Matches (Regex.Group _ _) _ _ _ |- _ => inversion H; clear H; subst
  | H : Matches (Regex.Repeat _ _ _ _) _ _ _ |- _ => inversion H; clear H; subst
  | H : Matches (Regex.Class _) _ _ _ |- _ => inversion H; clear H; subst
  | H : Matches Regex.Empty _ _ _ |- _ => inversion H; clear H; subst
  | H : Matches (Regex.Alt _ _) _ _ _ |- _ => inversion H; clear H; subst
  end.

Lemma allChars_append (p : ascii -> bool) (a b : string) :
  allChars p (String.append a b) = allChars p a && allChars p b.
Proof.
  induction a as [|c a IH]; [reflexivity|].
  change (p c && allChars p (String.append a b)
          = p c && allChars p a && allChars p b).
  rewrite IH. apply andb_assoc.
Qed.

Lemma allChars_weaken (p q : ascii -> bool) (w : string) :
  (forall c, p c = true -> q c = true) ->
  allChars p w = true -> allChars q w = true.
Proof.
  intros Hpq. induction w as [|c w IH]; simpl; [reflexivity|].
  intros H. apply andb_true_iff in H as [H1 H2]. rewrite (Hpq _ H1). auto.
Qed.

Lemma amount_shape (w : string) (c0 c1 : Regex.Captures) :
  Matches Pattern.amount w c0 c1 ->
  c1 = c0 /\ allChars amountChar w = true /\ (1 <= String.length w)%nat.
Proof.
  intros M. cbv [Pattern.amount Regex.seq Regex.plus Regex.opt Regex.star] in M.
  invert_match.
  split; [reflexivity|]. split.
  - rewrite !allChars_append. repeat (apply andb_true_iff; split).
    + eapply allChars_weaken; [|eassumption]. intros c.
      unfold Regex.digitOrComma, Regex.only, amountChar. intros ->. reflexivity.
    + eapply allChars_weaken; [|eassumption]. intros c.
      unfold Regex.only, amountChar. intros ->. apply orb_true_r.
    + eapply allChars_weaken; [|eassumption]. intros c.
      unfold Regex.digit, amountChar. intros ->. reflexivity.
  - rewrite !length_string_append. lia.
Qed.

Lemma transaction_shape (w : string) (caps : Regex.Captures) :
  Matches Pattern.transaction w [] caps ->
  exists month day year desc amount1 amount2,
    caps = [(4%nat, amount2); (3%nat, amount1); (2%nat, desc);
            (1%nat, String.append month
                      (String.append "/"
                         (String.append day (String.append "/" year))))]
    /\ shortNumber month /\ shortNumber day /\ yearNumber year
    /\ allChars Regex.notDigitOrNewline desc = true
    /\ (1 <= String.length desc)%nat
    /\ allChars amountChar amount1 = true /\ (1 <= String.length amount1)%nat
    /\ allChars amountChar amount2 = true /\ (1 <= String.length amount2)%nat
    /\ (1 <= String.length w)%nat.
Proof.
  intros M.
  cbv [Pattern.transaction Regex.seq Regex.plus Regex.lazyPlus Regex.times
       Regex.chr] in M.
  repeat match goal with
  | H : Matches (Regex.Seq _ _) _ _ _ |- _ => inversion H; clear H; subst
  | H : Matches (Regex.Group _ _) _ _ _ |- _ => inversion H; clear H; subst
  | H : Matches (Regex.Repeat _ _ _ _) _ _ _ |- _ => inversion H; clear H; subst
  | H : Matches (Regex.Class _) _ _ _ |- _ => inversion H; clear H; subst
  | H : Matches Pattern.amount _ _ _ |- _ =>
      apply amount_shape in H; destruct H as (-> & ? & ?)
  end.
  repeat match goal with
  | H : Ascii.eqb _ _ = true |- _ => apply Ascii.eqb_eq in H; subst
  end.
  do 6 eexists. split; [reflexivity|].
  unfold shortNumber, yearNumber.
  repeat match goal with
  | H : forall m, Some ?k = Some m -> _ |- _ => specialize (H k eq_refl)
  end.
  repeat split; try assumption; try lia.
  rewrite !length_string_append. lia.
Qed.

(** *** The extraction loop *)

Lemma length_dropChars (n : nat) (s : string) :
  String.length (dropChars n s) = (String.length s - n)%nat.
Proof.
  revert s. induction n as [|n IH]; intros s; destruct s; simpl; auto.
Qed.

Lemma group_setCapture (n : nat) (w : string) (caps : Regex.Captures) :
  Regex.group n (Regex.setCapture n w caps) = w.
Proof.
  unfold Regex.group, Regex.setCapture. simpl. now rewrite Nat.eqb_refl.
Qed.

(** One step of the loop over the transaction pattern: the match is not
    empty, so lastIndex moves on. *)
Lemma transaction_step (s : string) (index : nat) (caps : Regex.Captures) :
  Regex.search Pattern.transaction s 0 = Some (index, caps) ->
  (exists w caps0, Matches Pattern.transaction w [] caps0
                   /\ caps = Regex.setCapture 0 w caps0)
  /\ (String.length (dropChars (index + String.length (Regex.group 0 caps)) s)
      < String.length s)%nat.
Proof.
  intros H. apply search_sound in H.
  destruct H as (pre & w & rest & caps0 & -> & -> & M & ->).
  split; [eauto|].
  rewrite group_setCapture, length_dropChars, !length_string_append.
  apply transaction_shape in M.
  destruct M as (? & ? & ? & ? & ? & ? & _ & _ & _ & _ & _ & _ & _ & _ & _ & _ & Hw).
  lia.
Qed.

Lemma execLoop_enough (fuel1 : nat) :
  forall (fuel2 : nat) (s : string),
    (String.length s < fuel1)%nat -> (String.length s < fuel2)%nat ->
    Regex.execLoop fuel1 Pattern.transaction s
    = Regex.execLoop fuel2 Pattern.transaction s.
Proof.
  induction fuel1 as [|fuel1 IH]; intros fuel2 s H1 H2; [lia|].
  destruct fuel2 as [|fuel2]; [lia|]. simpl.
  destruct (Regex.search Pattern.transaction s 0) as [[index caps]|] eqn:E;
    [|reflexivity].
  apply transaction_step in E. destruct E as [_ E].
  f_equal. apply IH; lia.
Qed.

Lemma execLoop_matches (fuel : nat) :
  forall s : string,
    Forall (fun caps => exists w caps0,
                Matches Pattern.transaction w [] caps0
                /\ caps = Regex.setCapture 0 w caps0)
           (Regex.execLoop fuel Pattern.transaction s).
Proof.
  induction fuel as [|fuel IH]; intros s; simpl; [exact (List.Forall_nil _)|].
  destruct (Regex.search Pattern.transaction s 0) as [[index caps]|] eqn:E;
    [|exact (List.Forall_nil _)].
  apply List.Forall_cons; [|apply IH].
  apply transaction_step in E. exact (proj1 E).
Qed.

Lemma execLoop_length (fuel : nat) :
  forall s : string,
    (length (Regex.execLoop fuel Pattern.transaction s) <= String.length s)%nat.
Proof.
  induction fuel as [|fuel IH]; intros s; simpl; [lia|].
  destruct (Regex.search Pattern.transaction s 0) as [[index caps]|] eqn:E;
    [|simpl; lia].
  apply transaction_step in E. destruct E as [_ E]. simpl.
  specialize (IH (dropChars (index + String.length (Regex.group 0 caps)) s)).
  lia.
Qed.

(** *** Row identifiers *)

Lemma decimalOfZ_inj (a b : Z) :
  0 <= a -> 0 <= b -> decimalOfZ a = decimalOfZ b -> a = b.
Proof.
  unfold decimalOfZ. intros Ha Hb H.
  assert (E : N.to_uint (Z.to_N a) = N.to_uint (Z.to_N b)).
  { assert (Hn : forall n, N.to_uint n <> Decimal.Nil).
    { intros [|p]; [discriminate|apply DecimalPos.Unsigned.to_uint_nonnil]. }
    apply (f_equal DecimalString.NilZero.uint_of_string) in H.
    rewrite !DecimalString.NilZero.usu in H by apply Hn. now injection H. }
  apply DecimalN.Unsigned.to_uint_inj in E. lia.
Qed.

Lemma rowIdsFrom_bound (n : nat) :
  forall (first i : Z),
    0 <= i < first ->
    ~ In (String.append "row_" (decimalOfZ i)) (rowIdsFrom first n).
Proof.
  induction n as [|n IH]; intros first i Hi; simpl; [tauto|].
  intros [H|H].
  - injection H as H. apply decimalOfZ_inj in H; lia.
  - revert H. apply IH. lia.
Qed.

Lemma rowIdsFrom_NoDup (n : nat) :
  forall first : Z, 0 <= first -> List.NoDup (rowIdsFrom first n).
Proof.
  induction n as [|n IH]; intros first H; simpl; constructor.
  - apply rowIdsFrom_bound. lia.
  - apply IH. lia.
Qed.

(** *** Matches that are found *)

(** A greedy repetition followed by a continuation that accepts the rest
    after the longest run stops there. *)
Lemma repeatMatch_greedy_max {A : Type} (p : ascii -> bool)
    (k : string -> option A) (rest : string) (res : A) (w : string) :
  forall (min : nat) (max : option nat),
    allChars p w = true ->
    (min <= String.length w)%nat ->
    (forall m, max = Some m -> (String.length w <= m)%nat) ->
    max = Some (String.length w) \/ allChars p (substring0 1 rest) = false
    \/ rest = EmptyString ->
    k rest = Some res ->
    Regex.repeatMatch p true k (String.append w rest) min max = Some res.
Proof.
  induction w as [|c w IH]; intros min max Hall Hmin Hmax Hstop Hk.
  - simpl in Hmin. assert (min = 0%nat) as -> by lia.
    change (String.append EmptyString rest) with rest.
    destruct rest as [|c r]; simpl; [exact Hk|].
    destruct Hstop as [->|[H|H]]; [rewrite andb_false_r; exact Hk| |discriminate].
    unfold substring0 in H. simpl in H.
    replace (p c) with false; [exact Hk|].
    destruct (p c); [|reflexivity]. destruct r; discriminate.
  - change (String.append (String c w) rest) with (String c (String.append w rest)).
    simpl in Hall. apply andb_true_iff in Hall as [Hc Hall].
    simpl. rewrite Hc. simpl.
    assert (Hm : Regex.more max = true).
    { destruct max as [[|m]|]; try reflexivity.
      specialize (Hmax 0%nat eq_refl). simpl in Hmax. lia. }
    rewrite Hm.
    assert (IH' : forall min', (min' <= String.length w)%nat ->
               Regex.repeatMatch p true k (String.append w rest) min'
                 (Regex.less max) = Some res).
    { intros min' Hmin'. apply IH; auto.
      - intros m E. destruct max as [m0|]; [|discriminate].
        simpl in E. injection E as <-.
        specialize (Hmax m0 eq_refl). simpl in Hmax. lia.
      - destruct Hstop as [->|H]; [left; reflexivity|right; exact H]. }
    destruct min as [|min].
    + rewrite IH' by lia. reflexivity.
    + apply IH'. simpl in Hmin. lia.
Qed.

Lemma search_here (r : Regex.t) (s : string) (index : nat) (caps : Regex.Captures) :
  Regex.matchAt r s = Some caps -> Regex.search r s index = Some (index, caps).
Proof.
  intros H. destruct s; simpl; rewrite H; reflexivity.
Qed.

Lemma match_here (r : Regex.t) (s : string) (caps : Regex.Captures) :
  Regex.matchAt r s = Some caps -> Regex.match_ r s = Some caps.
Proof.
  intros H. unfold Regex.match_. now rewrite (search_here _ _ 0 _ H).
Qed.

Lemma shortNumber_stop (w : string) (c : ascii) (rest : string) :
  shortNumber w -> isDigit c = false ->
  (forall m, Some 2%nat = Some m -> (String.length w <= m)%nat)
  /\ (Some 2%nat = Some (String.length w)
      \/ allChars Regex.digit (substring0 1 (String c rest)) = false
      \/ String c rest = EmptyString).
Proof.
  intros [_ H] Hc. split.
  - intros m [= <-]. lia.
  - right. left. unfold substring0. simpl. unfold Regex.digit. rewrite Hc.
    destruct rest; reflexivity.
Qed.

Ltac greedy_step :=
  cbn [Regex.matchHere]; cbn beta;
  apply repeatMatch_greedy_max.

Lemma slashDate_found (month day year rest : string) :
  shortNumber month -> shortNumber day -> yearNumber year ->
  exists whole,
    Regex.match_ Pattern.slashDate
      (String.append month
         (String "/" (String.append day (String "/" (String.append year rest)))))
    = Some [(0%nat, whole); (3%nat, year); (2%nat, day); (1%nat, month)].
Proof.
  intros Hm Hd Hy. eexists. apply match_here.
  unfold Regex.matchAt, Pattern.slashDate.
  cbv [Regex.seq Regex.times Regex.chr].
  destruct (shortNumber_stop month "/" (String.append day (String "/" (String.append year rest))) Hm eq_refl)
    as [Hm1 Hm2].
  destruct (shortNumber_stop day "/" (String.append year rest) Hd eq_refl)
    as [Hd1 Hd2].
  destruct Hm as [Hm3 Hm4], Hd as [Hd3 Hd4], Hy as [Hy1 Hy2].
  greedy_step; try assumption; try lia.
  cbn [Regex.matchHere Ascii.eqb Bool.eqb]. cbn beta.
  greedy_step; try assumption; try lia.
  cbn [Regex.matchHere Ascii.eqb Bool.eqb]. cbn beta.
  greedy_step; try assumption; try lia.
  - intros m [= <-]. lia.
  - left. now rewrite Hy2.
  - rewrite !consumed_append. reflexivity.
Qed.

(** *** parseDateString *)

Lemma length_padStart_short (w : string) :
  (1 <= String.length w <= 2)%nat -> String.length (padStart 2 "0" w) = 2%nat.
Proof.
  intros H. unfold padStart. rewrite length_string_append, length_repeatChar. lia.
Qed.

Lemma allChars_padStart_short (w : string) :
  allChars isDigit w = true -> allChars isDigit (padStart 2 "0" w) = true.
Proof.
  intros H. unfold padStart. rewrite allChars_append, H, andb_true_r.
  generalize (2 - String.length w)%nat. intros n.
  induction n as [|n IH]; [reflexivity|exact IH].
Qed.

Lemma no_slash_no_slashDate (s : string) :
  allChars (fun c => negb (Ascii.eqb c "/")) s = true ->
  Regex.match_ Pattern.slashDate s = None.
Proof.
  intros H. destruct (Regex.match_ Pattern.slashDate s) as [caps|] eqn:E;
    [|reflexivity].
  apply match_sound in E. destruct E as (pre & w & rest & caps0 & -> & M & _).
  cbv [Pattern.slashDate Regex.seq Regex.times Regex.chr] in M.
  invert_match.
  repeat match goal with
  | H : Ascii.eqb _ _ = true |- _ => apply Ascii.eqb_eq in H; subst
  end.
  rewrite !allChars_append in H. simpl in H.
  rewrite !andb_false_r in H. simpl in H.
  rewrite ?andb_false_r in H. discriminate.
Qed.

Section DateStringProperties.

Variable Date_getMonth : string -> option Z.

Lemma parseDateString_slash_value (month day year rest : string) :
  shortNumber month -> shortNumber day -> yearNumber year ->
  parseDateString Date_getMonth
    (String.append month
       (String "/" (String.append day (String "/" (String.append year rest)))))
  = Some (isoOf year month day).
Proof.
  intros Hm Hd Hy.
  destruct (slashDate_found month day year rest Hm Hd Hy) as [whole E].
  unfold parseDateString. rewrite E.
  destruct month as [|c month]; [destruct Hm as [_ Hm]; simpl in Hm; lia|].
  reflexivity.
Qed.

(** parseDateString on a slash date: the three numbers are rearranged
    into ten characters, year first, month and day padded to two digits;
    whatever follows the year is ignored, and no number is checked against a
    calendar. *)
Theorem parseDateString_slash (month day year rest : string) :
  shortNumber month -> shortNumber day -> yearNumber year ->
  let iso := isoOf year month day in
  parseDateString Date_getMonth
    (String.append month
       (String "/" (String.append day (String "/" (String.append year rest)))))
  = Some iso
  /\ String.length iso = 10%nat
  /\ iso = String.append year
             (String "-" (String.append (padStart 2 "0" month)
                            (String "-" (padStart 2 "0" day)))).
Proof.
  intros Hm Hd Hy iso.
  split; [|split].
  - now apply parseDateString_slash_value.
  - unfold iso, isoOf. rewrite !length_string_append.
    rewrite !length_padStart_short by apply Hm || apply Hd.
    destruct Hy as [_ ->]. reflexivity.
  - reflexivity.
Qed.

End DateStringProperties.

(** A month of 13 and a day of 45 pass through. *)
Lemma parseDateString_slash_witness :
  parseDateString MonthNames.getMonth "13/45/2024 and more" = Some "2024-13-45"
  /\ parseDateString MonthNames.getMonth "1/5/2024" = Some "2024-01-05".
Proof.
  split.
  - apply (parseDateString_slash MonthNames.getMonth "13" "45" "2024" " and more");
      unfold shortNumber, yearNumber; simpl; repeat split; lia.
  - apply (parseDateString_slash MonthNames.getMonth "1" "5" "2024" EmptyString);
      unfold shortNumber, yearNumber; simpl; repeat split; lia.
Defined.

Lemma class_facts (c : ascii) :
  (isWhiteSpace c = true -> Regex.letter c = false)
  /\ (isDigit c = true -> isWhiteSpace c = false)
  /\ (isWhiteSpace c = true -> isDigit c = false)
  /\ (isWhiteSpace c = true -> Ascii.eqb c "," = false)
  /\ (isWhiteSpace c = true -> Ascii.eqb c "/" = false)
  /\ (isDigit c = true -> Ascii.eqb c "/" = false)
  /\ (Regex.letter c = true -> Ascii.eqb c "/" = false).
Proof.
  destruct c as [[] [] [] [] [] [] [] []]; vm_compute; repeat split;
    intros; congruence.
Qed.

Lemma stop_by_head (p q : ascii -> bool) (w tail : string) :
  (1 <= String.length w)%nat -> allChars q w = true ->
  (forall c, q c = true -> p c = false) ->
  allChars p (substring0 1 (String.append w tail)) = false.
Proof.
  intros Hlen Hq Hpq. destruct w as [|c w]; [simpl in Hlen; lia|].
  simpl in Hq. apply andb_true_iff in Hq as [Hc _].
  change (String.append (String c w) tail) with (String c (String.append w tail)).
  unfold substring0. simpl. rewrite (Hpq c Hc).
  destruct (String.append w tail); reflexivity.
Qed.

Lemma string_append_empty (w : string) : String.append w EmptyString = w.
Proof.
  induction w as [|c w IH]; [reflexivity|].
  change (String c (String.append w EmptyString) = String c w). now rewrite IH.
Qed.

Lemma monthDate_found (name sp1 day comma sp2 year : string) :
  allChars Regex.letter name = true -> (1 <= String.length name)%nat ->
  allChars isWhiteSpace sp1 = true -> (1 <= String.length sp1)%nat ->
  shortNumber day -> comma = EmptyString \/ comma = "," ->
  allChars isWhiteSpace sp2 = true -> (1 <= String.length sp2)%nat ->
  yearNumber year ->
  exists whole,
    Regex.match_ Pattern.monthDate (longDateText name sp1 day comma sp2 year)
    = Some [(0%nat, whole); (3%nat, year); (2%nat, day); (1%nat, name)].
Proof.
  intros Hn Hn1 Hs1 Hs1' [Hd Hd'] Hc Hs2 Hs2' [Hy Hy'].
  eexists. apply match_here.
  unfold Regex.matchAt, Pattern.monthDate, longDateText.
  cbv [Regex.seq Regex.times Regex.plus Regex.opt].
  rewrite <- (string_append_empty year) at 1.
  greedy_step; try assumption; try lia; try discriminate.
  { right. left. apply (stop_by_head _ isWhiteSpace); auto.
    intros c. apply class_facts. }
  greedy_step; try assumption; try lia; try discriminate.
  { right. left. apply (stop_by_head _ isDigit); auto; [lia|].
    intros c. apply class_facts. }
  greedy_step; try assumption; try lia.
  { intros m [= <-]. lia. }
  { right. left. destruct Hc as [-> | ->]; [|reflexivity].
    change (String.append EmptyString (String.append sp2 (String.append year EmptyString)))
      with (String.append sp2 (String.append year EmptyString)).
    apply (stop_by_head _ isWhiteSpace); auto.
    intros c. apply class_facts. }
  greedy_step.
  { destruct Hc as [-> | ->]; reflexivity. }
  { lia. }
  { intros m [= <-]. destruct Hc as [-> | ->]; simpl; lia. }
  { destruct Hc as [-> | ->]; [right; left|left; reflexivity].
    apply (stop_by_head _ isWhiteSpace); auto.
    intros c H. unfold Regex.only. now apply class_facts. }
  greedy_step; try assumption; try lia; try discriminate.
  { right. left. apply (stop_by_head _ isDigit); auto; [lia|].
    intros c. apply class_facts. }
  greedy_step; try assumption; try lia.
  { intros m [= <-]. lia. }
  { left. now rewrite Hy'. }
  rewrite !consumed_append. reflexivity.
Qed.

Section LongDateProperties.

Variable Date_getMonth : string -> option Z.

(** parseDateString on the long form: the month is whatever number the
    date engine gives for the name, so a name it does not know ends up as
    the text NaN inside the date. *)
Theorem parseDateString_long (name sp1 day comma sp2 year : string) :
  allChars Regex.letter name = true -> (1 <= String.length name)%nat ->
  allChars isWhiteSpace sp1 = true -> (1 <= String.length sp1)%nat ->
  shortNumber day -> comma = EmptyString \/ comma = "," ->
  allChars isWhiteSpace sp2 = true -> (1 <= String.length sp2)%nat ->
  yearNumber year ->
  parseDateString Date_getMonth (longDateText name sp1 day comma sp2 year)
  = Some (isoOf year (monthNumber Date_getMonth name) day)
  /\ (Date_getMonth (String.append name " 1, 2000") = None ->
      parseDateString Date_getMonth (longDateText name sp1 day comma sp2 year)
      = Some (String.append year
                (String.append "-NaN-" (padStart 2 "0" day)))).
Proof.
  intros Hn Hn1 Hs1 Hs1' Hd Hc Hs2 Hs2' Hy.
  destruct (monthDate_found name sp1 day comma sp2 year) as [whole E]; auto.
  assert (Hmain : parseDateString Date_getMonth (longDateText name sp1 day comma sp2 year)
                  = Some (isoOf year (monthNumber Date_getMonth name) day)).
  { unfold parseDateString.
    rewrite no_slash_no_slashDate, E.
    - destruct name as [|c name]; [simpl in Hn1; lia|]. reflexivity.
    - unfold longDateText. rewrite !allChars_append.
      repeat (apply andb_true_iff; split).
      + eapply allChars_weaken; [|exact Hn]. intros c H.
        apply class_facts in H. now rewrite H.
      + eapply allChars_weaken; [|exact Hs1]. intros c H.
        apply class_facts in H. now rewrite H.
      + eapply allChars_weaken; [|exact (proj1 Hd)]. intros c H.
        apply class_facts in H. now rewrite H.
      + destruct Hc as [-> | ->]; reflexivity.
      + eapply allChars_weaken; [|exact Hs2]. intros c H.
        apply class_facts in H. now rewrite H.
      + eapply allChars_weaken; [|exact (proj1 Hy)]. intros c H.
        apply class_facts in H. now rewrite H. }
  split; [exact Hmain|].
  intros Hnan. rewrite Hmain. unfold monthNumber. rewrite Hnan. reflexivity.
Qed.

End LongDateProperties.

Lemma parseDateString_long_witness :
  parseDateString MonthNames.getMonth "January 5, 2024" = Some "2024-01-05"
  /\ parseDateString MonthNames.getMonth "Period  31 2024" = Some "2024-NaN-31".
Proof.
  split.
  - apply (parseDateString_long MonthNames.getMonth "January" " " "5" "," " " "2024");
      unfold shortNumber, yearNumber; simpl; auto; repeat split; lia.
  - apply (parseDateString_long MonthNames.getMonth "Period" "  " "31" EmptyString " " "2024");
      unfold shortNumber, yearNumber; simpl; auto; repeat split; lia.
Defined.

(** *** The rows of parseStatementText *)

Lemma allChars_trimStart (p : ascii -> bool) (s : string) :
  allChars p s = true -> allChars p (trimStart s) = true.
Proof.
  induction s as [|c s IH]; simpl; [reflexivity|].
  intros H. destruct (isWhiteSpace c); [|exact H].
  apply andb_true_iff in H as [_ H]. auto.
Qed.

Lemma allChars_trimEnd (p : ascii -> bool) (s : string) :
  allChars p s = true -> allChars p (trimEnd s) = true.
Proof.
  induction s as [|c s IH]; simpl; [reflexivity|].
  intros H. apply andb_true_iff in H as [Hc H]. specialize (IH H).
  destruct (trimEnd s) as [|d t].
  - destruct (isWhiteSpace c); simpl; [reflexivity|now rewrite Hc].
  - simpl. simpl in IH. now rewrite Hc, IH.
Qed.

Lemma not_empty_of_length (w : string) :
  (1 <= String.length w)%nat -> w <> EmptyString.
Proof.
  intros H ->. simpl in H. lia.
Qed.

Ltac open_rows :=
  unfold extractTransactions, parseStatementText; cbn [Parsed.transactions];
  unfold parsedTransactions, transactionMatches.

Ltac open_metadata :=
  unfold extractMetadata, parseStatementText; cbn [Parsed.metadata];
  unfold parsedMetadata.

Section RowProperties.

Variable Date_getMonth : string -> option Z.

Lemma buildTransaction_row (rowId_ : Z) (w : string) (caps0 : Regex.Captures) :
  Matches Pattern.transaction w [] caps0 ->
  let tx := buildTransaction Date_getMonth rowId_ (Regex.setCapture 0 w caps0) in
  rowId tx = String.append "row_" (decimalOfZ rowId_) /\ extractedRow tx.
Proof.
  intros M tx. apply transaction_shape in M.
  destruct M as (month & day & year & desc & amount1 & amount2 & -> & Hm & Hd
                 & Hy & Hdesc & _ & Ha1 & Hl1 & Ha2 & Hl2 & _).
  assert (Hdate : parseDateString Date_getMonth
                    (String.append month
                       (String.append "/"
                          (String.append day (String.append "/" year))))
                  = Some (isoOf year month day)).
  { rewrite <- (parseDateString_slash_value Date_getMonth month day year
                    EmptyString Hm Hd Hy).
    rewrite string_append_empty. reflexivity. }
  unfold tx, buildTransaction, Regex.group, Regex.setCapture, classify.
  cbn [Regex.capture Nat.eqb]. rewrite Hdate.
  split.
  - destruct (_ || _ || _); [|destruct (_ || _ || _)]; reflexivity.
  - unfold extractedRow.
    split; [exists month, day, year; repeat split; try apply Hm; try apply Hd;
            try apply Hy;
            destruct (_ || _ || _); [|destruct (_ || _ || _)]; reflexivity|].
    split; [exists amount1; split; [exact Ha1|];
            split; [now apply not_empty_of_length|];
            destruct (_ || _ || _); [|destruct (_ || _ || _)]; simpl; auto|].
    split; [exists amount2; split; [exact Ha2|];
            split; [now apply not_empty_of_length|];
            destruct (_ || _ || _); [|destruct (_ || _ || _)]; reflexivity|].
    split; [|destruct (_ || _ || _); [|destruct (_ || _ || _)];
             repeat split; reflexivity].
    assert (Ht : allChars Regex.notDigitOrNewline (trim desc) = true).
    { unfold trim. now apply allChars_trimEnd, allChars_trimStart. }
    destruct (_ || _ || _); [|destruct (_ || _ || _)]; exact Ht.
Qed.

Lemma buildTransactions_rows (matches : list Regex.Captures) :
  Forall (fun caps => exists w caps0,
              Matches Pattern.transaction w [] caps0
              /\ caps = Regex.setCapture 0 w caps0) matches ->
  forall first : Z,
    map rowId (buildTransactions Date_getMonth first matches)
    = rowIdsFrom first (length matches)
    /\ Forall extractedRow (buildTransactions Date_getMonth first matches).
Proof.
  induction 1 as [|caps rest (w & caps0 & M & ->) _ IH]; intros first.
  - split; [reflexivity|exact (List.Forall_nil _)].
  - destruct (IH (first + 1)) as [IH1 IH2].
    destruct (buildTransaction_row first w caps0 M) as [Hid Hrow].
    split.
    + simpl. rewrite IH1. f_equal. exact Hid.
    + simpl. apply List.Forall_cons; assumption.
Qed.

Lemma length_buildTransactions (matches : list Regex.Captures) :
  forall first : Z,
    length (buildTransactions Date_getMonth first matches) = length matches.
Proof.
  induction matches as [|caps rest IH]; intros first; simpl; [reflexivity|].
  now rewrite IH.
Qed.

Lemma extracted_ids (pdfText : string) :
  let rows := extractTransactions Date_getMonth pdfText in
  map rowId rows = rowIdsFrom 1 (length rows).
Proof.
  intros rows. unfold rows. open_rows.
  rewrite length_buildTransactions.
  apply buildTransactions_rows, execLoop_matches.
Qed.

(** The extraction loop ends by itself, with at most one row per character
    of the text, and numbers its rows row_1, row_2, ... in text order; no
    two rows share an identifier. *)
Theorem extraction_row_ids (pdfText : string) :
  let rows := extractTransactions Date_getMonth pdfText in
  (forall fuel : nat,
      (String.length pdfText < fuel)%nat ->
      buildTransactions Date_getMonth 1 (transactionMatches fuel pdfText) = rows)
  /\ (length rows <= String.length pdfText)%nat
  /\ map rowId rows = rowIdsFrom 1 (length rows)
  /\ List.NoDup (map rowId rows).
Proof.
  intros rows. split; [|split; [|split]].
  - intros fuel Hfuel. unfold rows. open_rows.
    f_equal. apply execLoop_enough; lia.
  - unfold rows. open_rows.
    rewrite length_buildTransactions. apply execLoop_length.
  - apply extracted_ids.
  - unfold rows. rewrite extracted_ids. apply rowIdsFrom_NoDup. lia.
Qed.

(** Every extracted row carries a ten-character date built from the slash
    date, exactly one of debit and credit (the first amount), the second
    amount as running balance, a description without digits or line
    breaks, and no normalized or edit field. *)
Theorem extraction_row_shape (pdfText : string) :
  Forall extractedRow (extractTransactions Date_getMonth pdfText).
Proof.
  open_rows.
  apply buildTransactions_rows, execLoop_matches.
Qed.

End RowProperties.

(** *** Editing one row of a table with distinct identifiers *)

Lemma editTransactions_absent (transactions : list Transaction)
    (rowId_ field : string) (v : option string) :
  ~ In rowId_ (map rowId transactions) ->
  editTransactions transactions rowId_ field v = transactions.
Proof.
  intros Hnot. induction transactions as [|tx rest IH]; [reflexivity|].
  unfold editTransactions in *. simpl.
  destruct (String.eqb_spec (rowId tx) rowId_) as [E|E].
  - exfalso. apply Hnot. left. exact E.
  - f_equal. apply IH. intros H. apply Hnot. right. exact H.
Qed.

Lemma editTransactions_one (transactions : list Transaction) :
  forall (i : nat) (tx : Transaction) (field : string) (v : option string),
    List.NoDup (map rowId transactions) ->
    transactions !! i = Some tx ->
    editTransactions transactions (rowId tx) field v
    = <[i := applyEdit tx field v]> transactions.
Proof.
  induction transactions as [|t rest IH]; intros i tx field v Hnd Hi;
    [discriminate|].
  inversion Hnd as [|? ? Hnotin Hnd']; subst.
  destruct i as [|i].
  - injection Hi as ->.
    change (editTransactions (tx :: rest) (rowId tx) field v)
      with ((if String.eqb (rowId tx) (rowId tx) then applyEdit tx field v else tx)
              :: editTransactions rest (rowId tx) field v).
    rewrite String.eqb_refl, editTransactions_absent by exact Hnotin.
    reflexivity.
  - change (editTransactions (t :: rest) (rowId tx) field v)
      with ((if String.eqb (rowId t) (rowId tx) then applyEdit t field v else t)
              :: editTransactions rest (rowId tx) field v).
    destruct (String.eqb_spec (rowId t) (rowId tx)) as [E|E].
    + exfalso. apply Hnotin. rewrite E. apply in_map.
      apply list_elem_of_In. eapply list_elem_of_lookup_2. exact Hi.
    + simpl. f_equal. apply IH; assumption.
Qed.

(** *** The metadata of parseStatementText *)

Ltac upper_facts :=
  repeat match goal with
  | H : Ascii.eqb (upperAscii ?c) (upperAscii ?x) = true |- _ =>
      apply Ascii.eqb_eq in H;
      let v := eval vm_compute in (upperAscii x) in
      change (upperAscii x) with v in H
  end.

Lemma currency_shape (w : string) (caps : Regex.Captures) :
  Matches Pattern.currency w [] caps ->
  caps = [] /\ In (toUpperCase w) currencyWords.
Proof.
  intros M. cbv [Pattern.currency Regex.alt Regex.lit Regex.chr] in M.
  invert_match; upper_facts; (split; [reflexivity|]);
    cbv [String.append str1 toUpperCase];
    repeat match goal with H : upperAscii _ = _ |- _ => rewrite H; clear H end;
    simpl; tauto.
Qed.

Lemma balance_shape (amount : string) :
  allChars amountChar amount = true ->
  allChars plainAmountChar (replaceChar "," EmptyString amount) = true.
Proof.
  induction amount as [|c amount IH]; [reflexivity|].
  intros H. apply andb_true_iff in H as [Hc H]. specialize (IH H).
  cbn [replaceChar]. destruct (Ascii.eqb_spec "," c) as [<-|Hne]; [exact IH|].
  cbn [allChars]. rewrite IH, andb_true_r.
  unfold amountChar in Hc. unfold plainAmountChar.
  destruct (isDigit c); [reflexivity|]. cbn [orb] in *.
  destruct (Ascii.eqb_spec c ","); [congruence|exact Hc].
Qed.

Lemma opening_shape (w : string) (caps : Regex.Captures) :
  Matches Pattern.opening w [] caps ->
  exists amount, caps = [(1%nat, amount)] /\ allChars amountChar amount = true.
Proof.
  intros M.
  cbv [Pattern.opening Regex.seq Regex.alt Regex.lit Regex.chr Regex.plus
       Regex.star Regex.opt] in M.
  repeat match goal with
  | H : Matches (Regex.Seq _ _) _ _ _ |- _ => inversion H; clear H; subst
  | H : Matches (Regex.Alt _ _) _ _ _ |- _ => inversion H; clear H; subst
  | H : Matches (Regex.Group _ _) _ _ _ |- _ => inversion H; clear H; subst
  | H : Matches (Regex.Repeat _ _ _ _) _ _ _ |- _ => inversion H; clear H; subst
  | H : Matches (Regex.Class _) _ _ _ |- _ => inversion H; clear H; subst
  | H : Matches Pattern.amount _ _ _ |- _ =>
      apply amount_shape in H; destruct H as (-> & ? & ?)
  end; eexists; split; try reflexivity; assumption.
Qed.

Lemma closing_shape (w : string) (caps : Regex.Captures) :
  Matches Pattern.closing w [] caps ->
  exists amount, caps = [(1%nat, amount)] /\ allChars amountChar amount = true.
Proof.
  intros M.
  cbv [Pattern.closing Regex.seq Regex.alt Regex.lit Regex.chr Regex.plus
       Regex.star Regex.opt] in M.
  repeat match goal with
  | H : Matches (Regex.Seq _ _) _ _ _ |- _ => inversion H; clear H; subst
  | H : Matches (Regex.Alt _ _) _ _ _ |- _ => inversion H; clear H; subst
  | H : Matches (Regex.Group _ _) _ _ _ |- _ => inversion H; clear H; subst
  | H : Matches (Regex.Repeat _ _ _ _) _ _ _ |- _ => inversion H; clear H; subst
  | H : Matches (Regex.Class _) _ _ _ |- _ => inversion H; clear H; subst
  | H : Matches Pattern.amount _ _ _ |- _ =>
      apply amount_shape in H; destruct H as (-> & ? & ?)
  end; eexists; split; try reflexivity; assumption.
Qed.

Lemma accountNumber_shape (w : string) (caps : Regex.Captures) :
  Matches Pattern.accountNumber w [] caps ->
  exists digits, caps = [(1%nat, digits)] /\ yearNumber digits.
Proof.
  intros M.
  cbv [Pattern.accountNumber Regex.seq Regex.alt Regex.lit Regex.chr Regex.plus
       Regex.star Regex.times] in M.
  invert_match; eexists; (split; [reflexivity|]); split; try assumption;
    match goal with
    | H : forall m, Some 4%nat = Some m -> _ |- _ => specialize (H 4%nat eq_refl)
    end; lia.
Qed.

Section MetadataProperties.

Variable Date_getMonth : string -> option Z.

(** The currency of a parsed statement is always set, to one of six words:
    a currency code found in the text, the word CURRENCY itself when the
    text holds that word before any code, or USD when nothing is found; so
    the document gate never reports a missing currency for it. *)
Theorem extraction_currency (pdfText : string) :
  let m := extractMetadata Date_getMonth pdfText in
  (exists c, currency m = Some c /\ In c currencyWords)
  /\ (Regex.match_ Pattern.currency pdfText = None -> currency m = Some "USD")
  /\ ~ In "Currency not identified" (Doc.reasons (validateDocument m)).
Proof.
  intros m.
  assert (Hc : exists c, currency m = Some c /\ In c currencyWords
                         /\ (Regex.match_ Pattern.currency pdfText = None -> c = "USD")).
  { unfold m. open_metadata.
    destruct (Regex.match_ Pattern.currency pdfText) as [caps|] eqn:E.
    - apply match_sound in E.
      destruct E as (pre & w & rest & caps0 & _ & M & ->).
      apply currency_shape in M. destruct M as [-> M].
      eexists. split; [reflexivity|]. split; [exact M|discriminate].
    - eexists. split; [reflexivity|]. split; [simpl; tauto|reflexivity]. }
  destruct Hc as (c & Hc & Hin & Husd).
  split; [eauto|]. split; [intros H; rewrite Hc, (Husd H); reflexivity|].
  unfold validateDocument, pushIfMissing. rewrite Hc.
  assert (Ht : truthyOptString (Some c) = true).
  { simpl in Hin. destruct Hin as [<-|[<-|[<-|[<-|[<-|[<-|[]]]]]]]; reflexivity. }
  rewrite Ht. simpl.
  repeat match goal with
  | |- context [truthyOptString ?x] => destruct (truthyOptString x)
  end; simpl; intuition discriminate.
Qed.

(** What parseStatementText never fills in, and the shape of what it does:
    the account type and the totals stay null; the last four digits are
    four digits; a balance is stored without commas, made of digits and
    periods only, together with the number parseFloat reads from it. *)
Theorem extraction_metadata_shape (pdfText : string) :
  let m := extractMetadata Date_getMonth pdfText in
  accountType m = None /\ totalDebits m = None /\ totalCredits m = None
  /\ normalizedTotalDebits m = None /\ normalizedTotalCredits m = None
  /\ fourDigits (accountNumberLastFour m)
  /\ balanceFields (openingBalance m) (normalizedOpeningBalance m)
  /\ balanceFields (closingBalance m) (normalizedClosingBalance m).
Proof.
  intros m. unfold m. open_metadata. unfold whenMatch.
  destruct (Regex.match_ Pattern.bank pdfText) as [c1|];
  destruct (Regex.match_ Pattern.account pdfText) as [c2|];
  destruct (Regex.match_ Pattern.dateRange pdfText) as [c4|];
  destruct (Regex.match_ Pattern.accountNumber pdfText) as [c3|] eqn:E3;
  destruct (Regex.match_ Pattern.opening pdfText) as [c5|] eqn:E5;
  destruct (Regex.match_ Pattern.closing pdfText) as [c6|] eqn:E6;
  cbn [accountType totalDebits totalCredits normalizedTotalDebits
       normalizedTotalCredits accountNumberLastFour openingBalance
       normalizedOpeningBalance closingBalance normalizedClosingBalance
       setCurrency setClosingBalance setOpeningBalance setStatementDates
       setAccountNumberLastFour setAccountName setFinancialInstitution
       emptyMetadata fourDigits balanceFields];
  repeat match goal with
  | H : Regex.match_ Pattern.accountNumber _ = Some _ |- _ =>
      apply match_sound in H;
      destruct H as (? & ? & ? & ? & _ & H & ->);
      apply accountNumber_shape in H; destruct H as (? & -> & ?)
  | H : Regex.match_ Pattern.opening _ = Some _ |- _ =>
      apply match_sound in H;
      destruct H as (? & ? & ? & ? & _ & H & ->);
      apply opening_shape in H; destruct H as (? & -> & ?)
  | H : Regex.match_ Pattern.closing _ = Some _ |- _ =>
      apply match_sound in H;
      destruct H as (? & ? & ? & ? & _ & H & ->);
      apply closing_shape in H; destruct H as (? & -> & ?)
  end;
  repeat split; try assumption; try reflexivity;
  try (apply balance_shape; assumption);
  match goal with H : yearNumber _ |- _ => apply H end.
Qed.

End MetadataProperties.

(** ** Dates against the statement period *)

Lemma date_check_needs_period_witness :
  Forall (fun f => Flag.field f <> Some "postedDate")
    (flags (reconcileStatement IsoDate.parse bareMetadata
              (normalized (normalizeTransactions IsoDate.parse IsoDate.toISOString
                             sampleTransactions)))).
Proof.
  apply (date_check_needs_period IsoDate.parse bareMetadata). reflexivity.
Defined.

Section PeriodProperties.

Variable Date_parse : string -> option Z.



End PeriodProperties.


(** ** Editing an extracted row *)

Section ExtractedEdit.

Variable Date_getMonth : string -> option Z.

(** The identifiers of extracted rows are distinct, so an inline edit
    addressed to the identifier of the row at some position replaces that
    row and no other. *)
Theorem extracted_edit_one_row (pdfText : string) (i : nat) (tx : Transaction)
    (field : string) (v : option string) :
  let rows := extractTransactions Date_getMonth pdfText in
  rows !! i = Some tx ->
  editTransactions rows (rowId tx) field v = <[i := applyEdit tx field v]> rows.
Proof.
  intros rows Hi. apply editTransactions_one; [|exact Hi].
  unfold rows. rewrite extracted_ids. apply rowIdsFrom_NoDup. lia.
Qed.

End ExtractedEdit.

Lemma extracted_edit_one_row_witness :
  sampleRows !! 1%nat = Some sampleRow2
  /\ editTransactions sampleRows "row_2" "description" (Some "Salary")
     = <[1%nat := applyEdit sampleRow2 "description" (Some "Salary")]> sampleRows.
Proof.
  split; [vm_compute; reflexivity|].
  apply (extracted_edit_one_row MonthNames.getMonth sampleText 1 sampleRow2
           "description" (Some "Salary")).
  vm_compute. reflexivity.
Defined.

(** ** The arithmetic of simpleHash *)

Lemma toInt32_add_l (a b : Z) : toInt32 (toInt32 a + b) = toInt32 (a + b).
Proof.
  unfold toInt32.
  replace ((a + 2147483648) mod 4294967296 - 2147483648 + b + 2147483648)
    with ((a + 2147483648) mod 4294967296 + b) by lia.
  rewrite Z.add_mod_idemp_l by lia.
  replace (a + 2147483648 + b) with (a + b + 2147483648) by lia. reflexivity.
Qed.

Lemma toInt32_idem (a : Z) : toInt32 (toInt32 a) = toInt32 a.
Proof.
  pose proof (toInt32_add_l a 0) as H. now rewrite !Z.add_0_r in H.
Qed.

Lemma toInt32_mul_r (k a : Z) : toInt32 (k * toInt32 a) = toInt32 (k * a).
Proof.
  unfold toInt32. f_equal.
  rewrite <- (Zplus_mod_idemp_l (k * _)), <- (Zplus_mod_idemp_l (k * a)).
  f_equal. f_equal.
  rewrite <- (Zmult_mod_idemp_r _ k), <- (Zmult_mod_idemp_r a k).
  f_equal. f_equal.
  replace ((a + 2147483648) mod 4294967296 - 2147483648)
    with ((a + 2147483648) mod 4294967296 + (-1) * 2147483648) by lia.
  rewrite <- Zplus_mod_idemp_l, Z.mod_mod by lia.
  rewrite Zplus_mod_idemp_l.
  replace (a + 2147483648 + -1 * 2147483648) with a by lia. reflexivity.
Qed.

Lemma hashStep_spec (h : Z) (c : ascii) :
  hashStep h c = toInt32 (31 * h + charCode c).
Proof.
  unfold hashStep, and32, shl32. rewrite Z.land_diag, toInt32_idem.
  rewrite Z.shiftl_mul_pow2 by lia.
  replace (toInt32 (h * 2 ^ 5) - h + charCode c)
    with (toInt32 (h * 2 ^ 5) + (- h + charCode c)) by lia.
  rewrite toInt32_add_l. f_equal. lia.
Qed.

Lemma hashStep_congr (h1 h2 : Z) (c : ascii) :
  toInt32 h1 = toInt32 h2 -> hashStep h1 c = hashStep h2 c.
Proof.
  intros H. rewrite !hashStep_spec.
  rewrite <- (toInt32_add_l (31 * h1)), <- (toInt32_add_l (31 * h2)).
  rewrite <- (toInt32_mul_r 31 h1), <- (toInt32_mul_r 31 h2), H. reflexivity.
Qed.

Lemma hashLoop_congr (s : string) :
  forall h1 h2 : Z,
    toInt32 h1 = toInt32 h2 ->
    toInt32 (hashLoop s h1) = toInt32 (hashLoop s h2).
Proof.
  induction s as [|c s IH]; intros h1 h2 H; simpl; [exact H|].
  apply IH. f_equal. now apply hashStep_congr.
Qed.

Lemma hashLoop_polynomial (s : string) :
  forall h : Z, toInt32 (hashLoop s h) = toInt32 (polynomial s h).
Proof.
  induction s as [|c s IH]; intros h; simpl; [reflexivity|].
  rewrite <- IH. apply hashLoop_congr.
  rewrite hashStep_spec. apply toInt32_idem.
Qed.

Lemma polynomial_linear (s : string) :
  forall h : Z,
    polynomial s h = h * 31 ^ Z.of_nat (String.length s) + polynomial s 0.
Proof.
  induction s as [|c s IH]; intros h.
  - simpl. lia.
  - cbn [polynomial String.length]. rewrite IH, (IH (31 * 0 + charCode c)).
    rewrite Nat2Z.inj_succ, Z.pow_succ_r by lia. lia.
Qed.

Lemma hashLoop_in_range (s : string) :
  forall h : Z, toInt32 h = h -> toInt32 (hashLoop s h) = hashLoop s h.
Proof.
  induction s as [|c s IH]; intros h H; simpl; [exact H|].
  apply IH. rewrite hashStep_spec. apply toInt32_idem.
Qed.

Lemma hashLoop_append (a b : string) :
  forall h : Z, hashLoop (String.append a b) h = hashLoop b (hashLoop a h).
Proof.
  induction a as [|c a IH]; intros h; [reflexivity|].
  change (hashLoop (String.append a b) (hashStep h c)
          = hashLoop b (hashLoop a (hashStep h c))).
  apply IH.
Qed.

Lemma toInt32_add_congr (a b c : Z) :
  toInt32 a = toInt32 b -> toInt32 (c + a) = toInt32 (c + b).
Proof.
  intros H.
  replace (c + a) with (a + c) by lia. replace (c + b) with (b + c) by lia.
  rewrite <- (toInt32_add_l a), <- (toInt32_add_l b), H. reflexivity.
Qed.

Lemma collision_in_context (u v : string) :
  String.length u = String.length v -> hashLoop u 0 = hashLoop v 0 ->
  forall before after : string,
    simpleHash (String.append before (String.append u after))
    = simpleHash (String.append before (String.append v after)).
Proof.
  intros Hlen Hcol before after. unfold simpleHash.
  rewrite !hashLoop_append. do 3 f_equal.
  set (h := hashLoop before 0).
  assert (Hh : toInt32 h = h) by (apply hashLoop_in_range; reflexivity).
  rewrite <- (hashLoop_in_range u h Hh), <- (hashLoop_in_range v h Hh).
  rewrite !hashLoop_polynomial.
  rewrite (polynomial_linear u h), (polynomial_linear v h), Hlen.
  apply toInt32_add_congr.
  rewrite <- !hashLoop_polynomial. now rewrite Hcol.
Qed.

(** simpleHash is a polynomial in base 31 reduced to 32 bits, so a
    collision between two words of the same length is a collision in every
    context: put between the same prefix and suffix they still hash alike,
    and two transactions that differ only by such words in their
    descriptions get the same hash and the same FITID. *)
Theorem hash_collisions_extend (u v : string) :
  String.length u = String.length v -> hashLoop u 0 = hashLoop v 0 ->
  (forall before after : string,
      simpleHash (String.append before (String.append u after))
      = simpleHash (String.append before (String.append v after)))
  /\ (forall (tx : Transaction) (before after accountLastFour : string),
        Hash.hash (generateTransactionHash (withWord tx before u after) accountLastFour)
        = Hash.hash (generateTransactionHash (withWord tx before v after) accountLastFour)
        /\ generateFITID (withWord tx before u after) accountLastFour
           = generateFITID (withWord tx before v after) accountLastFour).
Proof.
  intros Hlen Hcol. split; [now apply collision_in_context|].
  intros tx before after acct.
  assert (H : simpleHash (hashInput (withWord tx before u after) acct)
              = simpleHash (hashInput (withWord tx before v after) acct)).
  { unfold hashInput, withWord. cbn [rowId normalizedDate normalizedAmount
                                     description setDescription].
    rewrite !string_append_assoc.
    match goal with
    | |- context [String.append (String.append ?p before) u] =>
        set (P := String.append p before)
    end.
    rewrite <- !string_append_assoc.
    now apply collision_in_context. }
  split.
  - exact H.
  - unfold generateFITID, generateTransactionHash. cbn [Hash.hash]. now rewrite H.
Qed.

Lemma hash_collisions_extend_witness :
  simpleHash "PAYMENT Aa 0042" = simpleHash "PAYMENT BB 0042"
  /\ generateFITID (withWord lateRow "PAYMENT " "Aa" " 0042") "4567"
     = generateFITID (withWord lateRow "PAYMENT " "BB" " 0042") "4567".
Proof.
  destruct (hash_collisions_extend "Aa" "BB" eq_refl eq_refl) as [H1 H2].
  split.
  - exact (H1 "PAYMENT " " 0042").
  - exact (proj2 (H2 lateRow "PAYMENT " " 0042" "4567")).
Defined.

(** ** The description column of the CSV export *)

Lemma append_cons (c : ascii) (a b : string) :
  String.append (String c a) b = String c (String.append a b).
Proof. reflexivity. Qed.

Lemma append_cancel_l (a x y : string) :
  String.append a x = String.append a y -> x = y.
Proof.
  induction a as [|c a IH]; [exact (fun H => H)|].
  rewrite !append_cons. intros [= H]. exact (IH H).
Qed.

(** Doubling the quotes can be undone: the closing quote of a field is
    followed by a comma, a doubled quote by a quote. *)
Lemma escaped_description_inj (d1 : string) :
  forall (d2 r1 r2 : string),
    String.append (replaceChar quoteChar (String quoteChar (str1 quoteChar)) d1)
      (String quoteChar (String "," r1))
    = String.append (replaceChar quoteChar (String quoteChar (str1 quoteChar)) d2)
        (String quoteChar (String "," r2)) ->
    d1 = d2.
Proof.
  assert (Hq : String quoteChar EmptyString <> String "," EmptyString)
    by discriminate.
  induction d1 as [|c1 d1 IH]; intros d2 r1 r2 H; destruct d2 as [|c2 d2];
    cbn [replaceChar] in H.
  - reflexivity.
  - exfalso. change (String.append EmptyString ?x) with x in H.
    destruct (Ascii.eqb_spec quoteChar c2) as [<-|N].
    + unfold str1 in H. rewrite !append_cons in H.
      injection H as H. apply Hq. now rewrite H.
    + rewrite append_cons in H. injection H as H _. congruence.
  - exfalso. change (String.append EmptyString ?x) with x in H.
    destruct (Ascii.eqb_spec quoteChar c1) as [<-|N].
    + unfold str1 in H. rewrite !append_cons in H.
      injection H as H. apply Hq. now rewrite H.
    + rewrite append_cons in H. injection H as H _. congruence.
  - destruct (Ascii.eqb_spec quoteChar c1) as [<-|N1];
      destruct (Ascii.eqb_spec quoteChar c2) as [<-|N2].
    + unfold str1 in H. rewrite !append_cons in H.
      change (String.append EmptyString ?x) with x in H.
      injection H as H. f_equal. exact (IH _ _ _ H).
    + exfalso. unfold str1 in H. rewrite !append_cons in H.
      injection H as H _. congruence.
    + exfalso. unfold str1 in H. rewrite !append_cons in H.
      injection H as H _. congruence.
    + rewrite !append_cons in H. injection H as H1 H. subst c2.
      f_equal. exact (IH _ _ _ H).
Qed.

(** The CSV export loses no description: two rows that print the same
    date and give the same CSV row have the same description, whatever
    quotes, commas or line breaks it holds. *)
Theorem csvRow_keeps_description (tx1 tx2 : Transaction) :
  stringOr (normalizedDate tx1) EmptyString = stringOr (normalizedDate tx2) EmptyString ->
  csvRow tx1 = csvRow tx2 ->
  description tx1 = description tx2.
Proof.
  intros Hd H. unfold csvRow in H. cbv zeta in H. rewrite Hd in H.
  apply append_cancel_l in H.
  change (String.append "," ?x) with (String "," x) in H.
  injection H as H.
  rewrite <- !string_append_assoc in H. unfold str1 in H.
  rewrite !append_cons in H.
  change (String.append EmptyString ?x) with x in H.
  exact (escaped_description_inj _ _ _ _ H).
Qed.

Lemma csvRow_keeps_description_witness :
  description quotedRow = description (setDebit None (setCredit (Some "1.00") quotedRow)).
Proof.
  apply (csvRow_keeps_description quotedRow
           (setDebit None (setCredit (Some "1.00") quotedRow)));
    reflexivity.
Defined.
